(** * aio-warehouse-bot: the dialogue engine and the inventory store

    A shallow embedding of [utils.py], [db.py], [filters.py] and the
    handlers of [main.py], followed by the properties of the
    specification that were checked against it.

    Conventions.
    - Text is held as its UTF-8 bytes ([string]).  SQLite compares and
      lower-cases TEXT bytewise, so the store is exact; on the Python
      side the character classes of [str.strip], [str.isdigit],
      [str.splitlines] and [float] are taken on the ASCII range.
    - A Python [float] and an SQLite REAL are IEEE binary64 values
      ([PrimFloat.float]).
    - A coroutine is a function of the world (store, session registry,
      replies sent so far); a raised exception is a result of its own.  *)

From Stdlib Require Import ZArith List Bool Ascii String Lia.
From Stdlib Require Import PrimFloat FloatOps SpecFloat.
From stdpp Require Import base option list gmap strings.

Open Scope string_scope.
Open Scope list_scope.
Open Scope Z_scope.

(** ** Python strings *)

Module Py.

Definition code (a : ascii) : Z := Z.of_nat (nat_of_ascii a).

(** [str.isspace] on the ASCII range: TAB, LF, VT, FF, CR, FS, GS, RS,
    US and the space. *)
Definition isspace (a : ascii) : bool :=
  let c := code a in
  ((9 <=? c) && (c <=? 13)) || ((28 <=? c) && (c <=? 32)).

Definition is_digit (a : ascii) : bool :=
  let c := code a in (48 <=? c) && (c <=? 57).

Fixpoint lstrip (s : string) : string :=
  match s with
  | String a s' => if isspace a then lstrip s' else s
  | EmptyString => EmptyString
  end.

(** [rstrip] keeps a character when it is not a space or when something
    remains after it. *)
Fixpoint rstrip (s : string) : string :=
  match s with
  | EmptyString => EmptyString
  | String a s' =>
      match rstrip s' with
      | EmptyString => if isspace a then EmptyString else String a EmptyString
      | r => String a r
      end
  end.

Definition strip (s : string) : string := rstrip (lstrip s).

(** [s.replace(a, "")] and [s.replace(a, b)] for one-character
    arguments. *)
Fixpoint remove (a : ascii) (s : string) : string :=
  match s with
  | EmptyString => EmptyString
  | String c s' => if Ascii.eqb c a then remove a s' else String c (remove a s')
  end.

Fixpoint replace (a b : ascii) (s : string) : string :=
  match s with
  | EmptyString => EmptyString
  | String c s' => String (if Ascii.eqb c a then b else c) (replace a b s')
  end.

Fixpoint all (p : ascii -> bool) (s : string) : bool :=
  match s with
  | EmptyString => true
  | String c s' => p c && all p s'
  end.

(** [str.isdigit]: at least one character, all of them digits. *)
Definition isdigit (s : string) : bool :=
  match s with
  | EmptyString => false
  | _ => all is_digit s
  end.

(** [int(s)] for a string of digits, most significant first. *)
Fixpoint int_acc (acc : Z) (s : string) : Z :=
  match s with
  | EmptyString => acc
  | String c s' => int_acc (10 * acc + (code c - 48)) s'
  end.

Definition int (s : string) : Z := int_acc 0 s.

(** [str.lower] for the two alphabets of the bot's texts: Latin A-Z, and
    the Cyrillic capitals U+0400..U+042F in their two-byte encoding
    (D0 80..8F -> D1 90..9F, D0 90..9F -> D0 B0..BF, D0 A0..AF -> D1 80..8F). *)
Fixpoint lower (s : string) : string :=
  match s with
  | EmptyString => EmptyString
  | String a s' =>
      let c := code a in
      if (65 <=? c) && (c <=? 90) then
        String (ascii_of_nat (Z.to_nat (c + 32))) (lower s')
      else if c =? 208 then
        match s' with
        | String b s'' =>
            let d := code b in
            if (128 <=? d) && (d <=? 143) then
              String (ascii_of_nat 209) (String (ascii_of_nat (Z.to_nat (d + 16))) (lower s''))
            else if (144 <=? d) && (d <=? 159) then
              String a (String (ascii_of_nat (Z.to_nat (d + 32))) (lower s''))
            else if (160 <=? d) && (d <=? 175) then
              String (ascii_of_nat 209) (String (ascii_of_nat (Z.to_nat (d - 32))) (lower s''))
            else String a (String b (lower s''))
        | EmptyString => String a EmptyString
        end
      else String a (lower s')
  end.

(** Case-insensitive comparison with an ASCII word, as the float parser
    needs it for [inf], [infinity] and [nan]. *)
Definition ascii_lower (a : ascii) : ascii :=
  let c := code a in
  if (65 <=? c) && (c <=? 90) then ascii_of_nat (Z.to_nat (c + 32)) else a.

Fixpoint map (f : ascii -> ascii) (s : string) : string :=
  match s with
  | EmptyString => EmptyString
  | String c s' => String (f c) (map f s')
  end.

(** A line boundary of [str.splitlines]: LF, VT, FF, CR, FS, GS, RS. *)
Definition is_linebreak (a : ascii) : bool :=
  let c := code a in
  ((10 <=? c) && (c <=? 13)) || ((28 <=? c) && (c <=? 30)).

(** [str.splitlines()]: CR LF is one boundary, and no empty last line is
    produced after a final boundary.  [cur] holds the current line in
    reverse; [after_cr] tells that the previous character was a CR. *)
Fixpoint splitlines_go (cur : string) (after_cr : bool) (s : string) : list string :=
  match s with
  | EmptyString => match cur with EmptyString => [] | _ => [String.rev cur] end
  | String a s' =>
      if after_cr && (code a =? 10) then splitlines_go EmptyString false s'
      else if is_linebreak a then
        String.rev cur :: splitlines_go EmptyString (code a =? 13) s'
      else splitlines_go (String a cur) false s'
  end.

Definition splitlines (s : string) : list string := splitlines_go EmptyString false s.

Fixpoint startswith (p s : string) : bool :=
  match p, s with
  | EmptyString, _ => true
  | String a p', String b s' => Ascii.eqb a b && startswith p' s'
  | String _ _, EmptyString => false
  end.

Definition endswith (p s : string) : bool :=
  startswith (String.rev p) (String.rev s).

(** [s.split(sep)] for a one-character separator. *)
Fixpoint split_go (sep : ascii) (cur : string) (s : string) : list string :=
  match s with
  | EmptyString => [String.rev cur]
  | String a s' =>
      if Ascii.eqb a sep then String.rev cur :: split_go sep EmptyString s'
      else split_go sep (String a cur) s'
  end.

Definition split (sep : ascii) (s : string) : list string := split_go sep EmptyString s.

(** [s.split(sep, 1)[1]]: what follows the first separator. *)
Fixpoint after_first (sep : ascii) (s : string) : option string :=
  match s with
  | EmptyString => None
  | String a s' => if Ascii.eqb a sep then Some s' else after_first sep s'
  end.

(** The first word of [s.split()], and whether there is one. *)
Fixpoint first_word_go (s : string) : string :=
  match s with
  | EmptyString => EmptyString
  | String a s' => if isspace a then EmptyString else String a (first_word_go s')
  end.

Definition first_word (s : string) : option string :=
  match lstrip s with
  | EmptyString => None
  | t => Some (first_word_go t)
  end.

(** [s.partition(sep)]: the parts before and after the first separator. *)
Fixpoint partition (sep : ascii) (s : string) : string * string :=
  match s with
  | EmptyString => (EmptyString, EmptyString)
  | String a s' =>
      if Ascii.eqb a sep then (EmptyString, s')
      else let '(h, t) := partition sep s' in (String a h, t)
  end.

(** [int(s)] on arbitrary text: surrounding white space, a sign, digits
    with single underscores between them; [None] is the [ValueError]. *)
Fixpoint int_digits (prev_digit : bool) (s : string) : bool :=
  match s with
  | EmptyString => prev_digit
  | String c s' =>
      if is_digit c then int_digits true s'
      else if code c =? 95 then prev_digit && int_digits false s'
      else false
  end.

Definition parse_int (s : string) : option Z :=
  let t := strip s in
  let '(neg, body) :=
    match t with
    | String c t' =>
        if code c =? 45 then (true, t')
        else if code c =? 43 then (false, t')
        else (false, t)
    | EmptyString => (false, t)
    end in
  if int_digits false body
  then let v := int (remove (ascii_of_nat 95) body) in Some (if neg then - v else v)
  else None.

End Py.

(** ** Python's [float(str)]

    CPython first checks the underscores (one is allowed only between two
    digits) and drops them, then reads a decimal literal with an optional
    exponent, and, when no digit could be read, one of the words [inf],
    [infinity] and [nan] in any letter case.  The literal is converted by
    correct rounding to nearest-even. *)

Module PyFloat.

Definition is_underscore (a : ascii) : bool := Py.code a =? 95.

Fixpoint underscores_ok (prev : option ascii) (s : string) : bool :=
  match s with
  | EmptyString =>
      match prev with Some p => negb (is_underscore p) | None => true end
  | String c s' =>
      (if is_underscore c
       then match prev with Some p => Py.is_digit p | None => false end
       else match prev with
            | Some p => negb (is_underscore p) || Py.is_digit c
            | None => true
            end)
      && underscores_ok (Some c) s'
  end.

(** An optional sign: the flag is true for [-]. *)
Definition sign_split (s : string) : bool * string :=
  match s with
  | String c s' =>
      if Py.code c =? 45 then (true, s')
      else if Py.code c =? 43 then (false, s')
      else (false, s)
  | EmptyString => (false, s)
  end.

(** The longest prefix of digits, and what follows it. *)
Fixpoint span_digits (s : string) : string * string :=
  match s with
  | String c s' =>
      if Py.is_digit c
      then let '(d, r) := span_digits s' in (String c d, r)
      else (EmptyString, s)
  | EmptyString => (EmptyString, EmptyString)
  end.

Definition is_exp_marker (a : ascii) : bool :=
  (Py.code a =? 101) || (Py.code a =? 69).

(** What follows the mantissa: nothing, or an exponent with at least
    one digit and nothing after it. *)
Definition scan_exponent (s : string) : option Z :=
  match s with
  | EmptyString => Some 0
  | String c s' =>
      if is_exp_marker c then
        let '(eneg, r) := sign_split s' in
        if Py.isdigit r then Some (if eneg then - Py.int r else Py.int r)
        else None
      else None
  end.

(** Integer digits, fraction digits and exponent of a decimal literal
    without its sign. *)
Definition scan_decimal (s : string) : option (string * string * Z) :=
  let '(ip, r1) := span_digits s in
  let '(fp, r2) :=
    match r1 with
    | String c r => if Py.code c =? 46 then span_digits r else (EmptyString, r1)
    | EmptyString => (EmptyString, r1)
    end in
  match ip, fp with
  | EmptyString, EmptyString => None
  | _, _ =>
      match scan_exponent r2 with
      | Some e => Some (ip, fp, e)
      | None => None
      end
  end.

(** [m * 10^e] rounded to the nearest binary64 value, ties to even.  For
    a negative exponent the quotient is computed with more than 64 bits
    and a sticky bit for the remainder. *)
Definition of_decimal (neg : bool) (m e : Z) : float :=
  if m <=? 0 then (if neg then neg_zero else zero)
  else if 0 <=? e then
    SF2Prim (binary_round prec emax neg (Z.to_pos (m * 10 ^ e)) 0)
  else
    let d := 10 ^ (- e) in
    let k := Z.max 0 (66 + Z.log2 d - Z.log2 m) in
    let n := m * 2 ^ k in
    let q := n / d in
    let mx := if n mod d =? 0 then 2 * q else 2 * q + 1 in
    SF2Prim (binary_round prec emax neg (Z.to_pos mx) (- (k + 1))).

Definition inf_or_nan (neg : bool) (s : string) : option float :=
  let w := Py.map Py.ascii_lower s in
  if (String.eqb w "inf") || (String.eqb w "infinity")
  then Some (if neg then neg_infinity else infinity)
  else if String.eqb w "nan" then Some nan
  else None.

(** [float(s)]; [None] stands for the [ValueError]. *)
Definition float (s : string) : option float :=
  let s := Py.strip s in
  if underscores_ok None s then
    let '(neg, body) := sign_split (Py.remove (ascii_of_nat 95) s) in
    match scan_decimal body with
    | Some (ip, fp, e) =>
        Some (of_decimal neg (Py.int (ip +:+ fp)) (e - Z.of_nat (String.length fp)))
    | None => inf_or_nan neg body
    end
  else None.

End PyFloat.

(** ** utils.py *)

Definition parse_number (value : string) : option float :=
  let raw := Py.remove (ascii_of_nat 32) (Py.strip value) in
  let raw := Py.replace (ascii_of_nat 44) (ascii_of_nat 46) raw in
  match raw with
  | EmptyString => None
  | _ => PyFloat.float raw
  end.

(** ** The SQLite side of db.py *)

Inductive exn :=
| AttributeError | KeyError | ValueError | TypeError | OverflowError | IntegrityError.

Inductive result (A : Type) :=
| Ok (a : A)
| Raise (e : exn).
Arguments Ok {A} a.
Arguments Raise {A} e.

Module Sqlite.

(** SQL [lower()] changes the 26 ASCII capitals only. *)
Definition lower (s : string) : string := Py.map Py.ascii_lower s.

(** A Python int is bound as a 64-bit INTEGER; a larger one is refused
    by the driver with [OverflowError]. *)
Definition int64 (z : Z) : bool := (- 2 ^ 63 <=? z) && (z <? 2 ^ 63).

(** A NaN is bound as NULL, which no REAL NOT NULL column accepts. *)
Definition not_null (f : float) : bool := negb (is_nan f).

(** The length in bytes of the UTF-8 character that starts a text, as
    the [_] of LIKE skips it. *)
Fixpoint skip_continuation (s : string) : string :=
  match s with
  | String a s' =>
      if (128 <=? Py.code a) && (Py.code a <? 192) then skip_continuation s' else s
  | EmptyString => s
  end.

(** [text LIKE pattern]: [%] stands for any run of characters, [_] for
    one character, letters match without regard to ASCII case. *)
Fixpoint like (pat : string) (s : string) {struct pat} : bool :=
  match pat with
  | EmptyString => match s with EmptyString => true | _ => false end
  | String p pat' =>
      if Py.code p =? 37 then
        (fix any (t : string) : bool :=
           like pat' t ||
           match t with
           | String _ t' => any t'
           | EmptyString => false
           end) s
      else
        match s with
        | EmptyString => false
        | String c s' =>
            if Py.code p =? 95 then
              like pat' (if 192 <=? Py.code c then skip_continuation s' else s')
            else Ascii.eqb (Py.ascii_lower p) (Py.ascii_lower c) && like pat' s'
        end
  end.

(** ORDER BY: a stable insertion sort over the rows in rowid order. *)
Fixpoint insert_by {A} (le : A -> A -> bool) (x : A) (l : list A) : list A :=
  match l with
  | [] => [x]
  | y :: l' => if le x y then x :: l else y :: insert_by le x l'
  end.

Definition order_by {A} (le : A -> A -> bool) (l : list A) : list A :=
  foldr (insert_by le) [] l.

(** LIMIT n OFFSET k, for the non-negative arguments the callers pass. *)
Definition limit_offset {A} (n k : Z) (l : list A) : list A :=
  firstn (Z.to_nat n) (skipn (Z.to_nat k) l).

End Sqlite.

(** The four tables.  Rows are kept in rowid order; the [seq_] fields are
    the AUTOINCREMENT counters of [sqlite_sequence]. *)

Record admin_row := {
  adm_tg_id : Z;
  adm_name : option string;
  adm_added_at : string }.

Record item := {
  it_id : Z;
  it_sku : string;
  it_name : string;
  it_qty : float;
  it_unit : string;
  it_location : option string;
  it_warehouse : option string;
  it_min_qty : float;
  it_updated_at : string }.

Record warehouse_row := {
  wh_id : Z;
  wh_name : string;
  wh_created_at : string }.

Record movement := {
  mv_id : Z;
  mv_item_id : Z;
  mv_delta : float;
  mv_note : option string;
  mv_admin_tg_id : Z;
  mv_created_at : string }.

Record Database := {
  admins : list admin_row;
  items : list item;
  warehouses : list warehouse_row;
  movements : list movement;
  seq_items : Z;
  seq_warehouses : Z;
  seq_movements : Z }.

Definition set_admins (db : Database) (l : list admin_row) : Database :=
  {| admins := l; items := items db; warehouses := warehouses db;
     movements := movements db; seq_items := seq_items db;
     seq_warehouses := seq_warehouses db; seq_movements := seq_movements db |}.

Definition set_items (db : Database) (l : list item) : Database :=
  {| admins := admins db; items := l; warehouses := warehouses db;
     movements := movements db; seq_items := seq_items db;
     seq_warehouses := seq_warehouses db; seq_movements := seq_movements db |}.

Definition set_movements (db : Database) (l : list movement) : Database :=
  {| admins := admins db; items := items db; warehouses := warehouses db;
     movements := l; seq_items := seq_items db;
     seq_warehouses := seq_warehouses db; seq_movements := seq_movements db |}.

(** The state of [Database.init] on a new file. *)
Definition empty_db : Database :=
  {| admins := []; items := []; warehouses := []; movements := [];
     seq_items := 0; seq_warehouses := 0; seq_movements := 0 |}.

(** *** admins *)

Definition is_admin (db : Database) (tg_id : Z) : bool :=
  existsb (fun a => adm_tg_id a =? tg_id) (admins db).

(** [tg_id INTEGER UNIQUE NOT NULL]: a second row for the same identity is
    an [IntegrityError], which [add_admin] catches. *)
Definition add_admin (now : string) (tg_id : Z) (nm : option string) (silent : bool)
    (db : Database) : result bool * Database :=
  if negb (Sqlite.int64 tg_id) then (Raise OverflowError, db)
  else if is_admin db tg_id then (Ok silent, db)
  else (Ok true,
        set_admins db (admins db ++
          [{| adm_tg_id := tg_id; adm_name := nm; adm_added_at := now |}])).

Fixpoint ensure_admins (now : string) (tg_ids : list Z) (db : Database)
    : result unit * Database :=
  match tg_ids with
  | [] => (Ok tt, db)
  | tg_id :: rest =>
      match add_admin now tg_id (Some "superadmin") true db with
      | (Ok _, db') => ensure_admins now rest db'
      | (Raise e, db') => (Raise e, db')
      end
  end.

Definition remove_admin (tg_id : Z) (db : Database) : result bool * Database :=
  if negb (Sqlite.int64 tg_id) then (Raise OverflowError, db)
  else (Ok (is_admin db tg_id),
        set_admins db (filter (fun a => adm_tg_id a <> tg_id) (admins db))).

Definition list_admins (db : Database) : list admin_row :=
  Sqlite.order_by (fun a b => String.leb (adm_added_at a) (adm_added_at b)) (admins db).

(** *** items *)

Definition sku_taken (db : Database) (s : string) : bool :=
  existsb (fun it => String.eqb (it_sku it) s) (items db).

(** [sku TEXT UNIQUE NOT NULL] compares with the BINARY collation, byte
    for byte.  A NaN quantity arrives as NULL and breaks NOT NULL.  Both
    are [IntegrityError]s, which [add_item] turns into [False]. *)
Definition add_item (now : string) (sku' name' : string) (qty' : float) (unit' : string)
    (location' warehouse' : option string) (min_qty' : float)
    (db : Database) : bool * Database :=
  if sku_taken db sku' || negb (Sqlite.not_null qty') || negb (Sqlite.not_null min_qty')
  then (false, db)
  else
    let new_id := seq_items db + 1 in
    (true,
     {| admins := admins db;
        items := items db ++
          [{| it_id := new_id; it_sku := sku'; it_name := name'; it_qty := qty'; it_unit := unit';
              it_location := location'; it_warehouse := warehouse'; it_min_qty := min_qty';
              it_updated_at := now |}];
        warehouses := warehouses db; movements := movements db;
        seq_items := new_id; seq_warehouses := seq_warehouses db;
        seq_movements := seq_movements db |}).

Definition get_item_by_id (db : Database) (item_id : Z) : result (option item) :=
  if Sqlite.int64 item_id
  then Ok (List.find (fun it => it_id it =? item_id) (items db))
  else Raise OverflowError.

(** [WHERE lower(sku) = lower(?)], first row. *)
Definition get_item_by_sku (db : Database) (s : string) : option item :=
  List.find (fun it => String.eqb (Sqlite.lower (it_sku it)) (Sqlite.lower s)) (items db).

Definition get_item_by_key (db : Database) (key : string) : result (option item) :=
  let key := Py.strip key in
  if Py.isdigit key then
    match get_item_by_id db (Py.int key) with
    | Ok (Some it) => Ok (Some it)
    | Ok None => Ok (get_item_by_sku db key)
    | Raise e => Raise e
    end
  else Ok (get_item_by_sku db key).

Definition by_name (a b : item) : bool := String.leb (it_name a) (it_name b).
Definition by_sku (a b : item) : bool := String.leb (it_sku a) (it_sku b).
Definition by_qty (a b : item) : bool := PrimFloat.leb (it_qty a) (it_qty b).

Definition list_items (db : Database) (limit offset : Z) : list item :=
  Sqlite.limit_offset limit offset (Sqlite.order_by by_name (items db)).

Definition count_items (db : Database) : Z := Z.of_nat (length (items db)).

Definition search_items (db : Database) (query : string) : list item :=
  let pat := "%" +:+ Py.strip query +:+ "%" in
  Sqlite.limit_offset 50 0
    (Sqlite.order_by by_name
       (filter (fun it => Sqlite.like pat (it_sku it) || Sqlite.like pat (it_name it) = true)
               (items db))).

Definition list_low_stock (db : Database) : list item :=
  Sqlite.limit_offset 100 0
    (Sqlite.order_by by_qty
       (filter (fun it => PrimFloat.ltb 0 (it_min_qty it) && PrimFloat.leb (it_qty it) (it_min_qty it) = true)
               (items db))).

Definition has_item (db : Database) (item_id : Z) : bool :=
  existsb (fun it => it_id it =? item_id) (items db).

Definition with_qty (now : string) (q : float) (it : item) : item :=
  {| it_id := it_id it; it_sku := it_sku it; it_name := it_name it; it_qty := q; it_unit := it_unit it;
     it_location := it_location it; it_warehouse := it_warehouse it; it_min_qty := it_min_qty it;
     it_updated_at := now |}.

(** [UPDATE items SET qty = ? ... WHERE id = ?].  The NOT NULL check is
    made on a row that is updated, so a NaN passes where no row matches. *)
Definition update_item_qty (now : string) (item_id : Z) (new_qty : float)
    (db : Database) : result unit * Database :=
  if negb (Sqlite.int64 item_id) then (Raise OverflowError, db)
  else if has_item db item_id && negb (Sqlite.not_null new_qty)
  then (Raise IntegrityError, db)
  else (Ok tt,
        set_items db
          (List.map (fun it => if it_id it =? item_id then with_qty now new_qty it else it)
                    (items db))).

(** [SET qty = qty + ?]: a NaN sum (from a NaN delta, or from opposite
    infinities) is NULL for SQLite. *)
Definition adjust_item_qty (now : string) (item_id : Z) (delta : float)
    (db : Database) : result unit * Database :=
  if negb (Sqlite.int64 item_id) then (Raise OverflowError, db)
  else if existsb (fun it => (it_id it =? item_id)
                             && negb (Sqlite.not_null (PrimFloat.add (it_qty it) delta)))
                  (items db)
  then (Raise IntegrityError, db)
  else (Ok tt,
        set_items db
          (List.map (fun it => if it_id it =? item_id
                               then with_qty now (PrimFloat.add (it_qty it) delta) it else it)
                    (items db))).

Definition or_else {A} (o : option A) (d : A) : A :=
  match o with Some a => a | None => d end.

(** The sparse update: an argument left at [None] is not in the SET list;
    [updated_at] always is. *)
Definition with_fields (now : string) (name' sku' unit' location' warehouse' : option string)
    (min_qty' : option float) (it : item) : item :=
  {| it_id := it_id it;
     it_sku := or_else sku' (it_sku it);
     it_name := or_else name' (it_name it);
     it_qty := it_qty it;
     it_unit := or_else unit' (it_unit it);
     it_location := match location' with Some l => Some l | None => it_location it end;
     it_warehouse := match warehouse' with Some w => Some w | None => it_warehouse it end;
     it_min_qty := or_else min_qty' (it_min_qty it);
     it_updated_at := now |}.

Definition update_item_fields (now : string) (item_id : Z)
    (name' sku' unit' location' warehouse' : option string) (min_qty' : option float)
    (db : Database) : result bool * Database :=
  if negb (Sqlite.int64 item_id) then (Raise OverflowError, db)
  else if negb (has_item db item_id) then (Ok true, db)
  else
    let clash :=
      match sku' with
      | Some s => existsb (fun it => negb (it_id it =? item_id) && String.eqb (it_sku it) s) (items db)
      | None => false
      end in
    let null :=
      match min_qty' with
      | Some m => negb (Sqlite.not_null m)
      | None => false
      end in
    if clash || null then (Ok false, db)
    else (Ok true,
          set_items db
            (List.map (fun it => if it_id it =? item_id
                                 then with_fields now name' sku' unit' location' warehouse' min_qty' it
                                 else it)
                      (items db))).

(** [DELETE FROM items WHERE id = ?] with [PRAGMA foreign_keys = ON]: the
    movements of the item go with it (ON DELETE CASCADE). *)
Definition delete_item (item_id : Z) (db : Database) : result bool * Database :=
  if negb (Sqlite.int64 item_id) then (Raise OverflowError, db)
  else (Ok (has_item db item_id),
        {| admins := admins db;
           items := filter (fun it => it_id it <> item_id) (items db);
           warehouses := warehouses db;
           movements := filter (fun m => mv_item_id m <> item_id) (movements db);
           seq_items := seq_items db; seq_warehouses := seq_warehouses db;
           seq_movements := seq_movements db |}).

(** *** movements *)

(** [item_id] REFERENCES items(id) and [delta] is REAL NOT NULL; the
    [IntegrityError] is not caught here. *)
Definition add_movement (now : string) (item_id : Z) (delta : float) (note : option string)
    (admin_tg_id : Z) (db : Database) : result unit * Database :=
  if negb (Sqlite.int64 item_id && Sqlite.int64 admin_tg_id) then (Raise OverflowError, db)
  else if negb (has_item db item_id) || negb (Sqlite.not_null delta)
  then (Raise IntegrityError, db)
  else
    let new_id := seq_movements db + 1 in
    (Ok tt,
     {| admins := admins db; items := items db; warehouses := warehouses db;
        movements := movements db ++
          [{| mv_id := new_id; mv_item_id := item_id; mv_delta := delta; mv_note := note;
              mv_admin_tg_id := admin_tg_id; mv_created_at := now |}];
        seq_items := seq_items db; seq_warehouses := seq_warehouses db;
        seq_movements := new_id |}).

(** The join with items; newest first. *)
Definition list_movements (db : Database) : list (movement * item) :=
  Sqlite.limit_offset 50 0
    (Sqlite.order_by (fun a b => String.leb (mv_created_at (fst b)) (mv_created_at (fst a)))
       (omap (fun m => match List.find (fun it => it_id it =? mv_item_id m) (items db) with
                       | Some it => Some (m, it)
                       | None => None
                       end)
             (movements db))).

Definition export_items (db : Database) : list item :=
  Sqlite.order_by by_name (items db).

(** *** warehouses *)

Definition get_warehouse_by_name (db : Database) (nm : string) : option warehouse_row :=
  List.find (fun w => String.eqb (wh_name w) nm) (warehouses db).

Definition add_warehouse (now : string) (nm : string) (db : Database) : bool * Database :=
  match get_warehouse_by_name db nm with
  | Some _ => (false, db)
  | None =>
      let new_id := seq_warehouses db + 1 in
      (true,
       {| admins := admins db; items := items db;
          warehouses := warehouses db ++
            [{| wh_id := new_id; wh_name := nm; wh_created_at := now |}];
          movements := movements db;
          seq_items := seq_items db; seq_warehouses := new_id;
          seq_movements := seq_movements db |})
  end.

Definition by_wh_name (a b : warehouse_row) : bool := String.leb (wh_name a) (wh_name b).

Definition list_warehouses (db : Database) : list warehouse_row :=
  Sqlite.order_by by_wh_name (warehouses db).

Definition get_warehouse_by_id (db : Database) (warehouse_id : Z) : result (option warehouse_row) :=
  if Sqlite.int64 warehouse_id
  then Ok (List.find (fun w => wh_id w =? warehouse_id) (warehouses db))
  else Raise OverflowError.

Definition in_warehouse (warehouse_name : option string) (it : item) : bool :=
  match warehouse_name with
  | None => true
  | Some w => match it_warehouse it with Some w' => String.eqb w' w | None => false end
  end.

Definition count_items_by_warehouse (db : Database) (warehouse_name : option string) : Z :=
  Z.of_nat (length (filter (fun it => in_warehouse warehouse_name it = true) (items db))).

Definition list_items_by_warehouse (db : Database) (warehouse_name : option string)
    (sort : string) (limit offset : Z) : list item :=
  let order :=
    if String.eqb sort "qty" then by_qty
    else if String.eqb sort "sku" then by_sku
    else by_name in
  Sqlite.limit_offset limit offset
    (Sqlite.order_by order
       (filter (fun it => in_warehouse warehouse_name it = true) (items db))).

(** ** The session registry (aiogram's FSM storage)

    One record per user identity: the state of the active flow, if any,
    and the dictionary of values gathered so far. *)

Inductive State :=
| AddItem_sku | AddItem_name | AddItem_qty | AddItem_unit | AddItem_location
| AddItem_warehouse | AddItem_min_qty
| AdjustItem_key | AdjustItem_delta | AdjustItem_note
| SetQty_key | SetQty_qty | SetQty_note
| DeleteItem_key | DeleteItem_confirm
| UpdateItem_key | UpdateItem_field | UpdateItem_value
| SearchItem_query
| AddAdmin_tg_id | AddAdmin_name
| RemoveAdmin_tg_id
| AddWarehouse_name
| BulkAdd_lines.

#[global] Instance State_eq_dec : EqDecision State.
Proof. solve_decision. Defined.

(** The values a session dictionary holds. *)
Inductive pyval :=
| VNone
| VInt (z : Z)
| VFloat (f : float)
| VStr (s : string).

Record session := {
  state : option State;
  data : gmap string pyval }.

Definition no_session : session := {| state := None; data := ∅ |}.

(** ** Replies *)

Inductive markup :=
| main_menu_kb | warehouse_menu_kb | reports_menu_kb | search_menu_kb
| admin_menu_kb | settings_menu_kb | warehouses_menu_kb | update_fields_kb
| pagination_kb (page total_pages : Z)
| warehouses_select_kb (l : list warehouse_row)
| warehouse_filter_kb (l : list warehouse_row)
| warehouse_sort_kb (warehouse_id : Z) (sort : string) (page total_pages : Z)
| prefill_kb (l : list item).

(** A text is a sequence of pieces; the tables and the item card of
    utils.py are kept as the rows they print. *)
Inductive piece :=
| Str (s : string)
| NL
| Int (z : Z)
| Card (it : item)
| ItemsTable (l : list item)
| MovementsTable (l : list (movement * item))
| AdminLines (l : list admin_row)
| WarehouseLines (l : list warehouse_row).

Inductive reply :=
| answer_msg (text : list piece) (reply_markup : option markup)
| callback_answer (text : option string) (show_alert : bool)
| edit_text (text : list piece) (reply_markup : option markup)
| answer_document (filename caption : string) (rows : list item)
| answer_backup (path : string).

(** ** The world a handler runs in *)

Record world := {
  db : Database;
  storage : gmap Z session;
  sent : list reply;
  clock : string }.

Definition with_db (w : world) (d : Database) : world :=
  {| db := d; storage := storage w; sent := sent w; clock := clock w |}.

Definition with_storage (w : world) (m : gmap Z session) : world :=
  {| db := db w; storage := m; sent := sent w; clock := clock w |}.

Definition with_sent (w : world) (l : list reply) : world :=
  {| db := db w; storage := storage w; sent := l; clock := clock w |}.

Definition session_of (w : world) (uid : Z) : session :=
  default no_session (storage w !! uid).

(** A coroutine: it returns or raises, and leaves a world behind. *)
Definition coro (A : Type) : Type := world -> result A * world.

#[global] Instance coro_ret : MRet coro := fun A a w => (Ok a, w).

#[global] Instance coro_bind : MBind coro := fun A B f m w =>
  match m w with
  | (Ok a, w') => f a w'
  | (Raise e, w') => (Raise e, w')
  end.

Definition raise {A} (e : exn) : coro A := fun w => (Raise e, w).

Definition lift {A} (r : result A) : coro A := fun w => (r, w).

(** *** FSMContext *)

Definition get_state (uid : Z) : coro (option State) :=
  fun w => (Ok (state (session_of w uid)), w).

Definition get_data (uid : Z) : coro (gmap string pyval) :=
  fun w => (Ok (data (session_of w uid)), w).

Definition set_state (uid : Z) (st : State) : coro unit :=
  fun w => (Ok tt,
            with_storage w
              (<[uid := {| state := Some st; data := data (session_of w uid) |}]> (storage w))).

(** [update_data] with keyword arguments: the new values replace the old ones. *)
Definition update_data (uid : Z) (kwargs : list (string * pyval)) : coro unit :=
  fun w => (Ok tt,
            with_storage w
              (<[uid := {| state := state (session_of w uid);
                           data := list_to_map kwargs ∪ data (session_of w uid) |}]>
                 (storage w))).

(** [clear()] resets the state and the dictionary. *)
Definition clear (uid : Z) : coro unit :=
  fun w => (Ok tt, with_storage w (<[uid := no_session]> (storage w))).

(** *** The transport *)

Definition send (r : reply) : coro unit :=
  fun w => (Ok tt, with_sent w (sent w ++ [r])).

Definition answer (text : list piece) : coro unit := send (answer_msg text None).
Definition answer_kb (text : list piece) (kb : markup) : coro unit :=
  send (answer_msg text (Some kb)).
Definition ack : coro unit := send (callback_answer None false).

(** *** The store, awaited *)

Definition query {A} (f : Database -> A) : coro A := fun w => (Ok (f (db w)), w).

Definition query_r {A} (f : Database -> result A) : coro A := fun w => (f (db w), w).

Definition exec {A} (f : string -> Database -> A * Database) : coro A :=
  fun w => let '(a, d) := f (clock w) (db w) in (Ok a, with_db w d).

Definition exec_r {A} (f : string -> Database -> result A * Database) : coro A :=
  fun w => let '(r, d) := f (clock w) (db w) in (r, with_db w d).

(** *** Reading a session dictionary *)

(** [data[k]]: a missing key is a [KeyError]. *)
Definition item_of (d : gmap string pyval) (k : string) : coro pyval :=
  match d !! k with
  | Some v => mret v
  | None => raise KeyError
  end.

(** The value read is used at the type the flow stored it with. *)
Definition as_str (v : pyval) : coro string :=
  match v with VStr s => mret s | _ => raise TypeError end.
Definition as_float (v : pyval) : coro float :=
  match v with VFloat f => mret f | _ => raise TypeError end.
Definition as_int (v : pyval) : coro Z :=
  match v with VInt z => mret z | _ => raise TypeError end.
Definition as_opt_str (v : option pyval) : coro (option string) :=
  match v with
  | Some (VStr s) => mret (Some s)
  | Some VNone | None => mret None
  | _ => raise TypeError
  end.

(** Python truth of [data.get(k)]. *)
Definition truthy (v : option pyval) : bool :=
  match v with
  | None | Some VNone => false
  | Some (VInt z) => negb (z =? 0)
  | Some (VFloat f) => negb (PrimFloat.eqb f 0)
  | Some (VStr s) => negb (String.eqb s "")
  end.

Definition is_not_none (v : option pyval) : bool :=
  match v with
  | None | Some VNone => false
  | _ => true
  end.

Definition opt_str_val (o : option string) : pyval :=
  match o with Some s => VStr s | None => VNone end.

(** [message.text.strip()] and the like: a message without text has
    [text = None], and the attribute access raises. *)
Definition text_of (t : option string) : coro string :=
  match t with
  | Some s => mret s
  | None => raise AttributeError
  end.

(** ** csv.reader on one line

    The dialect of [parse_bulk_lines]: comma, double quote, doubled quotes
    inside a quoted field, spaces skipped at the start of a field, not
    strict.  The line holds no line break ([splitlines] removed them). *)

Module Csv.

Inductive st := START_FIELD | IN_FIELD | IN_QUOTED_FIELD | QUOTE_IN_QUOTED_FIELD.

Definition comma (a : ascii) : bool := Py.code a =? 44.
Definition quote (a : ascii) : bool := Py.code a =? 34.
Definition blank (a : ascii) : bool := Py.code a =? 32.

(** [field] is the current field in reverse. *)
Fixpoint run (q : st) (field : string) (s : string) : list string :=
  match s with
  | EmptyString =>
      (* the end of the line saves the field that is open *)
      [String.rev field]
  | String c s' =>
      match q with
      | START_FIELD =>
          if quote c then run IN_QUOTED_FIELD field s'
          else if blank c then run START_FIELD field s'
          else if comma c then String.rev field :: run START_FIELD EmptyString s'
          else run IN_FIELD (String c field) s'
      | IN_FIELD =>
          if comma c then String.rev field :: run START_FIELD EmptyString s'
          else run IN_FIELD (String c field) s'
      | IN_QUOTED_FIELD =>
          if quote c then run QUOTE_IN_QUOTED_FIELD field s'
          else run IN_QUOTED_FIELD (String c field) s'
      | QUOTE_IN_QUOTED_FIELD =>
          if quote c then run IN_QUOTED_FIELD (String c field) s'
          else if comma c then String.rev field :: run START_FIELD EmptyString s'
          else run IN_FIELD (String c field) s'
      end
  end.

(** The rows read from a one-line input: an empty row for an empty line. *)
Definition reader (line : string) : list (list string) :=
  match line with
  | EmptyString => [[]]
  | _ => [run START_FIELD EmptyString line]
  end.

End Csv.

(** ** Configuration *)

(** constants.py is not among the sources at hand; the button captions it
    defines are taken as parameters. *)
Record Constants := {
  BTN_ADD_ITEM : string;
  BTN_ADMIN : string;
  BTN_ADJUST_QTY : string;
  BTN_BACK : string;
  BTN_BULK_ADD : string;
  BTN_CANCEL : string;
  BTN_DELETE_ITEM : string;
  BTN_EXPORT_CSV : string;
  BTN_HELP : string;
  BTN_HISTORY : string;
  BTN_LOW_STOCK : string;
  BTN_LIST_ITEMS : string;
  BTN_REPORTS : string;
  BTN_SEARCH : string;
  BTN_SETTINGS : string;
  BTN_SET_QTY : string;
  BTN_WAREHOUSES : string;
  BTN_WAREHOUSE : string }.

Record Config := {
  bot_token : string;
  db_path : string;
  super_admins : gset Z }.

(** ** main.py *)

Definition PAGE_SIZE : Z := 10.

(** [math.ceil(a / b)] for a count [a] and a positive [b]; the float
    quotient is exact enough for every count below 2^53. *)
Definition ceil_div (a b : Z) : Z := - ((- a) / b).

Definition parse_bulk_lines (text : string) : list (list string) :=
  flat_map (fun raw_line =>
              match Py.strip raw_line with
              | EmptyString => []
              | line => Csv.reader line
              end)
           (Py.splitlines text).

Definition format_item_card (it : option item) : coro piece :=
  match it with
  | Some i => mret (Card i)
  | None => raise TypeError
  end.

Definition build_prefill_kb (l : list item) : option markup :=
  match l with
  | [] => None
  | _ => Some (prefill_kb (firstn 5 l))
  end.

Definition render_items_page (page : Z) : coro (list piece * Z) :=
  total ← query count_items;
  let total_pages := Z.max 1 (ceil_div total PAGE_SIZE) in
  let page := Z.max 1 (Z.min page total_pages) in
  l ← query (fun d => list_items d PAGE_SIZE ((page - 1) * PAGE_SIZE));
  match l with
  | [] => mret ([Str "Товаров пока нет."], total_pages)
  | _ => mret ([Str "Список товаров ("; Int page; Str "/"; Int total_pages; Str ")"; NL;
                ItemsTable l], total_pages)
  end.

Definition render_items_by_warehouse (warehouse_name : option string) (sort : string)
    (page : Z) : coro (list piece * Z) :=
  total ← query (fun d => count_items_by_warehouse d warehouse_name);
  let total_pages := Z.max 1 (ceil_div total PAGE_SIZE) in
  let page := Z.max 1 (Z.min page total_pages) in
  l ← query (fun d => list_items_by_warehouse d warehouse_name sort PAGE_SIZE
                        ((page - 1) * PAGE_SIZE));
  let label := match warehouse_name with
               | Some (String a r) => String a r
               | _ => "Все склады"
               end in
  match l with
  | [] => mret ([Str "Товаров нет ("; Str label; Str ")."], total_pages)
  | _ => mret ([Str "Склад: "; Str label; Str " | сортировка: "; Str sort; Str " (";
                Int page; Str "/"; Int total_pages; Str ")\n"; ItemsTable l], total_pages)
  end.

Section Bot.

Context (K : Constants) (config : Config) (me : option string).

Definition is_cancel (text : option string) : bool :=
  let t := Py.lower (Py.strip (or_else text "")) in
  String.eqb t "/cancel" || String.eqb t (Py.lower (BTN_CANCEL K)) || String.eqb t "отмена".

Definition is_super_admin (user_id : Z) : bool :=
  bool_decide (user_id ∈ super_admins config).

Definition show_main_menu : coro unit :=
  answer_kb [Str "🏠 Главное меню — выберите действие:"; NL;
             Str "Подсказка: можно жать кнопки или писать команды."] main_menu_kb.

(** *** The public router *)

Definition denied_text : list piece :=
  [Str "⛔ Доступ закрыт. Обратитесь к администратору."].

Definition cmd_start (uid : Z) : coro unit :=
  a ← query (fun d => is_admin d uid);
  if a : bool then
    answer [Str "Привет! Я склад‑бот и готов работать ✅"];;
    show_main_menu
  else answer denied_text.

Definition public_callback (uid : Z) : coro unit :=
  a ← query (fun d => is_admin d uid);
  if a : bool then mret tt
  else send (callback_answer (Some "⛔ Доступ закрыт") true).

Definition public_fallback (uid : Z) : coro unit :=
  a ← query (fun d => is_admin d uid);
  if a : bool then mret tt
  else answer denied_text.

(** *** Commands and menus *)

Definition cmd_menu : coro unit := show_main_menu.
Definition cmd_admin : coro unit := show_main_menu.

Definition cmd_id (uid : Z) : coro unit :=
  answer_kb [Str "Ваш Telegram ID: "; Int uid] main_menu_kb.

Definition cmd_help : coro unit :=
  answer_kb [Str "ℹ️ Помощь по боту‑складу:"; NL;
             Str "• ➕ Добавить товар"; NL;
             Str "• ➖ Изменить остаток (+/−)"; NL;
             Str "• ✅ Установить остаток"; NL;
             Str "• 🔍 Поиск / 📋 списки / ⚠️ низкие остатки"; NL;
             NL;
             Str "Можно всегда написать `Отмена` или `/cancel`."] main_menu_kb.

Definition cancelled_text : list piece := [Str "⏹️ Действие отменено."].

Definition cmd_cancel (uid : Z) : coro unit :=
  clear uid;;
  answer_kb cancelled_text main_menu_kb.

Definition cancel_any_state (uid : Z) : coro unit :=
  st ← get_state uid;
  match st with
  | None => mret tt
  | Some _ =>
      clear uid;;
      answer_kb cancelled_text main_menu_kb
  end.

Definition menu_warehouse : coro unit := answer_kb [Str "🏬 Раздел: Склад"] warehouse_menu_kb.
Definition menu_reports : coro unit := answer_kb [Str "📊 Раздел: Отчеты"] reports_menu_kb.
Definition menu_admin : coro unit := answer_kb [Str "🛠️ Админ‑панель"] admin_menu_kb.
Definition menu_settings : coro unit := answer_kb [Str "⚙️ Настройки"] settings_menu_kb.
Definition menu_warehouses : coro unit := answer_kb [Str "🏢 Склады"] warehouses_menu_kb.

Definition settings_menu_cb : coro unit := ack;; menu_settings.
Definition warehouses_menu_cb : coro unit := ack;; menu_warehouses.
Definition back_to_main : coro unit := answer_kb [Str "Главное меню"] main_menu_kb;; ack.

(** A handler registered for a button caption and for a callback: the
    callback is acknowledged first. *)
Definition acked (is_callback : bool) : coro unit :=
  if is_callback then ack else mret tt.

Definition bulk_add_start (is_callback : bool) (uid : Z) : coro unit :=
  acked is_callback;;
  set_state uid BulkAdd_lines;;
  answer [Str "📥 Массовая заливка"; NL;
          Str "Отправьте список товаров, по одному в строке."; NL;
          NL;
          Str "Формат (CSV через запятую):"; NL;
          Str "sku,name,qty,unit,location,warehouse,min_qty"; NL;
          NL;
          Str "Пример:"; NL;
          Str "A-001,Кабель USB,10,шт,Стеллаж 1,Склад А,2"; NL;
          Str "A-002,Адаптер,5,шт,,Склад А,0"; NL;
          NL;
          Str "Можно указать только первые 3 поля: sku,name,qty"].

(** *** AddItem *)

Definition add_item_start (is_callback : bool) (uid : Z) : coro unit :=
  acked is_callback;;
  set_state uid AddItem_sku;;
  answer [Str "Введите SKU товара (уникальный код):"].

Definition add_item_sku (uid : Z) (text : option string) : coro unit :=
  t ← text_of text;
  let sku := Py.strip t in
  match sku with
  | EmptyString => answer [Str "SKU не может быть пустым. Введите SKU:"]
  | _ =>
      found ← query (fun d => get_item_by_sku d sku);
      match found with
      | Some _ => answer [Str "Такой SKU уже есть. Введите другой SKU:"]
      | None =>
          update_data uid [("sku", VStr sku)];;
          set_state uid AddItem_name;;
          answer [Str "Введите название товара:"]
      end
  end.

Definition add_item_name (uid : Z) (text : option string) : coro unit :=
  t ← text_of text;
  let name := Py.strip t in
  match name with
  | EmptyString => answer [Str "Название не может быть пустым. Введите название:"]
  | _ =>
      update_data uid [("name", VStr name)];;
      set_state uid AddItem_qty;;
      suggestions ← query (fun d => search_items d name);
      match build_prefill_kb suggestions with
      | Some kb => answer_kb [Str "Есть похожие товары. Выберите шаблон или пропустите:"] kb
      | None => mret tt
      end;;
      answer [Str "Введите начальный остаток (число):"]
  end.

Definition add_item_prefill (uid : Z) (data' : string) : coro unit :=
  ack;;
  if Py.endswith ":skip" data' then answer [Str "Шаблон пропущен."]
  else
    match Py.parse_int (or_else (Py.after_first ":" data') "") with
    | None => raise ValueError
    | Some item_id =>
        found ← query_r (fun d => get_item_by_id d item_id);
        match found with
        | None => answer [Str "Шаблон не найден."]
        | Some it =>
            update_data uid [("unit", VStr (it_unit it));
                             ("location", opt_str_val (it_location it));
                             ("min_qty", VFloat (it_min_qty it));
                             ("warehouse", opt_str_val (it_warehouse it))];;
            answer [Str "Шаблон применен: единица, локация, склад и мин. остаток взяты из выбранного товара."]
        end
    end.

Definition add_item_qty (uid : Z) (text : option string) : coro unit :=
  t ← text_of text;
  match parse_number t with
  | None => answer [Str "Нужно число. Пример: 12.5"]
  | Some qty =>
      update_data uid [("qty", VFloat qty)];;
      set_state uid AddItem_unit;;
      answer [Str "Единица измерения (например, шт/кг). Можно '-' для 'шт':"]
  end.

Definition add_item_unit (uid : Z) (text : option string) : coro unit :=
  t ← text_of text;
  let unit0 := Py.strip t in
  d ← get_data uid;
  unit1 ←
    (if String.eqb unit0 "-" && truthy (d !! "unit") then item_of d "unit"
     else if String.eqb unit0 "-" || String.eqb unit0 "" then mret (VStr "шт")
     else mret (VStr unit0));
  update_data uid [("unit", unit1)];;
  set_state uid AddItem_location;;
  answer [Str "Локация на складе (можно '-' чтобы пропустить):"].

Definition build_warehouse_select : coro markup :=
  l ← query list_warehouses;
  mret (warehouses_select_kb l).

Definition add_item_location (uid : Z) (text : option string) : coro unit :=
  t ← text_of text;
  let location0 := Py.strip t in
  d ← get_data uid;
  let location1 :=
    if String.eqb location0 "-" && is_not_none (d !! "location")
    then default VNone (d !! "location")
    else if String.eqb location0 "-" then VNone
    else VStr location0 in
  update_data uid [("location", location1)];;
  set_state uid AddItem_warehouse;;
  let existing := d !! "warehouse" in
  kb ← build_warehouse_select;
  if truthy existing
  then answer_kb [Str "Склад по шаблону: "; Str (match existing with Some (VStr s) => s | _ => "" end);
                  Str ". Выберите другой или пропустите:"] kb
  else answer_kb [Str "Выберите склад для товара:"] kb.

Definition add_item_warehouse_select (uid : Z) (data' : string) : coro unit :=
  ack;;
  let raw_id := or_else (Py.after_first ":" data') "" in
  if String.eqb raw_id "" || String.eqb raw_id "0" then
    d ← get_data uid;
    (if is_not_none (d !! "warehouse") then mret tt
     else update_data uid [("warehouse", VNone)]);;
    set_state uid AddItem_min_qty;;
    answer [Str "Минимальный остаток (число, можно 0):"]
  else
    match Py.parse_int raw_id with
    | None => raise ValueError
    | Some wid =>
        wh ← query_r (fun d => get_warehouse_by_id d wid);
        match wh with
        | None => answer [Str "Склад не найден. Выберите из списка."]
        | Some w =>
            update_data uid [("warehouse", VStr (wh_name w))];;
            set_state uid AddItem_min_qty;;
            answer [Str "Минимальный остаток (число, можно 0):"]
        end
    end.

Definition add_item_min (uid : Z) (text : option string) : coro unit :=
  d ← get_data uid;
  t ← text_of text;
  parsed ←
    (if String.eqb (Py.strip t) "-" && is_not_none (d !! "min_qty")
     then m ← item_of d "min_qty"; m' ← as_float m; mret (Some m')
     else mret (parse_number t));
  match parsed with
  | None => answer [Str "Нужно число. Пример: 5"]
  | Some min_qty =>
      sku ← item_of d "sku" ≫= as_str;
      name ← item_of d "name" ≫= as_str;
      qty ← item_of d "qty" ≫= as_float;
      unit1 ← item_of d "unit" ≫= as_str;
      location ← as_opt_str (d !! "location");
      warehouse ← as_opt_str (d !! "warehouse");
      ok ← exec (fun now => add_item now sku name qty unit1 location warehouse min_qty);
      clear uid;;
      if ok : bool then
        it ← query (fun db => get_item_by_sku db sku);
        card ← format_item_card it;
        answer_kb [Str "Товар добавлен."; NL; card] main_menu_kb
      else answer [Str "Не удалось добавить товар (SKU уже существует)."]
  end.

(** *** AdjustItem *)

Definition adjust_qty_start (is_callback : bool) (uid : Z) : coro unit :=
  acked is_callback;;
  set_state uid AdjustItem_key;;
  answer [Str "Введите SKU или ID товара:"].

Definition adjust_qty_key (uid : Z) (text : option string) : coro unit :=
  t ← text_of text;
  found ← query_r (fun d => get_item_by_key d t);
  match found with
  | None => answer [Str "Товар не найден. Введите SKU или ID:"]
  | Some it =>
      update_data uid [("item_id", VInt (it_id it)); ("current_qty", VFloat (it_qty it))];;
      set_state uid AdjustItem_delta;;
      answer [Str "Товар найден:"; NL; Card it; NL; NL;
              Str "Введите изменение остатка (например +5 или -3.5):"]
  end.

Definition adjust_qty_delta (uid : Z) (text : option string) : coro unit :=
  t ← text_of text;
  match parse_number t with
  | None => answer [Str "Нужно число. Пример: +3 или -1.5"]
  | Some delta =>
      update_data uid [("delta", VFloat delta)];;
      set_state uid AdjustItem_note;;
      answer [Str "Комментарий (можно '-' чтобы пропустить):"]
  end.

Definition note_of (t : string) : option string :=
  let note := Py.strip t in
  if String.eqb note "-" then None else Some note.

Definition adjust_qty_note (uid : Z) (text : option string) : coro unit :=
  t ← text_of text;
  let note := note_of t in
  d ← get_data uid;
  item_id ← item_of d "item_id" ≫= as_int;
  delta ← item_of d "delta" ≫= as_float;
  exec_r (fun now => adjust_item_qty now item_id delta);;
  exec_r (fun now => add_movement now item_id delta note uid);;
  it ← query_r (fun db => get_item_by_id db item_id);
  clear uid;;
  card ← format_item_card it;
  answer_kb [Str "Остаток обновлен."; NL; card] main_menu_kb.

(** *** SetQty *)

Definition set_qty_start (is_callback : bool) (uid : Z) : coro unit :=
  acked is_callback;;
  set_state uid SetQty_key;;
  answer [Str "Введите SKU или ID товара:"].

Definition set_qty_key (uid : Z) (text : option string) : coro unit :=
  t ← text_of text;
  found ← query_r (fun d => get_item_by_key d t);
  match found with
  | None => answer [Str "Товар не найден. Введите SKU или ID:"]
  | Some it =>
      update_data uid [("item_id", VInt (it_id it)); ("current_qty", VFloat (it_qty it))];;
      set_state uid SetQty_qty;;
      answer [Str "Товар найден:"; NL; Card it; NL; NL; Str "Введите новый остаток (число):"]
  end.

Definition set_qty_value (uid : Z) (text : option string) : coro unit :=
  t ← text_of text;
  match parse_number t with
  | None => answer [Str "Нужно число. Пример: 10"]
  | Some qty =>
      update_data uid [("qty", VFloat qty)];;
      set_state uid SetQty_note;;
      answer [Str "Комментарий (можно '-' чтобы пропустить):"]
  end.

Definition set_qty_note (uid : Z) (text : option string) : coro unit :=
  t ← text_of text;
  let note := note_of t in
  d ← get_data uid;
  qty ← item_of d "qty" ≫= as_float;
  current_qty ← item_of d "current_qty" ≫= as_float;
  let delta := PrimFloat.sub qty current_qty in
  item_id ← item_of d "item_id" ≫= as_int;
  exec_r (fun now => update_item_qty now item_id qty);;
  exec_r (fun now => add_movement now item_id delta note uid);;
  it ← query_r (fun db => get_item_by_id db item_id);
  clear uid;;
  card ← format_item_card it;
  answer_kb [Str "Остаток установлен."; NL; card] main_menu_kb.

(** *** DeleteItem *)

Definition delete_item_start (is_callback : bool) (uid : Z) : coro unit :=
  acked is_callback;;
  set_state uid DeleteItem_key;;
  answer [Str "Введите SKU или ID товара для удаления:"].

Definition delete_item_key (uid : Z) (text : option string) : coro unit :=
  t ← text_of text;
  found ← query_r (fun d => get_item_by_key d t);
  match found with
  | None => answer [Str "Товар не найден. Введите SKU или ID:"]
  | Some it =>
      update_data uid [("item_id", VInt (it_id it))];;
      set_state uid DeleteItem_confirm;;
      answer [Str "Подтвердите удаление (напишите 'да'):"; NL; Card it]
  end.

Definition delete_item_confirm (uid : Z) (text : option string) : coro unit :=
  t ← text_of text;
  if negb (String.eqb (Py.lower (Py.strip t)) "да") then
    answer [Str "Удаление отменено."];;
    clear uid
  else
    d ← get_data uid;
    item_id ← item_of d "item_id" ≫= as_int;
    ok ← exec_r (fun _ => delete_item item_id);
    clear uid;;
    if ok : bool
    then answer_kb [Str "Товар удален."] main_menu_kb
    else answer_kb [Str "Не удалось удалить товар."] main_menu_kb.

(** *** Search, lists, reports *)

Definition search_menu : coro unit := answer_kb [Str "Выберите тип поиска:"] search_menu_kb.

Definition search_start_cb (uid : Z) : coro unit :=
  ack;;
  set_state uid SearchItem_query;;
  answer [Str "Введите запрос для поиска (SKU или часть названия):"].

Definition search_run (uid : Z) (text : option string) : coro unit :=
  t ← text_of text;
  let q := Py.strip t in
  l ← query (fun d => search_items d q);
  clear uid;;
  match l with
  | [] => answer_kb [Str "Ничего не найдено."] main_menu_kb
  | _ => answer_kb [Str "Результаты поиска:"; NL; ItemsTable l] main_menu_kb
  end.

Definition list_items_message : coro unit :=
  '(text, total_pages) ← render_items_page 1;
  answer_kb text (pagination_kb 1 total_pages).

(** [int(data.split(":")[1])] *)
Definition second_field (data' : string) : coro Z :=
  match Py.split ":" data' with
  | _ :: f :: _ =>
      match Py.parse_int f with
      | Some z => mret z
      | None => raise ValueError
      end
  | _ => raise ValueError
  end.

Definition list_items_callback (data' : string) : coro unit :=
  page ← second_field data';
  '(text, total_pages) ← render_items_page page;
  send (edit_text text (Some (pagination_kb page total_pages)));;
  ack.

Definition low_stock (is_callback : bool) : coro unit :=
  acked is_callback;;
  l ← query list_low_stock;
  match l with
  | [] => answer [Str "Низких остатков нет."]
  | _ => answer [Str "Низкие остатки:"; NL; ItemsTable l]
  end.

Definition export_csv (is_callback : bool) : coro unit :=
  acked is_callback;;
  l ← query export_items;
  match l with
  | [] => answer [Str "Склад пуст. Экспортировать нечего."]
  | _ => send (answer_document "stock_export.csv" "Экспорт остатков" l)
  end.

Definition history (is_callback : bool) : coro unit :=
  acked is_callback;;
  moves ← query list_movements;
  match moves with
  | [] => answer [Str "История пуста."]
  | _ => answer [Str "Последние движения:"; NL; MovementsTable moves]
  end.

(** *** UpdateItem *)

Definition update_item_start (uid : Z) : coro unit :=
  ack;;
  set_state uid UpdateItem_key;;
  answer [Str "Введите SKU или ID товара для редактирования:"].

Definition set_min_start (uid : Z) : coro unit :=
  ack;;
  clear uid;;
  update_data uid [("preset_field", VStr "min_qty")];;
  set_state uid UpdateItem_key;;
  answer [Str "Введите SKU или ID товара для установки мин. остатка:"].

Definition update_item_key (uid : Z) (text : option string) : coro unit :=
  t ← text_of text;
  found ← query_r (fun d => get_item_by_key d t);
  match found with
  | None => answer [Str "Товар не найден. Введите SKU или ID:"]
  | Some it =>
      d ← get_data uid;
      let preset_field := d !! "preset_field" in
      update_data uid [("item_id", VInt (it_id it))];;
      if truthy preset_field then
        update_data uid [("field", default VNone preset_field)];;
        set_state uid UpdateItem_value;;
        answer [Str "Введите новое значение для min_qty (число):"]
      else
        set_state uid UpdateItem_field;;
        answer_kb [Str "Выберите поле для изменения:"] update_fields_kb
  end.

Definition is_field (f : string) : bool :=
  existsb (String.eqb f) ["name"; "sku"; "unit"; "location"; "warehouse"; "min_qty"].

Definition update_item_field (uid : Z) (text : option string) : coro unit :=
  t ← text_of text;
  let field := Py.lower (Py.strip t) in
  if negb (is_field field)
  then answer [Str "Нужно одно из: name, sku, unit, location, min_qty"]
  else
    update_data uid [("field", VStr field)];;
    set_state uid UpdateItem_value;;
    answer [Str "Введите новое значение:"].

Definition update_item_field_cb (uid : Z) (data' : string) : coro unit :=
  ack;;
  match Py.split ":" data' with
  | _ :: field :: _ =>
      if negb (is_field field) then answer [Str "Неверное поле."]
      else
        update_data uid [("field", VStr field)];;
        set_state uid UpdateItem_value;;
        answer [Str "Введите новое значение:"]
  | _ => raise ValueError
  end.

(** [db.update_item_fields(item_id, **{field: value})]: the one keyword
    is the field chosen; any other name is not a parameter of the method. *)
Definition update_one_field (item_id : Z) (field : string) (value : pyval)
    : coro bool :=
  let call name' sku' unit' location' warehouse' min_qty' :=
    exec_r (fun now =>
              update_item_fields now item_id name' sku' unit' location' warehouse' min_qty') in
  match value with
  | VFloat f =>
      if String.eqb field "min_qty" then call None None None None None (Some f)
      else raise TypeError
  | VNone =>
      if is_field field then call None None None None None None else raise TypeError
  | VStr v =>
      if String.eqb field "name" then call (Some v) None None None None None
      else if String.eqb field "sku" then call None (Some v) None None None None
      else if String.eqb field "unit" then call None None (Some v) None None None
      else if String.eqb field "location" then call None None None (Some v) None None
      else if String.eqb field "warehouse" then call None None None None (Some v) None
      else raise TypeError
  | VInt _ => raise TypeError
  end.

Definition update_item_value (uid : Z) (text : option string) : coro unit :=
  d ← get_data uid;
  field ← item_of d "field" ≫= as_str;
  t ← text_of text;
  let value_raw := Py.strip t in
  parsed ←
    (if String.eqb field "min_qty" then
       match parse_number value_raw with
       | Some v => mret (Some (VFloat v))
       | None => answer [Str "Нужно число"];; mret None
       end
     else if (String.eqb field "location" || String.eqb field "warehouse")
             && String.eqb value_raw "-"
     then mret (Some VNone)
     else
       match value_raw with
       | EmptyString => answer [Str "Значение не может быть пустым"];; mret None
       | _ => mret (Some (VStr value_raw))
       end);
  match parsed with
  | None => mret tt
  | Some value =>
      item_id ← item_of d "item_id" ≫= as_int;
      ok ← update_one_field item_id field value;
      if ok : bool then
        it ← query_r (fun db => get_item_by_id db item_id);
        clear uid;;
        card ← format_item_card it;
        answer_kb [Str "Данные обновлены."; NL; card] main_menu_kb
      else
        clear uid;;
        answer_kb [Str "Не удалось обновить данные (возможно, SKU уже существует)."] main_menu_kb
  end.

(** *** Warehouses *)

Definition warehouses_list : coro unit :=
  ack;;
  rows ← query list_warehouses;
  match rows with
  | [] => answer [Str "Склады еще не добавлены."]
  | _ => answer [Str "Склады:"; NL; WarehouseLines rows]
  end.

Definition warehouse_add_start (uid : Z) : coro unit :=
  ack;;
  set_state uid AddWarehouse_name;;
  answer [Str "Введите название склада:"].

Definition warehouse_add_name (uid : Z) (text : option string) : coro unit :=
  t ← text_of text;
  let name := Py.strip t in
  match name with
  | EmptyString => answer [Str "Название не может быть пустым."]
  | _ =>
      ok ← exec (fun now => add_warehouse now name);
      clear uid;;
      if ok : bool
      then answer_kb [Str "Склад добавлен."] main_menu_kb
      else answer_kb [Str "Такой склад уже существует."] main_menu_kb
  end.

Definition warehouse_items_start : coro unit :=
  ack;;
  l ← query list_warehouses;
  answer_kb [Str "Выберите склад для фильтра:"] (warehouse_filter_kb l).

Definition int_of (f : string) : coro Z :=
  match Py.parse_int f with
  | Some z => mret z
  | None => raise ValueError
  end.

Definition warehouse_filter (data' : string) : coro unit :=
  ack;;
  match Py.split ":" data' with
  | [_; p1; sort; p3] =>
      warehouse_id ← int_of p1;
      page ← int_of p3;
      let render warehouse_name :=
        '(text, total_pages) ← render_items_by_warehouse warehouse_name sort page;
        send (edit_text text (Some (warehouse_sort_kb warehouse_id sort page total_pages))) in
      if warehouse_id =? 0 then render None
      else
        wh ← query_r (fun d => get_warehouse_by_id d warehouse_id);
        match wh with
        | None => answer [Str "Склад не найден."]
        | Some w => render (Some (wh_name w))
        end
  | _ => answer [Str "Неверный формат фильтра."]
  end.

(** *** Admins *)

Definition no_rights_text : list piece :=
  [Str "Недостаточно прав для управления админами."].

Definition admins_list : coro unit :=
  ack;;
  l ← query list_admins;
  answer [Str "Админы:"; AdminLines l].

Definition admin_add_start (uid : Z) : coro unit :=
  ack;;
  if negb (is_super_admin uid) then answer no_rights_text
  else
    set_state uid AddAdmin_tg_id;;
    answer [Str "Введите Telegram ID нового админа:"].

Definition admin_add_tg_id (uid : Z) (text : option string) : coro unit :=
  if negb (is_super_admin uid) then
    clear uid;;
    answer no_rights_text
  else
    t ← text_of text;
    if negb (Py.isdigit (Py.strip t)) then answer [Str "Нужен числовой ID"]
    else
      update_data uid [("tg_id", VInt (Py.int (Py.strip t)))];;
      set_state uid AddAdmin_name;;
      answer [Str "Имя/комментарий (можно '-'): "].

Definition admin_add_name (uid : Z) (text : option string) : coro unit :=
  if negb (is_super_admin uid) then
    clear uid;;
    answer no_rights_text
  else
    t ← text_of text;
    let name := note_of t in
    d ← get_data uid;
    tg_id ← item_of d "tg_id" ≫= as_int;
    ok ← exec_r (fun now => add_admin now tg_id name false);
    clear uid;;
    if ok : bool
    then answer_kb [Str "Админ добавлен."] main_menu_kb
    else answer_kb [Str "Админ уже существует."] main_menu_kb.

Definition admin_remove_start (uid : Z) : coro unit :=
  ack;;
  if negb (is_super_admin uid) then answer no_rights_text
  else
    set_state uid RemoveAdmin_tg_id;;
    answer [Str "Введите Telegram ID для удаления из админов:"].

Definition admin_remove_tg_id (uid : Z) (text : option string) : coro unit :=
  if negb (is_super_admin uid) then
    clear uid;;
    answer no_rights_text
  else
    t ← text_of text;
    if negb (Py.isdigit (Py.strip t)) then answer [Str "Нужен числовой ID"]
    else
      let tg_id := Py.int (Py.strip t) in
      ok ← exec_r (fun _ => remove_admin tg_id);
      clear uid;;
      if ok : bool
      then answer_kb [Str "Админ удален."] main_menu_kb
      else answer_kb [Str "Админ не найден."] main_menu_kb.

(** The store is open on the file at [db_path], so the file exists. *)
Definition backup_db : coro unit :=
  ack;;
  match db_path config with
  | EmptyString => answer [Str "Путь к БД не задан."]
  | path => send (answer_backup path)
  end.

(** *** BulkAdd *)

Inductive row_error := need_fields | bad_qty | bad_min_qty | sku_exists.

Definition error_line (e : Z * row_error) : list piece :=
  [Str "Строка "; Int (fst e);
   Str match snd e with
       | need_fields => ": нужно sku,name,qty"
       | bad_qty => ": неверный qty"
       | bad_min_qty => ": неверный min_qty"
       | sku_exists => ": SKU уже существует"
       end].

Record bulk_report := {
  created : Z;
  skipped : Z;
  errors : list (Z * row_error) }.

(** [row[i].strip() if len(row) > i else dflt] *)
Definition field (row : list string) (i : nat) (dflt : string) : string :=
  match nth_error row i with
  | Some f => Py.strip f
  | None => dflt
  end.

Definition nonempty (s : string) : option string :=
  match s with EmptyString => None | _ => Some s end.

(** One turn of the loop over the rows. *)
Definition bulk_add_row (idx : Z) (row : list string) (r : bulk_report) : coro bulk_report :=
  let sku := field row 0 "" in
  let name := field row 1 "" in
  let qty_raw := field row 2 "" in
  let unit1 := match field row 3 "" with EmptyString => "шт" | u => u end in
  let location := field row 4 "" in
  let warehouse := field row 5 "" in
  let min_qty_raw := field row 6 "0" in
  let reject e :=
    mret {| created := created r; skipped := skipped r;
            errors := errors r ++ [(idx, e)] |} in
  if String.eqb sku "" || String.eqb name "" || String.eqb qty_raw "" then reject need_fields
  else
    match parse_number qty_raw with
    | None => reject bad_qty
    | Some qty =>
        match parse_number min_qty_raw with
        | None => reject bad_min_qty
        | Some min_qty =>
            match nonempty warehouse with
            | Some w =>
                wh ← query (fun d => get_warehouse_by_name d w);
                match wh with
                | None => exec (fun now => add_warehouse now w);; mret tt
                | Some _ => mret tt
                end
            | None => mret tt
            end;;
            ok ← exec (fun now => add_item now sku name qty unit1 (nonempty location)
                                    (nonempty warehouse) min_qty);
            if ok : bool
            then mret {| created := created r + 1; skipped := skipped r; errors := errors r |}
            else mret {| created := created r; skipped := skipped r + 1;
                         errors := errors r ++ [(idx, sku_exists)] |}
        end
    end.

Fixpoint bulk_add_rows (idx : Z) (rows : list (list string)) (r : bulk_report)
    : coro bulk_report :=
  match rows with
  | [] => mret r
  | row :: rest =>
      r' ← bulk_add_row idx row r;
      bulk_add_rows (idx + 1) rest r'
  end.

Definition summary (r : bulk_report) : list piece :=
  [Str "Готово. Добавлено: "; Int (created r); Str ". Пропущено: "; Int (skipped r); Str "."]
  ++ match errors r with
     | [] => []
     | _ =>
         [NL; Str "Ошибки:"]
         ++ flat_map (fun e => NL :: error_line e) (firstn 10 (errors r))
         ++ (if (10 <? Z.of_nat (length (errors r)))%Z
             then [NL; Str "... еще "; Int (Z.of_nat (length (errors r)) - 10)]
             else [])
     end.

Definition bulk_add_process (uid : Z) (text : option string) : coro unit :=
  match parse_bulk_lines (or_else text "") with
  | [] => answer [Str "Список пуст. Пришлите строки по формату CSV."]
  | rows =>
      r ← bulk_add_rows 1 rows {| created := 0; skipped := 0; errors := [] |};
      clear uid;;
      answer_kb (summary r) main_menu_kb
  end.

Definition admin_unknown : coro unit :=
  answer_kb [Str "Не понял команду. Используйте меню."] main_menu_kb.

(** ** Routing

    aiogram tries the handlers of a router in the order of their
    registration and runs the first one whose filters pass.  The admin
    router is included first and is guarded by [IsAdmin]; the public router
    sees what the admin router left. *)

(** The [Command] filter: the first word is [/name] or [/name@mention],
    and a mention has to be the bot's own user name. *)
Definition is_command (cmd : string) (text : option string) : bool :=
  match text with
  | None => false
  | Some t =>
      match Py.first_word t with
      | Some (String a rest) =>
          let '(command, mention) := Py.partition "@" rest in
          (Py.code a =? 47)
          && match mention, me with
             | String _ _, Some (String b u) =>
                 String.eqb (Py.lower mention) (Py.lower (String b u))
             | _, _ => true
             end
          && String.eqb command cmd
      | _ => false
      end
  end.

Definition text_is (caption : string) (text : option string) : bool :=
  match text with
  | Some t => String.eqb t caption
  | None => false
  end.

Definition text_in (captions : list string) (text : option string) : bool :=
  existsb (fun c => text_is c text) captions.

Definition data_startswith (p : string) (data' : option string) : bool :=
  match data' with
  | Some d => Py.startswith p d
  | None => false
  end.

Definition in_state (st : State) (cur : option State) : bool :=
  bool_decide (cur = Some st).

Definition cancel_words : list string :=
  [BTN_CANCEL K; "Отмена"; "отмена"; "⏹️ Отмена"].

Definition msg_handler : Type := Z -> option string -> coro unit.
Definition msg_filter : Type := option State -> option string -> bool.

Definition admin_messages : list (msg_filter * msg_handler) :=
  [ (fun _ t => is_command "menu" t, fun _ _ => cmd_menu);
    (fun _ t => is_command "admin" t, fun _ _ => cmd_admin);
    (fun _ t => is_command "id" t, fun uid _ => cmd_id uid);
    (fun _ t => text_is (BTN_HELP K) t || is_command "help" t, fun _ _ => cmd_help);
    (fun _ t => is_command "cancel" t, fun uid _ => cmd_cancel uid);
    (fun _ t => text_in cancel_words t, fun uid _ => cancel_any_state uid);
    (fun _ t => text_is (BTN_WAREHOUSE K) t, fun _ _ => menu_warehouse);
    (fun _ t => text_is (BTN_BULK_ADD K) t, fun uid _ => bulk_add_start false uid);
    (fun _ t => text_is (BTN_REPORTS K) t, fun _ _ => menu_reports);
    (fun _ t => text_is (BTN_ADMIN K) t, fun _ _ => menu_admin);
    (fun _ t => text_is (BTN_SETTINGS K) t, fun _ _ => menu_settings);
    (fun _ t => text_is (BTN_WAREHOUSES K) t, fun _ _ => menu_warehouses);
    (fun _ t => text_is (BTN_ADD_ITEM K) t, fun uid _ => add_item_start false uid);
    (fun st _ => in_state AddItem_sku st, add_item_sku);
    (fun st _ => in_state AddItem_name st, add_item_name);
    (fun st _ => in_state AddItem_qty st, add_item_qty);
    (fun st _ => in_state AddItem_unit st, add_item_unit);
    (fun st _ => in_state AddItem_location st, add_item_location);
    (fun st _ => in_state AddItem_min_qty st, add_item_min);
    (fun _ t => text_is (BTN_ADJUST_QTY K) t, fun uid _ => adjust_qty_start false uid);
    (fun st _ => in_state AdjustItem_key st, adjust_qty_key);
    (fun st _ => in_state AdjustItem_delta st, adjust_qty_delta);
    (fun st _ => in_state AdjustItem_note st, adjust_qty_note);
    (fun _ t => text_is (BTN_SET_QTY K) t, fun uid _ => set_qty_start false uid);
    (fun st _ => in_state SetQty_key st, set_qty_key);
    (fun st _ => in_state SetQty_qty st, set_qty_value);
    (fun st _ => in_state SetQty_note st, set_qty_note);
    (fun _ t => text_is (BTN_DELETE_ITEM K) t, fun uid _ => delete_item_start false uid);
    (fun st _ => in_state DeleteItem_key st, delete_item_key);
    (fun st _ => in_state DeleteItem_confirm st, delete_item_confirm);
    (fun _ t => text_is (BTN_SEARCH K) t, fun _ _ => search_menu);
    (fun st _ => in_state SearchItem_query st, search_run);
    (fun _ t => text_is (BTN_LIST_ITEMS K) t, fun _ _ => list_items_message);
    (fun _ t => text_is (BTN_LOW_STOCK K) t, fun _ _ => low_stock false);
    (fun _ t => text_is (BTN_EXPORT_CSV K) t, fun _ _ => export_csv false);
    (fun _ t => text_is (BTN_HISTORY K) t, fun _ _ => history false);
    (fun st _ => in_state AddWarehouse_name st, warehouse_add_name);
    (fun st _ => in_state UpdateItem_key st, update_item_key);
    (fun st _ => in_state UpdateItem_field st, update_item_field);
    (fun st _ => in_state UpdateItem_value st, update_item_value);
    (fun st _ => in_state AddAdmin_tg_id st, admin_add_tg_id);
    (fun st _ => in_state AddAdmin_name st, admin_add_name);
    (fun st _ => in_state RemoveAdmin_tg_id st, admin_remove_tg_id);
    (fun st _ => in_state BulkAdd_lines st, bulk_add_process);
    (fun _ _ => true, fun _ _ => admin_unknown) ].

Definition cb_handler : Type := Z -> string -> coro unit.

Definition admin_callbacks : list (msg_filter * cb_handler) :=
  [ (fun _ d => text_is "bulk_add" d, fun uid _ => bulk_add_start true uid);
    (fun _ d => text_is "settings_menu" d, fun _ _ => settings_menu_cb);
    (fun _ d => text_is "warehouses_menu" d, fun _ _ => warehouses_menu_cb);
    (fun _ d => text_is "back_to_main" d, fun _ _ => back_to_main);
    (fun _ d => text_is "add_item" d, fun uid _ => add_item_start true uid);
    (fun _ d => data_startswith "prefill_item:" d, add_item_prefill);
    (fun st d => in_state AddItem_warehouse st && data_startswith "warehouse_select:" d,
     add_item_warehouse_select);
    (fun _ d => text_is "adjust_qty" d, fun uid _ => adjust_qty_start true uid);
    (fun _ d => text_is "set_qty" d, fun uid _ => set_qty_start true uid);
    (fun _ d => text_is "delete_item" d, fun uid _ => delete_item_start true uid);
    (fun _ d => text_is "search" d, fun uid _ => search_start_cb uid);
    (fun _ d => data_startswith "list_items:" d, fun _ d => list_items_callback d);
    (fun _ d => text_is "low_stock" d, fun _ _ => low_stock true);
    (fun _ d => text_is "export_csv" d, fun _ _ => export_csv true);
    (fun _ d => text_is "history" d, fun _ _ => history true);
    (fun _ d => text_is "update_item" d, fun uid _ => update_item_start uid);
    (fun _ d => text_is "set_min" d, fun uid _ => set_min_start uid);
    (fun _ d => text_is "warehouses_list" d, fun _ _ => warehouses_list);
    (fun _ d => text_is "warehouse_add" d, fun uid _ => warehouse_add_start uid);
    (fun _ d => text_is "warehouse_items" d, fun _ _ => warehouse_items_start);
    (fun _ d => data_startswith "warehouse_filter:" d, fun _ d => warehouse_filter d);
    (fun st d => in_state UpdateItem_field st && data_startswith "update_field:" d,
     update_item_field_cb);
    (fun _ d => text_is "admins_list" d, fun _ _ => admins_list);
    (fun _ d => text_is "admin_add" d, fun uid _ => admin_add_start uid);
    (fun _ d => text_is "admin_remove" d, fun uid _ => admin_remove_start uid);
    (fun _ d => text_is "backup_db" d, fun _ _ => backup_db) ].

(** The first handler whose filter passes. *)
Definition route {H : Type} (table : list (msg_filter * H)) (st : option State)
    (arg : option string) : option H :=
  match List.find (fun h => fst h st arg) table with
  | Some h => Some (snd h)
  | None => None
  end.

(** filters.py *)
Definition IsAdmin (from_user : option Z) : coro bool :=
  match from_user with
  | None => mret false
  | Some uid => query (fun d => is_admin d uid)
  end.

(** [event.from_user.id] *)
Definition id_of (from_user : option Z) : coro Z :=
  match from_user with
  | Some uid => mret uid
  | None => raise AttributeError
  end.

Inductive Update :=
| message (from_user : option Z) (text : option string)
| callback_query (from_user : option Z) (data' : option string).

Definition public_message (from_user : option Z) (text : option string) : coro unit :=
  uid ← id_of from_user;
  if is_command "start" text then cmd_start uid else public_fallback uid.

Definition feed_update (u : Update) : coro unit :=
  match u with
  | message from_user text =>
      adm ← IsAdmin from_user;
      if adm : bool then
        uid ← id_of from_user;
        st ← get_state uid;
        match route admin_messages st text with
        | Some h => h uid text
        | None => public_message from_user text
        end
      else public_message from_user text
  | callback_query from_user data' =>
      adm ← IsAdmin from_user;
      let public := uid ← id_of from_user; public_callback uid in
      if adm : bool then
        uid ← id_of from_user;
        st ← get_state uid;
        match route admin_callbacks st data' with
        | Some h => h uid (or_else data' "")
        | None => public
        end
      else public
  end.

(** The bot's life: [main] makes the configured super-admins admins, then
    the updates are served one by one; an exception ends its handler and
    nothing else. *)
Definition startup (w : world) : result unit * world :=
  exec_r (fun now => ensure_admins now (elements (super_admins config))) w.

Definition step (w : world) (u : Update) : world := snd (feed_update u w).

Definition run (w : world) (us : list Update) : world := fold_left step us w.

End Bot.

(** ** Vocabulary of the properties *)

(** The specification's decimal number, in its own words: an optional
    sign, digits, and at most one comma or dot with digits on at least one
    side of it. *)
Definition comma : ascii := ascii_of_nat 44.








(** Case-insensitive uniqueness of the stored SKUs, as the specification
    words it: two rows whose SKUs agree up to letter case are one row. *)
Definition sku_unique_nocase (d : Database) : Prop :=
  forall (i j : nat) (a b : item),
    items d !! i = Some a -> items d !! j = Some b ->
    Sqlite.lower (it_sku a) = Sqlite.lower (it_sku b) -> i = j.

(** What the UNIQUE constraint of the schema keeps: no two rows with the
    same bytes. *)
Definition sku_unique_binary (d : Database) : Prop :=
  NoDup (List.map it_sku (items d)).

(** Modelled from the spec: the sources have no operation that deletes a
    warehouse.  This is the deletion of a warehouse row the specification
    speaks of, on the schema of [Database.init], where [items.warehouse] is
    a plain TEXT column and no foreign key leads to [warehouses]. *)
Definition delete_warehouse (warehouse_id : Z) (d : Database) : bool * Database :=
  (existsb (fun w => wh_id w =? warehouse_id) (warehouses d),
   {| admins := admins d; items := items d;
      warehouses := filter (fun w => wh_id w <> warehouse_id) (warehouses d);
      movements := movements d;
      seq_items := seq_items d; seq_warehouses := seq_warehouses d;
      seq_movements := seq_movements d |}).


(** ** Sample data *)

Definition sample_captions : Constants := {|
  BTN_ADD_ITEM := "➕ Добавить товар";
  BTN_ADMIN := "🛠️ Админ";
  BTN_ADJUST_QTY := "➖ Изменить остаток";
  BTN_BACK := "⬅️ Назад";
  BTN_BULK_ADD := "📥 Массовая заливка";
  BTN_CANCEL := "⏹️ Отмена";
  BTN_DELETE_ITEM := "🗑️ Удалить товар";
  BTN_EXPORT_CSV := "📤 Экспорт CSV";
  BTN_HELP := "ℹ️ Помощь";
  BTN_HISTORY := "🕘 История";
  BTN_LOW_STOCK := "⚠️ Низкие остатки";
  BTN_LIST_ITEMS := "📋 Список товаров";
  BTN_REPORTS := "📊 Отчеты";
  BTN_SEARCH := "🔍 Поиск";
  BTN_SETTINGS := "⚙️ Настройки";
  BTN_SET_QTY := "✅ Установить остаток";
  BTN_WAREHOUSES := "🏢 Склады";
  BTN_WAREHOUSE := "🏬 Склад" |}.

(** One super-admin, identity 1. *)
Definition sample_config : Config :=
  {| bot_token := "token"; db_path := "data.db"; super_admins := {[ 1 ]} |}.

Definition new_world : world :=
  {| db := empty_db; storage := ∅; sent := []; clock := "2024-01-01T00:00:00" |}.

(** The world after [main] has started on a new file. *)
Definition started : world := snd (startup sample_config new_world).

Definition LF : string := String (ascii_of_nat 10) EmptyString.

Definition sample_run : world -> list Update -> world :=
  run sample_captions sample_config (Some "warehouse_bot").

(** An inventory of one item, with one movement and one warehouse. *)
Definition stocked : world :=
  sample_run started
    [message (Some 1) (Some "📥 Массовая заливка");
     message (Some 1) (Some "A-1,Widget,10,,,Main");
     message (Some 1) (Some "✅ Установить остаток");
     message (Some 1) (Some "A-1");
     message (Some 1) (Some "7");
     message (Some 1) (Some "-")].

(** The filters on the text alone that the admin router tries before the
    steps of the admin flows: the commands, the cancel words and the
    captions of the menus, in the order of their registration. *)
Definition text_triggers (K : Constants) (me : option string)
    : list (option string -> bool) :=
  [ is_command me "menu"; is_command me "admin"; is_command me "id";
    (fun t => text_is (BTN_HELP K) t || is_command me "help" t);
    is_command me "cancel"; text_in (cancel_words K);
    text_is (BTN_WAREHOUSE K); text_is (BTN_BULK_ADD K); text_is (BTN_REPORTS K);
    text_is (BTN_ADMIN K); text_is (BTN_SETTINGS K); text_is (BTN_WAREHOUSES K);
    text_is (BTN_ADD_ITEM K); text_is (BTN_ADJUST_QTY K); text_is (BTN_SET_QTY K);
    text_is (BTN_DELETE_ITEM K); text_is (BTN_SEARCH K); text_is (BTN_LIST_ITEMS K);
    text_is (BTN_LOW_STOCK K); text_is (BTN_EXPORT_CSV K); text_is (BTN_HISTORY K) ].

Definition is_trigger (K : Constants) (me : option string) (text : option string) : bool :=
  existsb (fun f => f text) (text_triggers K me).

(** The message handler registered for a state; a state that waits for a
    button has none, and its messages go to the last handler. *)
Definition flow_step (config : Config) (st : State) : msg_handler :=
  match st with
  | AddItem_sku => add_item_sku
  | AddItem_name => add_item_name
  | AddItem_qty => add_item_qty
  | AddItem_unit => add_item_unit
  | AddItem_location => add_item_location
  | AddItem_warehouse => fun _ _ => admin_unknown
  | AddItem_min_qty => add_item_min
  | AdjustItem_key => adjust_qty_key
  | AdjustItem_delta => adjust_qty_delta
  | AdjustItem_note => adjust_qty_note
  | SetQty_key => set_qty_key
  | SetQty_qty => set_qty_value
  | SetQty_note => set_qty_note
  | DeleteItem_key => delete_item_key
  | DeleteItem_confirm => delete_item_confirm
  | UpdateItem_key => update_item_key
  | UpdateItem_field => update_item_field
  | UpdateItem_value => update_item_value
  | SearchItem_query => search_run
  | AddAdmin_tg_id => admin_add_tg_id config
  | AddAdmin_name => admin_add_name config
  | RemoveAdmin_tg_id => admin_remove_tg_id config
  | AddWarehouse_name => warehouse_add_name
  | BulkAdd_lines => bulk_add_process
  end.

(** The steps guarded by the super-admin check. *)
Definition admin_flow_step (st : State) : bool :=
  match st with
  | AddAdmin_tg_id | AddAdmin_name | RemoveAdmin_tg_id => true
  | _ => false
  end.

(** The world after a reply was sent and the session of [uid] was
    cleared, the store untouched. *)
Definition cleared_with (w : world) (uid : Z) (r : reply) : world :=
  {| db := db w;
     storage := <[uid := no_session]> (storage w);
     sent := sent w ++ [r];
     clock := clock w |}.

(** An admin who is no super-admin (identity 2), added by the super-admin
    through the AddAdmin flow. *)
Definition with_second_admin : world :=
  sample_run started
    [callback_query (Some 1) (Some "admin_add");
     message (Some 1) (Some "2");
     message (Some 1) (Some "-")].

(** The super-admin has opened the AddWarehouse flow. *)
Definition naming_warehouse : world :=
  sample_run started [callback_query (Some 1) (Some "warehouse_add")].

(** The second admin has opened the AddWarehouse flow. *)
Definition second_admin_naming_warehouse : world :=
  sample_run with_second_admin [callback_query (Some 2) (Some "warehouse_add")].

(** The super-admin began to add an admin and lost the privilege before
    the next step: the same world under a configuration without
    super-admins. *)
Definition adding_admin : world :=
  sample_run started [callback_query (Some 1) (Some "admin_add")].

Definition config_without_super_admins : Config :=
  {| bot_token := "token"; db_path := "data.db"; super_admins := ∅ |}.

(** The item of [stocked]. *)
Definition widget : item :=
  {| it_id := 1; it_sku := "A-1"; it_name := "Widget"; it_qty := 7; it_unit := "шт";
     it_location := None; it_warehouse := Some "Main"; it_min_qty := 0;
     it_updated_at := "2024-01-01T00:00:00" |}.



(** ** Frames

    A coroutine keeps a relation when the world it leaves, by a return or
    by an exception, is related to the world it started in. *)
Definition keeps {A} (R : world -> world -> Prop) (c : coro A) : Prop :=
  forall w, R w (snd (c w)).

(** The records of all users but [uid] are as they were. *)
Definition others_untouched (uid : Z) (w w' : world) : Prop :=
  forall other, other <> uid -> storage w' !! other = storage w !! other.

Definition same_admins (w w' : world) : Prop := admins (db w') = admins (db w).

(** The user an update comes from. *)
Definition sender (u : Update) : option Z :=
  match u with
  | message from_user _ => from_user
  | callback_query from_user _ => from_user
  end.

Definition same_store (w w' : world) : Prop := db w' = db w.

(** The steps whose handler writes to the store. *)
Definition commit_step (st : State) : bool :=
  match st with
  | AddItem_min_qty | AdjustItem_note | SetQty_note | DeleteItem_confirm
  | UpdateItem_value | AddWarehouse_name | AddAdmin_name | RemoveAdmin_tg_id
  | BulkAdd_lines => true
  | _ => false
  end.

(** ** The bulk import

    The errors of a report that stand for a SKU that was taken. *)
Definition is_sku_exists (e : Z * row_error) : bool :=
  match snd e with sku_exists => true | _ => false end.

Definition duplicates (es : list (Z * row_error)) : Z :=
  Z.of_nat (length (filter (fun e => is_sku_exists e = true) es)).

(** ** Plain rows

    A character of a pasted line: no control character, and no byte that
    opens a space or a line boundary beyond ASCII (C2, E1, E2, E3). *)
Definition line_char (a : ascii) : bool :=
  let c := Py.code a in
  (32 <=? c) && negb ((c =? 194) || (c =? 225) || (c =? 226) || (c =? 227)).

(** The text ends with a blank. *)
Fixpoint ends_with_blank (s : string) : bool :=
  match s with
  | EmptyString => false
  | String c EmptyString => Csv.blank c
  | String _ s' => ends_with_blank s'
  end.

(** A field that needs no quoting: no comma, no quote or blank in front,
    no blank at the end. *)
Definition plain_field (f : string) : bool :=
  Py.all (fun c => line_char c && negb (Csv.comma c)) f
  && match f with
     | String c _ => negb (Csv.quote c) && negb (Csv.blank c)
     | EmptyString => true
     end
  && negb (ends_with_blank f).

(** A row of plain fields whose line is not empty. *)
Definition plain_row (row : list string) : bool :=
  forallb plain_field row
  && negb (String.eqb (String.concat "," row) "").

(** ** The schema

    The constraints of the schema of [Database.init]: the primary keys
    and the UNIQUE columns hold no value twice, a key is never above its
    AUTOINCREMENT counter, a REAL NOT NULL column holds no NaN (which
    SQLite would store as NULL), and every movement refers to an item. *)
Definition items_ok (d : Database) : Prop :=
  NoDup (it_id <$> items d)
  /\ NoDup (it_sku <$> items d)
  /\ Forall (fun it => it_id it <= seq_items d
                       /\ is_nan (it_qty it) = false
                       /\ is_nan (it_min_qty it) = false) (items d).

Definition admins_ok (d : Database) : Prop := NoDup (adm_tg_id <$> admins d).

Definition warehouses_ok (d : Database) : Prop :=
  NoDup (wh_id <$> warehouses d)
  /\ NoDup (wh_name <$> warehouses d)
  /\ Forall (fun w => wh_id w <= seq_warehouses d) (warehouses d).

Definition movements_ok (d : Database) : Prop :=
  NoDup (mv_id <$> movements d)
  /\ Forall (fun m => mv_id m <= seq_movements d
                      /\ has_item d (mv_item_id m) = true
                      /\ is_nan (mv_delta m) = false) (movements d).

Definition store_ok (d : Database) : Prop :=
  items_ok d /\ admins_ok d /\ warehouses_ok d /\ movements_ok d.

(** The constraints are not lost. *)
Definition keeps_store_ok (w w' : world) : Prop := store_ok (db w) -> store_ok (db w').

(** ** The answers of the AddItem dialogue

    The unit and the location that an answer stands for, in a session
    without a template. *)
Definition typed_unit (t : string) : string :=
  if String.eqb (Py.strip t) "-" || String.eqb (Py.strip t) "" then "шт" else Py.strip t.

Definition typed_location (t : string) : option string :=
  if String.eqb (Py.strip t) "-" then None else Some (Py.strip t).

(** ** Sample sessions

    The super-admin is at the last step of an adjustment of +5. *)
Definition adjusting_widget : world :=
  sample_run stocked
    [callback_query (Some 1) (Some "adjust_qty");
     message (Some 1) (Some "A-1");
     message (Some 1) (Some "+5")].

(** The item was deleted before that step. *)
Definition widget_deleted_meanwhile : world :=
  with_db adjusting_widget (snd (delete_item 1 (db adjusting_widget))).

(** The super-admin is asked for the new location of the item. *)
Definition relocating_widget : world :=
  sample_run stocked
    [callback_query (Some 1) (Some "update_item");
     message (Some 1) (Some "A-1");
     message (Some 1) (Some "location")].


(** ** Session dictionaries

    The keys a step reads from the session dictionary without a default. *)
Definition required (st : State) : list string :=
  match st with
  | AddItem_name => ["sku"]
  | AddItem_qty => ["sku"; "name"]
  | AddItem_unit => ["sku"; "name"; "qty"]
  | AddItem_location | AddItem_warehouse | AddItem_min_qty => ["sku"; "name"; "qty"; "unit"]
  | AdjustItem_delta => ["item_id"]
  | AdjustItem_note => ["item_id"; "delta"]
  | SetQty_qty => ["item_id"; "current_qty"]
  | SetQty_note => ["item_id"; "current_qty"; "qty"]
  | DeleteItem_confirm => ["item_id"]
  | UpdateItem_field => ["item_id"]
  | UpdateItem_value => ["item_id"; "field"]
  | AddAdmin_name => ["tg_id"]
  | _ => []
  end.

(** The type of the value that the flows store under a key. *)
Definition type_ok (k : string) (v : pyval) : bool :=
  if existsb (String.eqb k) ["sku"; "name"; "unit"] then
    match v with VStr _ => true | _ => false end
  else if existsb (String.eqb k) ["qty"; "min_qty"; "current_qty"; "delta"] then
    match v with VFloat _ => true | _ => false end
  else if existsb (String.eqb k) ["item_id"; "tg_id"] then
    match v with VInt _ => true | _ => false end
  else if existsb (String.eqb k) ["location"; "warehouse"] then
    match v with VStr _ | VNone => true | _ => false end
  else if String.eqb k "field" then
    match v with VStr f => is_field f | _ => false end
  else if String.eqb k "preset_field" then
    match v with VStr f => String.eqb f "min_qty" | _ => false end
  else true.

(** Every value has the type of its key. *)
Definition data_ok (d : gmap string pyval) : Prop :=
  forall k v, d !! k = Some v -> type_ok k v = true.

(** A session holds values of the right types, and the keys of its step. *)
Definition session_ok (s : session) : Prop :=
  data_ok (data s)
  /\ match state s with
     | Some st => Forall (fun k => is_Some (data s !! k)) (required st)
     | None => True
     end.

(** All sessions do. *)
Definition sessions_ok (w : world) : Prop := forall uid, session_ok (session_of w uid).

(** What a handler run for [uid] in state [st] may end with. *)
Definition outcome_ok {A} (uid : Z) (st : option State) (p : result A * world) : Prop :=
  fst p <> Raise KeyError
  /\ (fst p = Raise TypeError -> st = Some UpdateItem_value)
  /\ session_ok (session_of (snd p) uid).

(** An entry of a routing table whose handler, run where its filter
    passes, ends as [outcome_ok] tells. *)
Definition msg_entry_ok (e : msg_filter * msg_handler) : Prop :=
  forall uid text w,
    fst e (state (session_of w uid)) text = true ->
    session_ok (session_of w uid) ->
    outcome_ok uid (state (session_of w uid)) (snd e uid text w).

(** The same for a callback. *)
Definition cb_entry_ok (e : msg_filter * cb_handler) : Prop :=
  forall uid data' w,
    fst e (state (session_of w uid)) data' = true ->
    session_ok (session_of w uid) ->
    outcome_ok uid (state (session_of w uid)) (snd e uid (or_else data' "") w).


(** The super-admin is asked for the new name of the item, which was
    deleted before the answer. *)
Definition renaming_a_deleted_widget : world :=
  let w := sample_run stocked
             [callback_query (Some 1) (Some "update_item");
              message (Some 1) (Some "A-1");
              message (Some 1) (Some "name")] in
  with_db w (snd (delete_item 1 (db w))).


(** ** keyboards.py *)

(** [str(n)] for an int, as the f-strings of the callback data need it:
    the decimal digits, most significant first, after a minus sign for a
    negative number.  [fuel] bounds the number of digits. *)
Definition digit_char (d : Z) : ascii := ascii_of_nat (Z.to_nat (48 + d)).

(** The digits of [n], written in front of [acc]. *)
Fixpoint digits_go (fuel : nat) (n : Z) (acc : string) : string :=
  match fuel with
  | O => acc
  | S fuel' =>
      let acc' := String (digit_char (n mod 10)) acc in
      if n <? 10 then acc' else digits_go fuel' (n / 10) acc'
  end.

(** A number below 2^k has at most k digits. *)
Definition digits (n : Z) : string := digits_go (S (Z.to_nat (Z.log2 n))) n EmptyString.

(** [str(z)] *)
Definition format_int (z : Z) : string :=
  if z <? 0 then String "-" (digits (- z)) else digits z.

(** The callback data of the inline buttons of a keyboard, row by row.
    The main menu is a reply keyboard: its buttons send their captions. *)
Definition callback_data (kb : markup) : list string :=
  match kb with
  | main_menu_kb => []
  | warehouse_menu_kb =>
      ["add_item"; "adjust_qty"; "bulk_add"; "set_qty"; "delete_item"; "list_items:1";
       "search"; "low_stock"; "back_to_main"]
  | reports_menu_kb => ["export_csv"; "history"; "low_stock"; "back_to_main"]
  | search_menu_kb => ["search"; "warehouse_items"; "back_to_main"]
  | admin_menu_kb =>
      ["admins_list"; "admin_add"; "admin_remove"; "backup_db"; "warehouses_menu";
       "settings_menu"; "back_to_main"]
  | settings_menu_kb => ["update_item"; "set_min"; "back_to_main"]
  | warehouses_menu_kb =>
      ["warehouses_list"; "warehouse_add"; "warehouse_items"; "back_to_main"]
  | update_fields_kb =>
      ["update_field:name"; "update_field:sku"; "update_field:unit"; "update_field:location";
       "update_field:min_qty"; "update_field:warehouse"; "back_to_main"]
  | pagination_kb page total_pages =>
      (if 1 <? page then ["list_items:" +:+ format_int (page - 1)] else [])
      ++ (if page <? total_pages then ["list_items:" +:+ format_int (page + 1)] else [])
      ++ ["back_to_main"]
  | warehouses_select_kb l =>
      List.map (fun row => "warehouse_select:" +:+ format_int (wh_id row)) l
      ++ ["warehouse_select:0"]
  | warehouse_filter_kb l =>
      List.map (fun row => "warehouse_filter:" +:+ format_int (wh_id row) +:+ ":name:1") l
      ++ ["warehouse_filter:0:name:1"; "back_to_main"]
  | warehouse_sort_kb warehouse_id sort page total_pages =>
      let to s p :=
        "warehouse_filter:" +:+ format_int warehouse_id +:+ ":" +:+ s +:+ ":" +:+ format_int p in
      [to "name" page; to "qty" page; to "sku" page]
      ++ (if 1 <? page then [to sort (page - 1)] else [])
      ++ (if page <? total_pages then [to sort (page + 1)] else [])
      ++ ["back_to_main"]
  | prefill_kb l =>
      List.map (fun it => "prefill_item:" +:+ format_int (it_id it)) l
      ++ ["prefill_item:skip"]
  end.

(** The state that the handler of a button asks for, by the data of the
    button. *)
Definition served_in (d : string) (st : option State) : Prop :=
  (Py.startswith "warehouse_select:" d = true -> st = Some AddItem_warehouse)
  /\ (Py.startswith "update_field:" d = true -> st = Some UpdateItem_field).

(** A text without a colon. *)
Definition no_colon (s : string) : bool :=
  Py.all (fun c => negb (Ascii.eqb c ":")) s.


(** * Properties *)

(** ** Strings *)


Lemma all_impl (p q : ascii -> bool) s :
  (forall c, p c = true -> q c = true) -> Py.all p s = true -> Py.all q s = true.
Proof.
  intros H. induction s as [|c s IH]; simpl; [done|].
  rewrite !andb_true_iff. intros [? ?]. split; auto.
Qed.

Lemma all_app p s t : Py.all p (s +:+ t) = Py.all p s && Py.all p t.
Proof. induction s as [|c s IH]; simpl; [done|]. by rewrite IH, andb_assoc. Qed.



(** Characters that survive: removal and replacement *)
Lemma remove_absent a s :
  Py.all (fun c => negb (Ascii.eqb c a)) s = true -> Py.remove a s = s.
Proof.
  induction s as [|c s IH]; simpl; [done|].
  rewrite andb_true_iff. intros [H1 H2].
  apply negb_true_iff in H1. rewrite H1. by rewrite IH.
Qed.




Lemma lstrip_nonspace s :
  Py.all (fun c => negb (Py.isspace c)) s = true -> Py.lstrip s = s.
Proof.
  destruct s as [|c s]; simpl; [done|].
  rewrite andb_true_iff. intros [H _]. apply negb_true_iff in H. by rewrite H.
Qed.

Lemma rstrip_nonspace s :
  Py.all (fun c => negb (Py.isspace c)) s = true -> Py.rstrip s = s.
Proof.
  induction s as [|c s IH]; simpl; [done|].
  rewrite andb_true_iff. intros [H1 H2]. rewrite (IH H2).
  apply negb_true_iff in H1. rewrite H1. by destruct s.
Qed.

Lemma strip_nonspace s :
  Py.all (fun c => negb (Py.isspace c)) s = true -> Py.strip s = s.
Proof. intros H. unfold Py.strip. by rewrite lstrip_nonspace, rstrip_nonspace. Qed.



























(** ** Running a coroutine *)

Ltac coro :=
  cbv beta iota zeta delta
    [mbind coro_bind mret coro_ret raise lift text_of id_of query query_r exec exec_r
     clear set_state update_data get_state get_data answer answer_kb ack send acked
     item_of as_str as_float as_int as_opt_str format_item_card int_of
     with_db with_storage with_sent negb];
  cbn [fst snd db storage sent clock].

(** ** The store *)

Lemma existsb_filter_out {A} (f : A -> bool) (P : A -> Prop) `{!forall x, Decision (P x)}
    (l : list A) :
  (forall x, P x -> f x = false) -> existsb f (filter P l) = false.
Proof.
  intros Hf. induction l as [|a l IH]; [done|].
  rewrite filter_cons. destruct (decide (P a)) as [Hp|_]; [|done].
  simpl. by rewrite IH, (Hf a Hp).
Qed.

Lemma existsb_app_one {A} (f : A -> bool) (l : list A) (x : A) :
  existsb f (l ++ [x]) = existsb f l || f x.
Proof. rewrite existsb_app. simpl. by rewrite orb_false_r. Qed.

Lemma remove_admin_spec d t :
  Sqlite.int64 t = true ->
  exists d', remove_admin t d = (Ok (is_admin d t), d')
    /\ is_admin d' t = false
    /\ items d' = items d /\ warehouses d' = warehouses d /\ movements d' = movements d.
Proof.
  intros H. unfold remove_admin. rewrite H. simpl. eexists. split; [done|].
  split; [|done]. apply existsb_filter_out. intros a Ha. by apply Z.eqb_neq.
Qed.

Lemma add_admin_spec now t nm silent d :
  Sqlite.int64 t = true ->
  exists r d', add_admin now t nm silent d = (Ok r, d')
    /\ is_admin d' t = true
    /\ (forall u, is_admin d u = true -> is_admin d' u = true).
Proof.
  intros H. unfold add_admin. rewrite H. simpl.
  destruct (is_admin d t) eqn:E.
  - eexists _, _. by split.
  - eexists _, _. split; [done|]. unfold is_admin. simpl. split.
    + rewrite existsb_app_one. simpl. by rewrite Z.eqb_refl, orb_true_r.
    + intros u Hu. rewrite existsb_app_one. unfold is_admin in Hu. by rewrite Hu.
Qed.

Lemma ensure_admins_spec now l d :
  Forall (fun t => Sqlite.int64 t = true) l ->
  exists d', ensure_admins now l d = (Ok tt, d')
    /\ (forall t, t ∈ l -> is_admin d' t = true)
    /\ (forall u, is_admin d u = true -> is_admin d' u = true).
Proof.
  intros H. revert d. induction H as [|t l Ht Hl IH]; intros d; simpl.
  - eexists. split; [done|]. split; [|done]. intros t Ht. by apply elem_of_nil in Ht.
  - destruct (add_admin_spec now t (Some "superadmin") true d Ht) as (r & d1 & -> & H1 & H2).
    destruct (IH d1) as (d2 & -> & H3 & H4).
    eexists. split; [done|]. split.
    + intros u Hu. apply elem_of_cons in Hu as [->|Hu]; auto.
    + auto.
Qed.

Lemma delete_item_spec d item_id :
  Sqlite.int64 item_id = true ->
  exists d', delete_item item_id d = (Ok (has_item d item_id), d')
    /\ items d' = filter (fun it => it_id it <> item_id) (items d)
    /\ movements d' = filter (fun m => mv_item_id m <> item_id) (movements d)
    /\ admins d' = admins d /\ warehouses d' = warehouses d.
Proof. intros H. unfold delete_item. rewrite H. simpl. by eexists. Qed.

Lemma ceil_div_bounds a b :
  0 < b -> b * (ceil_div a b - 1) < a <= b * ceil_div a b.
Proof.
  intros Hb. unfold ceil_div.
  pose proof (Z.div_mod (- a) b ltac:(lia)) as Hdm.
  pose proof (Z.mod_pos_bound (- a) b Hb) as Hm. nia.
Qed.


(** ** Routing *)

Lemma is_trigger_false K me text :
  is_trigger K me text = false ->
  Forall (fun f => f text = false) (text_triggers K me).
Proof.
  unfold is_trigger. intros H. apply Forall_forall. intros f Hf.
  destruct (f text) eqn:E; [|done].
  assert (existsb (fun f => f text) (text_triggers K me) = true) as Ht.
  { apply existsb_exists. exists f. split; [by apply list_elem_of_In|done]. }
  congruence.
Qed.

Ltac use_false :=
  repeat match goal with
         | H : ?b = false |- context [?b] => rewrite H
         end.

(** A text that is no trigger reaches the handler of the active step. *)
Lemma route_flow_step K config me st text :
  is_trigger K me text = false ->
  route (admin_messages K config me) (Some st) text = Some (flow_step config st).
Proof.
  intros H. apply is_trigger_false in H. unfold text_triggers in H.
  repeat match goal with
         | H : Forall _ (_ :: _) |- _ => apply Forall_cons in H as [? H]
         end.
  clear H. unfold route, admin_messages. cbn [List.find fst snd]. use_false.
  destruct st; reflexivity.
Qed.









Lemma find_cons_true {A} (f : A -> bool) x l :
  f x = true -> List.find f (x :: l) = Some x.
Proof. simpl. by intros ->. Qed.

Lemma find_cons_false {A} (f : A -> bool) x l :
  f x = false -> List.find f (x :: l) = List.find f l.
Proof. simpl. by intros ->. Qed.

(** One entry of a routing table: a state filter on a known state is
    decided by computation, a filter on the text by cases; [tac] closes the
    case in which the filter passes. *)
Ltac route_head tac :=
  lazymatch goal with
  | |- context [List.find ?f (?x :: ?l)] =>
      let b := eval cbn beta iota delta [fst] in (f x) in
      lazymatch b with
      | true => rewrite (find_cons_true f x l eq_refl)
      | in_state _ _ =>
          let v := eval vm_compute in b in
          lazymatch v with
          | true => rewrite (find_cons_true f x l eq_refl)
          | false => rewrite (find_cons_false f x l eq_refl)
          end
      | _ =>
          let E := fresh "E" in
          destruct b eqn:E;
          [ rewrite (find_cons_true f x l E); cbn [snd]; tac
          | rewrite (find_cons_false f x l E) ]
      end
  end.

(** The handlers behind the triggers answer and leave the store alone. *)
Ltac by_trigger_handler :=
  unfold cmd_menu, cmd_admin, show_main_menu, cmd_id, cmd_help, cmd_cancel,
    cancel_any_state, menu_warehouse, bulk_add_start, menu_reports, menu_admin,
    menu_settings, menu_warehouses, add_item_start, adjust_qty_start,
    set_qty_start, delete_item_start, search_menu, list_items_message,
    render_items_page, low_stock, export_csv, history; coro;
  repeat (match goal with
          | |- context [match ?x with [] => _ | _ :: _ => _ end] => destruct x
          | |- context [match ?x with Some _ => _ | None => _ end] => destruct x
          end; coro);
  eexists; split; reflexivity.

(** ** The steps of the SetQty flow *)

Lemma session_of_insert w uid s m :
  session_of (with_storage w (<[uid := s]> m)) uid = s.
Proof. unfold session_of. cbn [storage with_storage]. by rewrite lookup_insert_eq. Qed.



Lemma has_item_find d i :
  has_item d i = true -> exists it, List.find (fun it => it_id it =? i) (items d) = Some it.
Proof.
  unfold has_item. induction (items d) as [|a l IH]; simpl; [done|].
  destruct (it_id a =? i); [eauto|]. simpl. exact IH.
Qed.


Lemma has_item_map d f i :
  (forall it, it_id (f it) = it_id it) ->
  has_item (set_items d (List.map f (items d))) i = has_item d i.
Proof.
  intros Hf. unfold has_item. cbn [items set_items].
  induction (items d) as [|a l IH]; simpl; [done|]. by rewrite Hf, IH.
Qed.


Lemma add_movement_spec now i delta note admin d :
  Sqlite.int64 i = true -> Sqlite.int64 admin = true ->
  has_item d i = true -> is_nan delta = false ->
  add_movement now i delta note admin d
  = (Ok tt,
     {| admins := admins d; items := items d; warehouses := warehouses d;
        movements := movements d ++
          [{| mv_id := seq_movements d + 1; mv_item_id := i; mv_delta := delta;
              mv_note := note; mv_admin_tg_id := admin; mv_created_at := now |}];
        seq_items := seq_items d; seq_warehouses := seq_warehouses d;
        seq_movements := seq_movements d + 1 |}).
Proof.
  intros H1 H2 H3 H4. unfold add_movement, Sqlite.not_null. by rewrite H1, H2, H3, H4.
Qed.


(** ** The bulk import *)

Lemma add_item_cases now s n q u l wh m d :
  (add_item now s n q u l wh m d = (false, d))
  \/ (exists d', add_item now s n q u l wh m d = (true, d')
        /\ items d' = items d ++
             [{| it_id := seq_items d + 1; it_sku := s; it_name := n; it_qty := q;
                 it_unit := u; it_location := l; it_warehouse := wh; it_min_qty := m;
                 it_updated_at := now |}]
        /\ movements d' = movements d /\ admins d' = admins d
        /\ warehouses d' = warehouses d).
Proof.
  unfold add_item. destruct (_ || _ || _); [by left|]. right. by eexists.
Qed.

Lemma add_warehouse_frame now nm d :
  items (snd (add_warehouse now nm d)) = items d
  /\ movements (snd (add_warehouse now nm d)) = movements d
  /\ admins (snd (add_warehouse now nm d)) = admins d
  /\ seq_items (snd (add_warehouse now nm d)) = seq_items d.
Proof. unfold add_warehouse. by destruct (get_warehouse_by_name d nm). Qed.

(** Every row is dealt with, and ends as one new item or as one error. *)
Lemma bulk_add_row_total idx row r w :
  exists r' w',
    bulk_add_row idx row r w = (Ok r', w')
    /\ movements (db w') = movements (db w) /\ admins (db w') = admins (db w)
    /\ storage w' = storage w /\ sent w' = sent w
    /\ ((created r' = created r + 1 /\ skipped r' = skipped r /\ errors r' = errors r
         /\ exists it, items (db w') = items (db w) ++ [it]
                       /\ it_sku it = field row 0 "" /\ it_name it = field row 1 "")
        \/ (created r' = created r /\ items (db w') = items (db w)
            /\ exists e, errors r' = errors r ++ [(idx, e)]
                 /\ skipped r' = skipped r + (if is_sku_exists (idx, e) then 1 else 0))).
Proof.
  unfold bulk_add_row.
  destruct (_ || _ || _).
  { coro. eexists _, _. split; [reflexivity|]. repeat (split; [done|]).
    right. split; [done|]. split; [done|]. exists need_fields. split; [done|]. cbn. lia. }
  destruct (parse_number (field row 2 "")) as [q|].
  2: { coro. eexists _, _. split; [reflexivity|]. repeat (split; [done|]).
       right. split; [done|]. split; [done|]. exists bad_qty. split; [done|]. cbn. lia. }
  destruct (parse_number (field row 6 "0")) as [m|].
  2: { coro. eexists _, _. split; [reflexivity|]. repeat (split; [done|]).
       right. split; [done|]. split; [done|]. exists bad_min_qty. split; [done|]. cbn. lia. }
  assert (forall d0 : Database,
            items d0 = items (db w) -> movements d0 = movements (db w) ->
            admins d0 = admins (db w) ->
            let a := add_item (clock w) (field row 0 "") (field row 1 "") q
                       match field row 3 "" with "" => "шт" | u => u end
                       (nonempty (field row 4 "")) (nonempty (field row 5 "")) m d0 in
            movements (snd a) = movements (db w) /\ admins (snd a) = admins (db w)
            /\ ((fst a = true /\ exists it, items (snd a) = items (db w) ++ [it]
                                /\ it_sku it = field row 0 "" /\ it_name it = field row 1 "")
                \/ (fst a = false /\ items (snd a) = items (db w)))) as Hadd.
  { intros d0 Hi Hm Ha a. subst a.
    destruct (add_item_cases (clock w) (field row 0 "") (field row 1 "") q
                match field row 3 "" with "" => "шт" | u => u end
                (nonempty (field row 4 "")) (nonempty (field row 5 "")) m d0)
      as [E|(d' & E & Hi' & Hm' & Ha' & _)]; rewrite E; cbn [fst snd].
    - split; [done|]. split; [done|]. by right.
    - split; [congruence|]. split; [congruence|]. left. split; [done|].
      eexists. rewrite Hi', Hi. split; [reflexivity|]. by split. }
  assert (exists d0, items d0 = items (db w) /\ movements d0 = movements (db w)
                     /\ admins d0 = admins (db w)
                     /\ forall B (k : bool -> world -> B),
                          (let '(ok, d) := add_item (clock w) (field row 0 "") (field row 1 "") q
                                  match field row 3 "" with "" => "шт" | u => u end
                                  (nonempty (field row 4 "")) (nonempty (field row 5 "")) m d0 in
                           k ok (with_db w d)) = 
                          (let '(ok, d) := add_item (clock w) (field row 0 "") (field row 1 "") q
                                  match field row 3 "" with "" => "шт" | u => u end
                                  (nonempty (field row 4 "")) (nonempty (field row 5 "")) m d0 in
                           k ok (with_db w d))) as _ by (exists (db w); done).
  destruct (nonempty (field row 5 "")) as [wh|] eqn:Ewh; coro.
  - destruct (get_warehouse_by_name (db w) wh); coro.
    + specialize (Hadd (db w) eq_refl eq_refl eq_refl). cbv zeta in Hadd.
      destruct (add_item _ _ _ _ _ _ _ _ _) as [[] d]; coro; cbn [fst snd] in Hadd;
        destruct Hadd as (Hm' & Ha' & [[? Hit]|[? Hi']]); try done;
        eexists _, _; (split; [reflexivity|]); cbn [db storage sent];
        repeat (split; [done|]).
      * left. by repeat split.
      * right. split; [done|]. split; [done|]. exists sku_exists. by split.
    + pose proof (add_warehouse_frame (clock w) wh (db w)) as (Hwi & Hwm & Hwa & _).
      destruct (add_warehouse (clock w) wh (db w)) as [okw dw]. cbn [snd] in *. coro.
      specialize (Hadd dw Hwi Hwm Hwa). cbv zeta in Hadd.
      destruct (add_item _ _ _ _ _ _ _ _ _) as [[] d]; coro; cbn [fst snd] in Hadd;
        destruct Hadd as (Hm' & Ha' & [[? Hit]|[? Hi']]); try done;
        eexists _, _; (split; [reflexivity|]); cbn [db storage sent];
        repeat (split; [done|]).
      * left. by repeat split.
      * right. split; [done|]. split; [done|]. exists sku_exists. by split.
  - specialize (Hadd (db w) eq_refl eq_refl eq_refl). cbv zeta in Hadd.
    destruct (add_item _ _ _ _ _ _ _ _ _) as [[] d]; coro; cbn [fst snd] in Hadd;
      destruct Hadd as (Hm' & Ha' & [[? Hit]|[? Hi']]); try done;
      eexists _, _; (split; [reflexivity|]); cbn [db storage sent];
      repeat (split; [done|]).
    + left. by repeat split.
    + right. split; [done|]. split; [done|]. exists sku_exists. by split.
Qed.

Lemma duplicates_app es e :
  duplicates (es ++ [e]) = duplicates es + (if is_sku_exists e then 1 else 0).
Proof.
  unfold duplicates. rewrite filter_app, length_app, Nat2Z.inj_add. f_equal.
  rewrite filter_cons, filter_nil. by destruct (is_sku_exists e) eqn:E; case_decide.
Qed.

(** ** Reading rows back *)

Lemma append_nil (t : string) : "" +:+ t = t.
Proof. done. Qed.

Lemma append_cons c (s t : string) : String c s +:+ t = String c (s +:+ t).
Proof. done. Qed.

Lemma append_empty (f : string) : f +:+ "" = f.
Proof. induction f as [|a f IH]; [done|]. by rewrite append_cons, IH. Qed.

Lemma rev_app_rev_app f acc t :
  String.rev_app (String.rev_app f acc) t = String.rev_app acc (f +:+ t).
Proof.
  revert acc. induction f as [|a f IH]; intros acc; [done|].
  cbn [String.rev_app]. by rewrite IH.
Qed.

Lemma rev_rev_app f : String.rev (String.rev_app f "") = f.
Proof. unfold String.rev. rewrite rev_app_rev_app. cbn. apply append_empty. Qed.

Lemma rev_app_nonempty f acc : acc <> "" -> String.rev_app f acc <> "".
Proof. revert acc. induction f as [|a f IH]; intros acc H; cbn; [done|]. by apply IH. Qed.

Lemma run_in_field f cur tail :
  Py.all (fun c => negb (Csv.comma c)) f = true ->
  Csv.run Csv.IN_FIELD cur (f +:+ tail) = Csv.run Csv.IN_FIELD (String.rev_app f cur) tail.
Proof.
  revert cur. induction f as [|c f IH]; intros cur; [done|].
  rewrite append_cons. cbn [Py.all Csv.run String.rev_app].
  rewrite andb_true_iff. intros [Hc Hf]. apply negb_true_iff in Hc. rewrite Hc.
  by apply IH.
Qed.

Lemma plain_field_no_comma f :
  plain_field f = true -> Py.all (fun c => negb (Csv.comma c)) f = true.
Proof.
  unfold plain_field. rewrite !andb_true_iff. intros [[H _] _].
  eapply all_impl; [|exact H]. intros c. rewrite andb_true_iff. by intros [_ ?].
Qed.

(** A plain field is read back, up to the comma or the end of the line. *)
Lemma run_plain_field f tail :
  plain_field f = true ->
  Csv.run Csv.START_FIELD "" (f +:+ tail)
  = match f with
    | EmptyString => Csv.run Csv.START_FIELD "" tail
    | _ => Csv.run Csv.IN_FIELD (String.rev_app f "") tail
    end.
Proof.
  intros H. pose proof (plain_field_no_comma f H) as Hc.
  destruct f as [|c f]; [done|].
  unfold plain_field in H. rewrite !andb_true_iff in H. destruct H as [[_ H] _].
  destruct H as [Hq Hb]. apply negb_true_iff in Hq, Hb.
  cbn in Hc. rewrite andb_true_iff in Hc. destruct Hc as [Hc Hf]. apply negb_true_iff in Hc.
  rewrite append_cons. cbn [Csv.run]. rewrite Hq, Hb, Hc.
  rewrite (run_in_field f _ tail Hf). done.
Qed.

Lemma concat_cons sep x y ys :
  String.concat sep (x :: y :: ys) = x +:+ sep +:+ String.concat sep (y :: ys).
Proof. done. Qed.

Lemma run_plain_fields row :
  row <> [] -> forallb plain_field row = true ->
  Csv.run Csv.START_FIELD "" (String.concat "," row) = row.
Proof.
  induction row as [|f row IH]; [done|]. intros _. cbn [forallb].
  rewrite andb_true_iff. intros [Hf Hrow].
  destruct row as [|g row].
  - cbn [String.concat]. rewrite <- (append_empty f) at 1.
    rewrite (run_plain_field f "" Hf). destruct f as [|c f]; [done|].
    cbn [Csv.run]. by rewrite rev_rev_app.
  - rewrite concat_cons, (run_plain_field f _ Hf).
    destruct f as [|c f].
    + rewrite append_cons, append_nil. cbn [Csv.run].
      change (Csv.quote ",") with false.
      change (Csv.blank ",") with false. change (Csv.comma ",") with true. cbn match.
      f_equal. by apply IH.
    + rewrite append_cons, append_nil. cbn [Csv.run].
      change (Csv.comma ",") with true. cbn match.
      rewrite rev_rev_app. f_equal. by apply IH.
Qed.

Lemma line_char_plain c :
  line_char c = true -> Py.is_linebreak c = false /\ Py.isspace c = Csv.blank c.
Proof.
  unfold line_char, Py.is_linebreak, Py.isspace, Csv.blank.
  rewrite andb_true_iff, Z.leb_le. intros [H _].
  split.
  - apply orb_false_iff. split; apply andb_false_iff; right; apply Z.leb_gt; lia.
  - destruct (Py.code c =? 32) eqn:E.
    + apply Z.eqb_eq in E. rewrite E. done.
    + apply Z.eqb_neq in E. apply orb_false_iff.
      split; apply andb_false_iff; right; apply Z.leb_gt; lia.
Qed.

Lemma splitlines_go_line l cur rest :
  Py.all line_char l = true ->
  Py.splitlines_go cur false (l +:+ rest)
  = Py.splitlines_go (String.rev_app l cur) false rest.
Proof.
  revert cur. induction l as [|c l IH]; intros cur; [done|].
  rewrite append_cons. cbn [Py.all Py.splitlines_go String.rev_app].
  rewrite andb_true_iff. intros [Hc Hl].
  destruct (line_char_plain c Hc) as [-> _]. cbn [andb]. by apply IH.
Qed.

Lemma splitlines_lines lines :
  Forall (fun l => Py.all line_char l = true /\ l <> "") lines ->
  Py.splitlines (String.concat LF lines) = lines.
Proof.
  unfold Py.splitlines.
  induction lines as [|l lines IH]; [done|]. intros H.
  apply Forall_cons_1 in H as [[Hl Hne] H].
  destruct lines as [|l' lines].
  - cbn [String.concat]. rewrite <- (append_empty l) at 1.
    rewrite (splitlines_go_line l "" "" Hl). cbn [Py.splitlines_go].
    destruct (String.rev_app l "") eqn:E.
    + destruct l; [done|]. cbn [String.rev_app] in E.
      by apply rev_app_nonempty in E.
    + by rewrite <- E, rev_rev_app.
  - rewrite concat_cons, (splitlines_go_line l "" _ Hl).
    unfold LF at 1. rewrite append_cons, append_nil. cbn [Py.splitlines_go andb].
    change (Py.is_linebreak (ascii_of_nat 10)) with true. cbn match.
    rewrite rev_rev_app.
    change (Py.code (ascii_of_nat 10) =? 13) with false. f_equal. by apply IH.
Qed.

Lemma rstrip_clean s :
  Py.all line_char s = true -> ends_with_blank s = false -> Py.rstrip s = s.
Proof.
  induction s as [|c s IH]; [done|]. cbn [Py.all Py.rstrip].
  rewrite andb_true_iff. intros [Hc Hs] He.
  destruct s as [|c' s].
  - cbn [Py.rstrip]. destruct (line_char_plain c Hc) as [_ ->]. cbn in He. by rewrite He.
  - rewrite (IH Hs He). done.
Qed.

Lemma ends_with_blank_app s t :
  t <> "" -> ends_with_blank (s +:+ t) = ends_with_blank t.
Proof.
  intros Ht. induction s as [|c s IH]; [done|]. rewrite append_cons.
  cbn [ends_with_blank]. destruct (s +:+ t) eqn:E; [|done].
  destruct s; [by rewrite append_nil in E|by rewrite append_cons in E].
Qed.

Lemma plain_field_chars f : plain_field f = true -> Py.all line_char f = true.
Proof.
  unfold plain_field. rewrite !andb_true_iff. intros [[H _] _].
  eapply all_impl; [|exact H]. intros c. rewrite andb_true_iff. by intros [? _].
Qed.

Lemma plain_row_chars row :
  forallb plain_field row = true -> Py.all line_char (String.concat "," row) = true.
Proof.
  induction row as [|f row IH]; [done|]. cbn [forallb].
  rewrite andb_true_iff. intros [Hf Hrow]. destruct row as [|g row].
  - by apply plain_field_chars.
  - rewrite concat_cons, !all_app, (plain_field_chars f Hf), (IH Hrow). done.
Qed.

Lemma plain_row_ends row :
  forallb plain_field row = true -> ends_with_blank (String.concat "," row) = false.
Proof.
  induction row as [|f row IH]; [done|]. cbn [forallb].
  rewrite andb_true_iff. intros [Hf Hrow]. destruct row as [|g row].
  - cbn [String.concat]. unfold plain_field in Hf. rewrite !andb_true_iff in Hf.
    destruct Hf as [_ Hf]. by apply negb_true_iff in Hf.
  - rewrite concat_cons, ends_with_blank_app; [|done].
    specialize (IH Hrow).
    destruct (String.concat "," (g :: row)) as [|c s]; [done|].
    rewrite append_cons, append_nil. exact IH.
Qed.

Lemma plain_row_starts row c s :
  forallb plain_field row = true -> String.concat "," row = String c s ->
  Py.isspace c = false.
Proof.
  intros Hrow E.
  assert (line_char c = true) as Hc.
  { pose proof (plain_row_chars row Hrow) as H. rewrite E in H. cbn in H.
    by apply andb_true_iff in H as [? _]. }
  destruct (line_char_plain c Hc) as [_ ->].
  destruct row as [|f row]; [done|]. cbn [forallb] in Hrow.
  apply andb_true_iff in Hrow as [Hf _].
  unfold plain_field in Hf. rewrite !andb_true_iff in Hf. destruct Hf as [[_ Hf] _].
  destruct f as [|c' f].
  - destruct row as [|g row]; [done|]. rewrite concat_cons, append_nil, append_cons in E.
    by injection E as <- _.
  - apply andb_true_iff in Hf as [_ Hb]. apply negb_true_iff in Hb.
    destruct row as [|g row].
    + cbn [String.concat] in E. by injection E as <- _.
    + rewrite concat_cons, append_cons in E. by injection E as <- _.
Qed.

Lemma strip_plain_row row :
  forallb plain_field row = true ->
  Py.strip (String.concat "," row) = String.concat "," row.
Proof.
  intros Hrow. unfold Py.strip.
  assert (Py.lstrip (String.concat "," row) = String.concat "," row) as ->.
  { destruct (String.concat "," row) as [|c s] eqn:E; [done|].
    cbn [Py.lstrip]. by rewrite (plain_row_starts row c s Hrow E). }
  apply rstrip_clean; [by apply plain_row_chars|by apply plain_row_ends].
Qed.

(** ** Spellings of a number *)

Lemma lstrip_replace a b s :
  Py.isspace a = false -> Py.isspace b = false ->
  Py.lstrip (Py.replace a b s) = Py.replace a b (Py.lstrip s).
Proof.
  intros Ha Hb. induction s as [|c s IH]; [done|]. cbn [Py.replace Py.lstrip].
  destruct (Ascii.eqb c a) eqn:E.
  - apply Ascii.eqb_eq in E. subst c. rewrite Ha, Hb. cbn [Py.replace].
    by rewrite Ascii.eqb_refl.
  - destruct (Py.isspace c); [done|]. cbn [Py.replace]. by rewrite E.
Qed.

Lemma replace_empty a b s : Py.replace a b s = "" -> s = "".
Proof. by destruct s. Qed.

Lemma rstrip_replace a b s :
  Py.isspace a = false -> Py.isspace b = false ->
  Py.rstrip (Py.replace a b s) = Py.replace a b (Py.rstrip s).
Proof.
  intros Ha Hb. induction s as [|c s IH]; [done|]. cbn [Py.replace Py.rstrip].
  rewrite IH. destruct (Py.rstrip s) as [|c' r] eqn:Er; cbn [Py.replace].
  - destruct (Ascii.eqb c a) eqn:E.
    + apply Ascii.eqb_eq in E. subst c. rewrite Ha, Hb. cbn [Py.replace].
      by rewrite Ascii.eqb_refl.
    + destruct (Py.isspace c); [done|]. cbn [Py.replace]. by rewrite E.
  - done.
Qed.

Lemma remove_replace sp a b s :
  Ascii.eqb a sp = false -> Ascii.eqb b sp = false ->
  Py.remove sp (Py.replace a b s) = Py.replace a b (Py.remove sp s).
Proof.
  intros Ha Hb. induction s as [|c s IH]; [done|]. cbn [Py.replace Py.remove].
  destruct (Ascii.eqb c a) eqn:E.
  - apply Ascii.eqb_eq in E. subst c. rewrite Ha, Hb. cbn [Py.replace].
    by rewrite Ascii.eqb_refl, IH.
  - destruct (Ascii.eqb c sp); [done|]. cbn [Py.replace]. by rewrite E, IH.
Qed.

Lemma replace_replace a b s :
  Ascii.eqb b a = false -> Py.replace a b (Py.replace a b s) = Py.replace a b s.
Proof.
  intros Hab. induction s as [|c s IH]; [done|]. cbn [Py.replace]. rewrite IH.
  f_equal. destruct (Ascii.eqb c a) eqn:E; [by rewrite Hab|by rewrite E].
Qed.

Lemma lstrip_remove sp s :
  Py.isspace sp = true -> Py.lstrip (Py.remove sp s) = Py.remove sp (Py.lstrip s).
Proof.
  intros Hsp. induction s as [|c s IH]; [done|]. cbn [Py.remove Py.lstrip].
  destruct (Ascii.eqb c sp) eqn:E.
  - apply Ascii.eqb_eq in E. subst c. by rewrite Hsp.
  - cbn [Py.lstrip]. destruct (Py.isspace c); [done|]. cbn [Py.remove]. by rewrite E.
Qed.

Lemma rstrip_spaces s :
  Py.all Py.isspace (Py.rstrip s) = true -> Py.rstrip s = "".
Proof.
  induction s as [|c s IH]; [done|]. cbn [Py.rstrip].
  destruct (Py.rstrip s) as [|c' r].
  - destruct (Py.isspace c) eqn:E; [done|]. cbn. by rewrite E.
  - cbn [Py.all]. rewrite andb_true_iff. intros [_ H]. by specialize (IH H).
Qed.

Lemma remove_empty sp s :
  Py.remove sp s = "" -> Py.all (fun c => Ascii.eqb c sp) s = true.
Proof.
  induction s as [|c s IH]; [done|]. cbn [Py.remove Py.all].
  destruct (Ascii.eqb c sp); [by intros ?%IH|done].
Qed.

Lemma rstrip_remove sp s :
  Py.isspace sp = true -> Py.rstrip (Py.remove sp s) = Py.remove sp (Py.rstrip s).
Proof.
  intros Hsp. induction s as [|c s IH]; [done|]. cbn [Py.remove Py.rstrip].
  destruct (Ascii.eqb c sp) eqn:E.
  - apply Ascii.eqb_eq in E. subst c. rewrite IH, Hsp.
    destruct (Py.rstrip s) as [|c' r]; [done|].
    cbn [Py.remove]. by rewrite Ascii.eqb_refl.
  - cbn [Py.rstrip]. rewrite IH.
    destruct (Py.rstrip s) as [|c' r] eqn:Er.
    + cbn [Py.remove]. destruct (Py.isspace c); [done|]. cbn [Py.remove]. by rewrite E.
    + destruct (Py.remove sp (String c' r)) eqn:Erem.
      * apply remove_empty in Erem.
        assert (Py.all Py.isspace (Py.rstrip s) = true) as Hall.
        { rewrite Er. eapply all_impl; [|exact Erem]. intros x Hx.
          apply Ascii.eqb_eq in Hx. by subst x. }
        apply rstrip_spaces in Hall. by rewrite Er in Hall.
      * change (Py.remove sp (String c (String c' r)))
          with (if Ascii.eqb c sp then Py.remove sp (String c' r)
                else String c (Py.remove sp (String c' r))).
        by rewrite E, Erem.
Qed.

Lemma remove_remove sp s : Py.remove sp (Py.remove sp s) = Py.remove sp s.
Proof.
  induction s as [|c s IH]; [done|]. cbn [Py.remove].
  destruct (Ascii.eqb c sp) eqn:E; [done|]. cbn [Py.remove]. by rewrite E, IH.
Qed.

Lemma lstrip_head t c r : Py.lstrip t = String c r -> Py.isspace c = false.
Proof.
  induction t as [|x t IH]; [done|]. cbn [Py.lstrip].
  destruct (Py.isspace x) eqn:Ex; [done|]. by intros [= <- _].
Qed.

Lemma rstrip_rstrip t : Py.rstrip (Py.rstrip t) = Py.rstrip t.
Proof.
  induction t as [|c r IH]; [done|]. cbn [Py.rstrip].
  destruct (Py.rstrip r) as [|c' r'] eqn:Er.
  - destruct (Py.isspace c) eqn:Ec; [done|]. cbn [Py.rstrip]. by rewrite Ec.
  - change (Py.rstrip (String c (String c' r')))
      with (match Py.rstrip (String c' r') with
            | "" => if Py.isspace c then "" else String c ""
            | String a0 s0 => String c (String a0 s0)
            end).
    by rewrite IH.
Qed.

Lemma strip_strip s : Py.strip (Py.strip s) = Py.strip s.
Proof.
  unfold Py.strip.
  assert (Py.lstrip (Py.rstrip (Py.lstrip s)) = Py.rstrip (Py.lstrip s)) as ->.
  { destruct (Py.lstrip s) as [|c r] eqn:E; [done|].
    pose proof (lstrip_head s c r E) as Hc.
    cbn [Py.rstrip]. destruct (Py.rstrip r); [|by cbn [Py.lstrip]; rewrite Hc].
    rewrite Hc. cbn [Py.lstrip]. by rewrite Hc. }
  apply rstrip_rstrip.
Qed.


(** ** Frames *)

Section Keeps.

Context (R : world -> world -> Prop) `{!PreOrder R}.

Lemma keeps_still {A} (c : coro A) : (forall w, snd (c w) = w) -> keeps R c.
Proof. intros H w. by rewrite H. Qed.

Lemma keeps_bind {A B} (m : coro A) (f : A -> coro B) :
  keeps R m -> (forall a, keeps R (f a)) -> keeps R (m ≫= f).
Proof.
  intros Hm Hf w. unfold mbind, coro_bind. specialize (Hm w).
  destruct (m w) as [[a|e] w1]; cbn [snd] in *; [|done].
  by etrans; [|apply Hf].
Qed.

Lemma keeps_ret {A} (a : A) : keeps R (mret a).
Proof. by apply keeps_still. Qed.

Lemma keeps_raise {A} e : keeps R (raise (A:=A) e).
Proof. by apply keeps_still. Qed.

Lemma keeps_query {A} (f : Database -> A) : keeps R (query f).
Proof. by apply keeps_still. Qed.

Lemma keeps_query_r {A} (f : Database -> result A) : keeps R (query_r f).
Proof. by apply keeps_still. Qed.

Lemma keeps_get_state uid : keeps R (get_state uid).
Proof. by apply keeps_still. Qed.

Lemma keeps_get_data uid : keeps R (get_data uid).
Proof. by apply keeps_still. Qed.

Lemma keeps_text_of t : keeps R (text_of t).
Proof. apply keeps_still. by destruct t. Qed.

Lemma keeps_id_of t : keeps R (id_of t).
Proof. apply keeps_still. by destruct t. Qed.

Lemma keeps_item_of d k : keeps R (item_of d k).
Proof. apply keeps_still. unfold item_of. by destruct (d !! k). Qed.

Lemma keeps_as_str v : keeps R (as_str v).
Proof. apply keeps_still. by destruct v. Qed.

Lemma keeps_as_float v : keeps R (as_float v).
Proof. apply keeps_still. by destruct v. Qed.

Lemma keeps_as_int v : keeps R (as_int v).
Proof. apply keeps_still. by destruct v. Qed.

Lemma keeps_as_opt_str v : keeps R (as_opt_str v).
Proof. apply keeps_still. by destruct v as [[]|]. Qed.

Lemma keeps_format_item_card it : keeps R (format_item_card it).
Proof. apply keeps_still. by destruct it. Qed.

Lemma keeps_int_of f : keeps R (int_of f).
Proof. apply keeps_still. unfold int_of. by destruct (Py.parse_int f). Qed.

Lemma keeps_second_field f : keeps R (second_field f).
Proof.
  apply keeps_still. unfold second_field.
  destruct (Py.split _ f) as [|? [|x ?]]; try done. by destruct (Py.parse_int x).
Qed.

Context (R_sent : forall w l, R w (with_sent w l)).

Lemma keeps_send r : keeps R (send r).
Proof. intros w. apply R_sent. Qed.

Lemma keeps_answer t : keeps R (answer t).
Proof. apply keeps_send. Qed.

Lemma keeps_answer_kb t kb : keeps R (answer_kb t kb).
Proof. apply keeps_send. Qed.

Lemma keeps_ack : keeps R ack.
Proof. apply keeps_send. Qed.

Lemma keeps_acked b : keeps R (acked b).
Proof. destruct b; [apply keeps_ack|apply keeps_ret]. Qed.

End Keeps.

Section KeepsSession.

Context (R : world -> world -> Prop) (uid : Z).
Context (R_storage : forall w s, R w (with_storage w (<[uid := s]> (storage w)))).

Lemma keeps_set_state st : keeps R (set_state uid st).
Proof. intros w. apply R_storage. Qed.

Lemma keeps_update_data kv : keeps R (update_data uid kv).
Proof. intros w. apply R_storage. Qed.

Lemma keeps_clear : keeps R (clear uid).
Proof. intros w. apply R_storage. Qed.

End KeepsSession.

Lemma keeps_exec {A} R (f : string -> Database -> A * Database) :
  (forall w, R w (with_db w (snd (f (clock w) (db w))))) -> keeps R (exec f).
Proof. intros H w. unfold exec. specialize (H w). by destruct (f _ _). Qed.

Lemma keeps_exec_r {A} R (f : string -> Database -> result A * Database) :
  (forall w, R w (with_db w (snd (f (clock w) (db w))))) -> keeps R (exec_r f).
Proof. intros H w. unfold exec_r. specialize (H w). by destruct (f _ _). Qed.

Lemma keeps_bulk_add_rows R `{!PreOrder R} :
  (forall idx row r, keeps R (bulk_add_row idx row r)) ->
  forall rows idx r, keeps R (bulk_add_rows idx rows r).
Proof.
  intros H rows. induction rows as [|row rows IH]; intros idx r; cbn [bulk_add_rows].
  - by apply keeps_ret.
  - apply keeps_bind; [done|apply H|]. intros r'. apply IH.
Qed.

Ltac head_of t :=
  lazymatch t with
  | ?f _ => head_of f
  | _ => t
  end.

(** One step of a frame proof; [side] closes the conditions on the store
    operations. *)
Ltac keeps_step side :=
  lazymatch goal with
  | |- keeps ?R (mbind _ _) => apply (keeps_bind R); [|intros ?]
  | |- keeps ?R (mret _) => apply (keeps_ret R)
  | |- keeps ?R (raise _) => apply (keeps_raise R)
  | |- keeps ?R (query _) => apply (keeps_query R)
  | |- keeps ?R (query_r _) => apply (keeps_query_r R)
  | |- keeps ?R (get_state _) => apply (keeps_get_state R)
  | |- keeps ?R (get_data _) => apply (keeps_get_data R)
  | |- keeps ?R (text_of _) => apply (keeps_text_of R)
  | |- keeps ?R (id_of _) => apply (keeps_id_of R)
  | |- keeps ?R (item_of _ _) => apply (keeps_item_of R)
  | |- keeps ?R (as_str _) => apply (keeps_as_str R)
  | |- keeps ?R (as_float _) => apply (keeps_as_float R)
  | |- keeps ?R (as_int _) => apply (keeps_as_int R)
  | |- keeps ?R (as_opt_str _) => apply (keeps_as_opt_str R)
  | |- keeps ?R (format_item_card _) => apply (keeps_format_item_card R)
  | |- keeps ?R (int_of _) => apply (keeps_int_of R)
  | |- keeps ?R (second_field _) => apply (keeps_second_field R)
  | |- keeps ?R (send _) => apply (keeps_send R); side
  | |- keeps ?R (answer _) => apply (keeps_answer R); side
  | |- keeps ?R (answer_kb _ _) => apply (keeps_answer_kb R); side
  | |- keeps ?R ack => apply (keeps_ack R); side
  | |- keeps ?R (acked _) => apply (keeps_acked R); side
  | |- keeps ?R (set_state _ _) => apply (keeps_set_state R); side
  | |- keeps ?R (update_data _ _) => apply (keeps_update_data R); side
  | |- keeps ?R (clear _) => apply (keeps_clear R); side
  | |- keeps ?R (exec _) => apply (keeps_exec R); intros ?; side
  | |- keeps ?R (exec_r _) => apply (keeps_exec_r R); intros ?; side
  | |- keeps ?R (bulk_add_rows _ _ _) => apply (keeps_bulk_add_rows R); intros ? ? ?
  | |- keeps _ (let _ := _ in _) => cbv zeta
  | |- keeps _ (match ?x with _ => _ end) => destruct x
  | |- keeps _ ((fun _ => _) _) => cbv beta
  | |- keeps _ ?c => let h := head_of c in unfold h
  end.

Ltac keeps_all side := repeat keeps_step side.

#[local] Instance others_untouched_preorder uid : PreOrder (others_untouched uid).
Proof.
  split.
  - by intros w other.
  - intros a b c H1 H2 other Hne. by rewrite H2, H1.
Qed.

Ltac session_side :=
  first
    [ by intros ? ? ? ?
    | (intros ? ? other ?; cbn [storage with_storage]; by rewrite lookup_insert_ne)
    | (intros other ?; reflexivity) ].


Lemma route_in {H} (table : list (msg_filter * H)) st arg h :
  route table st arg = Some h -> exists f, In (f, h) table.
Proof.
  unfold route. destruct (List.find (fun h => fst h st arg) table) as [[f h']|] eqn:E; [|done].
  intros [= <-]. apply find_some in E as [E _]. by exists f.
Qed.

Lemma admin_messages_sessions K config me uid :
  Forall (fun e => forall text, keeps (others_untouched uid) (snd e uid text))
         (admin_messages K config me).
Proof.
  unfold admin_messages.
  repeat (apply Forall_cons; split; [intros text; cbn [snd]; keeps_all session_side|]).
  constructor.
Qed.

Lemma admin_callbacks_sessions config uid :
  Forall (fun e => forall data', keeps (others_untouched uid) (snd e uid data'))
         (admin_callbacks config).
Proof.
  unfold admin_callbacks.
  repeat (apply Forall_cons; split; [intros text; cbn [snd]; keeps_all session_side|]).
  constructor.
Qed.

Lemma keeps_bind_ret {A B} R (a : A) (f : A -> coro B) :
  keeps R (f a) -> keeps R (mret a ≫= f).
Proof. intros H w. apply H. Qed.

Lemma feed_update_sessions K config me u uid :
  sender u = Some uid -> keeps (others_untouched uid) (feed_update K config me u).
Proof.
  intros Hs. destruct u as [from_user text|from_user data']; cbn in Hs; subst from_user;
    unfold feed_update.
  - apply (keeps_bind _); [keeps_all session_side|]. intros [|]; [|keeps_all session_side].
    cbn [id_of]. apply keeps_bind_ret.
    apply (keeps_bind _); [keeps_all session_side|]. intros st.
    destruct (route _ st text) as [h|] eqn:E; [|keeps_all session_side].
    apply route_in in E as [f Hin].
    pose proof (admin_messages_sessions K config me uid) as Hall.
    rewrite Forall_forall in Hall. apply (Hall (f, h)). by apply list_elem_of_In.
  - apply (keeps_bind _); [keeps_all session_side|]. intros [|]; [|keeps_all session_side].
    cbn [id_of]. apply keeps_bind_ret.
    apply (keeps_bind _); [keeps_all session_side|]. intros st.
    destruct (route _ st data') as [h|] eqn:E; [|keeps_all session_side].
    apply route_in in E as [f Hin].
    pose proof (admin_callbacks_sessions config uid) as Hall.
    rewrite Forall_forall in Hall. apply (Hall (f, h)). by apply list_elem_of_In.
Qed.


#[local] Instance same_store_preorder : PreOrder same_store.
Proof.
  split; [by intros w|]. intros a b c H1 H2. unfold same_store in *. congruence.
Qed.

#[local] Instance same_admins_preorder : PreOrder same_admins.
Proof.
  split; [by intros w|]. intros a b c H1 H2. unfold same_admins in *. congruence.
Qed.

Ltac store_side := first [ by intros ? ? | by intros ? ? ? ].

(** The store operations that leave the admins table alone. *)
Ltac admins_side :=
  first
    [ by intros ? ?
    | by intros ? ? ?
    | (unfold same_admins; cbn [db with_db];
       unfold add_item, update_item_qty, adjust_item_qty, update_item_fields, delete_item,
         add_movement, add_warehouse;
       repeat match goal with
              | |- context [if ?b then _ else _] => destruct b
              | |- context [match ?x with _ => _ end] => destruct x
              end;
       reflexivity) ].

Lemma admin_callbacks_store config :
  Forall (fun e => forall uid data', keeps same_store (snd e uid data'))
         (admin_callbacks config).
Proof.
  unfold admin_callbacks.
  repeat (apply Forall_cons; split; [intros uid text; cbn [snd]; keeps_all store_side|]).
  constructor.
Qed.

Lemma admin_messages_store K config me :
  Forall (fun e => (forall uid text, keeps same_store (snd e uid text))
                   \/ exists st, commit_step st = true
                        /\ forall cur text, fst e cur text = true -> cur = Some st)
         (admin_messages K config me).
Proof.
  unfold admin_messages.
  repeat (apply Forall_cons; split;
          [ first
              [ left; intros uid text; cbn [snd]; solve [keeps_all store_side]
              | right; eexists; split;
                [ | intros cur text H; cbn [fst] in H; unfold in_state in H;
                    apply bool_decide_eq_true in H; exact H ];
                reflexivity ]
          | ]).
  constructor.
Qed.

Lemma admin_messages_admins K config me :
  Forall (fun e => forall uid text, is_super_admin config uid = false ->
                                    keeps same_admins (snd e uid text))
         (admin_messages K config me).
Proof.
  unfold admin_messages.
  repeat (apply Forall_cons; split;
          [ intros uid text Hs; cbn [snd];
            try (unfold admin_add_tg_id, admin_add_name, admin_remove_tg_id;
                 rewrite Hs; cbn [negb]);
            keeps_all admins_side
          | ]).
  constructor.
Qed.

Lemma route_hit {H} (table : list (msg_filter * H)) st arg h :
  route table st arg = Some h -> exists f, In (f, h) table /\ f st arg = true.
Proof.
  unfold route. destruct (List.find (fun h => fst h st arg) table) as [[f h']|] eqn:E; [|done].
  intros [= <-]. apply find_some in E as [E1 E2]. by exists f.
Qed.
(** ** The constraints of the schema *)

Lemma existsb_false_Forall {A} (f : A -> bool) l :
  existsb f l = false <-> Forall (fun x => f x = false) l.
Proof.
  induction l as [|a l IH]; cbn; [split; [constructor|done]|].
  rewrite orb_false_iff, IH. split.
  - intros [? ?]. by constructor.
  - intros H. by apply Forall_cons_1 in H.
Qed.

Lemma existsb_true_elem {A} (f : A -> bool) l :
  existsb f l = true <-> exists x, x ∈ l /\ f x = true.
Proof.
  rewrite existsb_exists. split; intros (x & ? & ?); exists x; split; try done;
    by apply list_elem_of_In.
Qed.

Lemma fresh_above {A} (key : A -> Z) (l : list A) (n : Z) :
  Forall (fun x => key x <= n) l -> n + 1 ∉ key <$> l.
Proof.
  intros H (x & E & Hx)%list_elem_of_fmap.
  rewrite Forall_forall in H. specialize (H x Hx). lia.
Qed.

Lemma NoDup_snoc_fresh {A B} (key : A -> B) (l : list A) (x : A) :
  NoDup (key <$> l) -> key x ∉ key <$> l -> NoDup (key <$> (l ++ [x])).
Proof.
  intros Hl Hx. rewrite fmap_app. apply NoDup_app. split; [done|]. split.
  - intros y Hy [->|[]%elem_of_nil]%elem_of_cons. done.
  - apply NoDup_singleton.
Qed.

Lemma NoDup_fmap_filter {A B} (key : A -> B) (P : A -> Prop) `{!forall x, Decision (P x)}
    (l : list A) :
  NoDup (key <$> l) -> NoDup (key <$> filter P l).
Proof.
  intros Hnd. eapply sublist_NoDup; [exact Hnd|]. apply fmap_sublist, sublist_filter.
Qed.

Lemma fmap_key_map {A B} (key : A -> B) (f : A -> A) (l : list A) :
  (forall x, key (f x) = key x) -> key <$> List.map f l = key <$> l.
Proof. intros H. induction l as [|a l IH]; cbn; [done|]. by rewrite H, IH. Qed.

Lemma has_item_elem d i : has_item d i = true <-> i ∈ it_id <$> items d.
Proof.
  unfold has_item. rewrite existsb_true_elem, list_elem_of_fmap. split.
  - intros (it & ? & ?%Z.eqb_eq). by exists it.
  - intros (it & ? & ?). exists it. split; [done|]. by apply Z.eqb_eq.
Qed.

Lemma has_item_same_ids d d' i :
  it_id <$> items d' = it_id <$> items d -> has_item d' i = has_item d i.
Proof.
  intros E. apply eq_true_iff_eq. by rewrite !has_item_elem, E.
Qed.

Lemma movements_ok_same d d' :
  movements d' = movements d -> seq_movements d' = seq_movements d ->
  (forall i, has_item d i = true -> has_item d' i = true) ->
  movements_ok d -> movements_ok d'.
Proof.
  intros Em Es Hi [H1 H2]. unfold movements_ok. rewrite Em, Es. split; [done|].
  eapply Forall_impl; [exact H2|]. intros m (? & ? & ?). auto.
Qed.

(** Changing the row of one id (or of none) keeps the SKUs apart, when
    the new SKU is that of no other row. *)
Lemma NoDup_sku_update (i : Z) (f : item -> item) (l : list item) :
  (forall it, it_id (f it) = it_id it) ->
  NoDup (it_id <$> l) -> NoDup (it_sku <$> l) ->
  (forall it other, it ∈ l -> other ∈ l -> it_id it = i -> it_id other <> i ->
                    it_sku other <> it_sku (f it)) ->
  NoDup (it_sku <$> List.map (fun it => if it_id it =? i then f it else it) l).
Proof.
  intros Hid. induction l as [|a l IH]; [constructor|].
  cbn [fmap list_fmap List.map]. intros Hids Hskus Hnew.
  apply NoDup_cons in Hids as [Ha Hids]. apply NoDup_cons in Hskus as [Hs Hskus].
  apply NoDup_cons. split.
  2: { apply IH; [done|done|]. intros it other ? ? ? ?.
       apply Hnew; try done; by apply list_elem_of_further. }
  intros (y & Ey & Hy)%list_elem_of_fmap.
  apply list_elem_of_In, in_map_iff in Hy as (x & <- & Hx%list_elem_of_In).
  destruct (it_id a =? i) eqn:Ea; destruct (it_id x =? i) eqn:Ex.
  - apply Z.eqb_eq in Ea, Ex. apply Ha. apply list_elem_of_fmap. exists x.
    split; [congruence|done].
  - apply Z.eqb_eq in Ea. apply Z.eqb_neq in Ex.
    apply (Hnew a x); [apply list_elem_of_here|by apply list_elem_of_further|done|done|done].
  - apply Z.eqb_neq in Ea. apply Z.eqb_eq in Ex.
    apply (Hnew x a); [by apply list_elem_of_further|apply list_elem_of_here|done|done|done].
  - apply Hs. apply list_elem_of_fmap. by exists x.
Qed.

Lemma add_item_ok now s n q u l wh m d :
  store_ok d -> store_ok (snd (add_item now s n q u l wh m d)).
Proof.
  intros (Hi & Ha & Hw & Hm). unfold add_item.
  destruct (sku_taken d s) eqn:Es; [done|].
  destruct (Sqlite.not_null q) eqn:Eq; [|done].
  destruct (Sqlite.not_null m) eqn:Em; [|done]. cbn [orb negb snd].
  unfold Sqlite.not_null in Eq, Em. apply negb_true_iff in Eq, Em.
  destruct Hi as (Hids & Hskus & Hall).
  split; [|split; [done|split; [done|]]].
  - unfold items_ok. cbn [items seq_items]. split; [|split].
    + apply NoDup_snoc_fresh; [done|]. cbn [it_id]. apply fresh_above.
      eapply Forall_impl; [exact Hall|]. by intros it (? & _).
    + apply NoDup_snoc_fresh; [done|]. cbn [it_sku].
      intros (it & E & Hit)%list_elem_of_fmap.
      unfold sku_taken in Es. rewrite existsb_false_Forall, Forall_forall in Es.
      specialize (Es it Hit). cbn in Es. apply String.eqb_neq in Es. congruence.
    + apply Forall_app. split.
      * eapply Forall_impl; [exact Hall|]. intros it (? & ? & ?). split; [lia|done].
      * constructor; [|constructor]. cbn. split; [lia|done].
  - eapply movements_ok_same; [| | |exact Hm]; try done.
    intros i. rewrite !has_item_elem. cbn [items]. rewrite fmap_app.
    intros ?. apply elem_of_app. by left.
Qed.

Lemma update_item_qty_ok now i q d :
  store_ok d -> store_ok (snd (update_item_qty now i q d)).
Proof.
  intros (Hi & Ha & Hw & Hm). unfold update_item_qty.
  destruct (Sqlite.int64 i); [|done]. cbn [negb].
  destruct (has_item d i && negb (Sqlite.not_null q)) eqn:E; [done|]. cbn [snd].
  assert (it_id <$> items (set_items d (List.map
            (fun it => if it_id it =? i then with_qty now q it else it) (items d)))
          = it_id <$> items d) as Eids.
  { cbn [items set_items]. apply fmap_key_map. intros it. by destruct (it_id it =? i). }
  destruct Hi as (Hids & Hskus & Hall).
  split; [|split; [done|split; [done|]]].
  - split; [by rewrite Eids|]. split.
    + cbn [items set_items]. rewrite fmap_key_map; [done|].
      intros it. by destruct (it_id it =? i).
    + cbn [items set_items seq_items]. rewrite Forall_forall in Hall |- *.
      intros x (it & <- & Hit%list_elem_of_In)%list_elem_of_In%in_map_iff.
      destruct (Hall it Hit) as (? & ? & ?).
      destruct (it_id it =? i) eqn:Ei; [|done]. cbn.
      split; [done|]. split; [|done].
      assert (has_item d i = true) as Hh.
      { apply has_item_elem, list_elem_of_fmap. exists it. apply Z.eqb_eq in Ei. done. }
      rewrite Hh in E. cbn in E. apply negb_false_iff in E.
      unfold Sqlite.not_null in E. by apply negb_true_iff in E.
  - eapply movements_ok_same; [| | |exact Hm]; try done.
    intros j. by rewrite (has_item_same_ids d _ j Eids).
Qed.

Lemma adjust_item_qty_ok now i delta d :
  store_ok d -> store_ok (snd (adjust_item_qty now i delta d)).
Proof.
  intros (Hi & Ha & Hw & Hm). unfold adjust_item_qty.
  destruct (Sqlite.int64 i); [|done]. cbn [negb].
  destruct (existsb _ (items d)) eqn:E; [done|]. cbn [snd].
  assert (it_id <$> items (set_items d (List.map
            (fun it => if it_id it =? i
                       then with_qty now (PrimFloat.add (it_qty it) delta) it else it)
            (items d)))
          = it_id <$> items d) as Eids.
  { cbn [items set_items]. apply fmap_key_map. intros it. by destruct (it_id it =? i). }
  destruct Hi as (Hids & Hskus & Hall).
  split; [|split; [done|split; [done|]]].
  - split; [by rewrite Eids|]. split.
    + cbn [items set_items]. rewrite fmap_key_map; [done|].
      intros it. by destruct (it_id it =? i).
    + cbn [items set_items seq_items]. rewrite Forall_forall in Hall |- *.
      intros x (it & <- & Hit%list_elem_of_In)%list_elem_of_In%in_map_iff.
      destruct (Hall it Hit) as (? & ? & ?).
      destruct (it_id it =? i) eqn:Ei; [|done]. cbn.
      split; [done|]. split; [|done].
      rewrite existsb_false_Forall, Forall_forall in E. specialize (E it Hit).
      cbn in E. rewrite Ei in E. cbn in E. apply negb_false_iff in E.
      unfold Sqlite.not_null in E. by apply negb_true_iff in E.
  - eapply movements_ok_same; [| | |exact Hm]; try done.
    intros j. by rewrite (has_item_same_ids d _ j Eids).
Qed.

Lemma update_item_fields_ok now i n s u l wh m d :
  store_ok d -> store_ok (snd (update_item_fields now i n s u l wh m d)).
Proof.
  intros (Hi & Ha & Hw & Hm). unfold update_item_fields.
  destruct (Sqlite.int64 i); [|done]. cbn [negb].
  destruct (has_item d i); [|done]. cbn [negb].
  destruct (_ || _) eqn:E; [done|]. cbn [snd].
  apply orb_false_iff in E as [Eclash Enull].
  assert (it_id <$> items (set_items d (List.map
            (fun it => if it_id it =? i then with_fields now n s u l wh m it else it)
            (items d)))
          = it_id <$> items d) as Eids.
  { cbn [items set_items]. apply fmap_key_map. intros it. by destruct (it_id it =? i). }
  destruct Hi as (Hids & Hskus & Hall).
  split; [|split; [done|split; [done|]]].
  - split; [by rewrite Eids|]. split.
    + cbn [items set_items]. apply NoDup_sku_update; try done.
      intros it other Hit Hother Hid Hne. cbn [with_fields it_sku].
      destruct s as [s|]; cbn [or_else].
      * rewrite existsb_false_Forall, Forall_forall in Eclash.
        specialize (Eclash other Hother). cbn in Eclash.
        apply Z.eqb_neq in Hne. rewrite Hne in Eclash. cbn in Eclash.
        by apply String.eqb_neq in Eclash.
      * intros Heq. apply Hne. rewrite <- Hid.
        assert (other = it) as ->; [|done].
        clear -Hskus Hit Hother Heq.
        induction (items d) as [|a l' IH]; [by apply elem_of_nil in Hit|].
        cbn in Hskus. apply NoDup_cons in Hskus as [Hn Hskus].
        apply elem_of_cons in Hit as [->|Hit]; apply elem_of_cons in Hother as [->|Hother];
          try done.
        -- exfalso. apply Hn, list_elem_of_fmap. by exists other.
        -- exfalso. apply Hn, list_elem_of_fmap. by exists it.
        -- by apply IH.
    + cbn [items set_items seq_items]. rewrite Forall_forall in Hall |- *.
      intros x (it & <- & Hit%list_elem_of_In)%list_elem_of_In%in_map_iff.
      destruct (Hall it Hit) as (? & ? & ?).
      destruct (it_id it =? i) eqn:Ei; [|done]. cbn.
      split; [done|]. split; [done|].
      destruct m as [m|]; cbn [or_else]; [|done].
      apply negb_false_iff in Enull.
      unfold Sqlite.not_null in Enull. by apply negb_true_iff in Enull.
  - eapply movements_ok_same; [| | |exact Hm]; try done.
    intros j. by rewrite (has_item_same_ids d _ j Eids).
Qed.

Lemma delete_item_ok i d : store_ok d -> store_ok (snd (delete_item i d)).
Proof.
  intros ((Hids & Hskus & Hall) & Ha & Hw & (Hmids & Hmall)). unfold delete_item.
  destruct (Sqlite.int64 i); [|done]. cbn [negb snd].
  split; [|split; [done|split; [done|]]].
  - split; [|split]; cbn [items seq_items].
    + by apply NoDup_fmap_filter.
    + by apply NoDup_fmap_filter.
    + rewrite Forall_forall in Hall |- *. intros it [_ Hit]%list_elem_of_filter. auto.
  - split; cbn [movements seq_movements].
    + by apply NoDup_fmap_filter.
    + rewrite Forall_forall in Hmall |- *. intros mv [Hne Hmv]%list_elem_of_filter.
      destruct (Hmall mv Hmv) as (? & Hh & ?). split; [done|]. split; [|done].
      apply has_item_elem in Hh. apply has_item_elem. cbn [items].
      apply list_elem_of_fmap in Hh as (it & E & Hit). apply list_elem_of_fmap.
      exists it. split; [done|]. apply list_elem_of_filter. split; [congruence|done].
Qed.

Lemma add_movement_ok now i delta note uid d :
  store_ok d -> store_ok (snd (add_movement now i delta note uid d)).
Proof.
  intros (Hi & Ha & Hw & (Hmids & Hmall)). unfold add_movement.
  destruct (Sqlite.int64 i && Sqlite.int64 uid); [|done]. cbn [negb].
  destruct (has_item d i) eqn:Eh; [|done].
  destruct (Sqlite.not_null delta) eqn:En; [|done]. cbn [orb negb snd].
  split; [done|split; [done|split; [done|]]].
  split; cbn [movements seq_movements].
  - apply NoDup_snoc_fresh; [done|]. cbn [mv_id]. apply fresh_above.
    eapply Forall_impl; [exact Hmall|]. by intros mv (? & _).
  - apply Forall_app. split.
    + eapply Forall_impl; [exact Hmall|]. intros mv (? & ? & ?). split; [lia|done].
    + constructor; [|constructor]. cbn. split; [lia|]. split; [done|].
      unfold Sqlite.not_null in En. by apply negb_true_iff in En.
Qed.

Lemma add_warehouse_ok now nm d : store_ok d -> store_ok (snd (add_warehouse now nm d)).
Proof.
  intros (Hi & Ha & (Hwids & Hwnames & Hwall) & Hm). unfold add_warehouse.
  destruct (get_warehouse_by_name d nm) eqn:E; [done|]. cbn [snd].
  split; [done|split; [done|split; [|done]]].
  split; [|split]; cbn [warehouses seq_warehouses].
  - apply NoDup_snoc_fresh; [done|]. cbn [wh_id]. by apply fresh_above.
  - apply NoDup_snoc_fresh; [done|]. cbn [wh_name].
    intros (w & Ew & Hw)%list_elem_of_fmap.
    unfold get_warehouse_by_name in E.
    apply find_none with (x := w) in E; [|by apply list_elem_of_In].
    cbn in E. apply String.eqb_neq in E. congruence.
  - apply Forall_app. split.
    + eapply Forall_impl; [exact Hwall|]. intros w ?. cbn in *. lia.
    + constructor; [|constructor]. cbn. lia.
Qed.

Lemma add_admin_ok now t nm silent d :
  store_ok d -> store_ok (snd (add_admin now t nm silent d)).
Proof.
  intros (Hi & Ha & Hw & Hm). unfold add_admin.
  destruct (Sqlite.int64 t); [|done]. cbn [negb].
  destruct (is_admin d t) eqn:E; [done|]. cbn [snd].
  split; [done|split; [|done]].
  unfold admins_ok. cbn [admins set_admins].
  apply NoDup_snoc_fresh; [done|]. cbn [adm_tg_id].
  intros (a & Ea & Hin)%list_elem_of_fmap.
  unfold is_admin in E. rewrite existsb_false_Forall, Forall_forall in E.
  specialize (E a Hin). cbn in E. apply Z.eqb_neq in E. congruence.
Qed.

Lemma remove_admin_ok t d : store_ok d -> store_ok (snd (remove_admin t d)).
Proof.
  intros (Hi & Ha & Hw & Hm). unfold remove_admin.
  destruct (Sqlite.int64 t); [|done]. cbn [negb snd].
  split; [done|split; [|done]].
  unfold admins_ok. cbn [admins set_admins]. by apply NoDup_fmap_filter.
Qed.

Lemma ensure_admins_ok now ids d :
  store_ok d -> store_ok (snd (ensure_admins now ids d)).
Proof.
  revert d. induction ids as [|t ids IH]; intros d H; [done|]. cbn [ensure_admins].
  pose proof (add_admin_ok now t (Some "superadmin") true d H) as H'.
  destruct (add_admin now t (Some "superadmin") true d) as [[b|e] d']; cbn [snd] in H'.
  - by apply IH.
  - done.
Qed.

Lemma empty_db_ok : store_ok empty_db.
Proof. repeat split; try constructor. Qed.

#[local] Instance keeps_store_ok_preorder : PreOrder keeps_store_ok.
Proof.
  split; [intros w H; exact H|]. intros a b c H1 H2 H. by apply H2, H1.
Qed.

Ltac constraints_side :=
  first
    [ by intros ? ?
    | by intros ? ? ?
    | (unfold keeps_store_ok; cbn [db with_db];
       first [ apply add_item_ok | apply update_item_qty_ok | apply adjust_item_qty_ok
             | apply update_item_fields_ok | apply delete_item_ok | apply add_movement_ok
             | apply add_warehouse_ok | apply add_admin_ok | apply remove_admin_ok
             | apply ensure_admins_ok ]) ].

Lemma admin_messages_constraints K config me :
  Forall (fun e => forall uid text, keeps keeps_store_ok (snd e uid text))
         (admin_messages K config me).
Proof.
  unfold admin_messages.
  repeat (apply Forall_cons; split;
          [intros uid text; cbn [snd]; solve [keeps_all constraints_side]|]).
  constructor.
Qed.

Lemma feed_update_constraints K config me u :
  keeps keeps_store_ok (feed_update K config me u).
Proof.
  destruct u as [from_user text|from_user data']; unfold feed_update.
  - apply (keeps_bind _); [keeps_all constraints_side|].
    intros [|]; [|keeps_all constraints_side].
    apply (keeps_bind _); [keeps_all constraints_side|]. intros uid.
    apply (keeps_bind _); [keeps_all constraints_side|]. intros st.
    destruct (route _ st text) as [h|] eqn:E; [|keeps_all constraints_side].
    apply route_in in E as [f Hin].
    pose proof (admin_messages_constraints K config me) as Hall.
    rewrite Forall_forall in Hall. apply (Hall (f, h)). by apply list_elem_of_In.
  - apply (keeps_bind _); [keeps_all constraints_side|].
    intros [|]; [|keeps_all constraints_side].
    apply (keeps_bind _); [keeps_all constraints_side|]. intros uid.
    apply (keeps_bind _); [keeps_all constraints_side|]. intros st.
    destruct (route _ st data') as [h|] eqn:E; [|keeps_all constraints_side].
    apply route_in in E as [f Hin].
    pose proof (admin_callbacks_store config) as Hall.
    rewrite Forall_forall in Hall.
    intros w Hok. rewrite (Hall (f, h)); [done|]. by apply list_elem_of_In.
Qed.

(** ** The last step of a flow, as the dispatcher serves it *)

(** An admin's text that is no trigger is served by the handler of the
    step the admin is in. *)
Lemma feed_flow_step K config me uid st text w :
  is_admin (db w) uid = true ->
  state (session_of w uid) = Some st ->
  is_trigger K me text = false ->
  feed_update K config me (message (Some uid) text) w = flow_step config st uid text w.
Proof.
  intros Ha Hs Ht. unfold feed_update, IsAdmin. coro. rewrite Ha, Hs.
  by rewrite (route_flow_step K config me st text Ht).
Qed.

Lemma map_untouched {A} (p : A -> bool) (f : A -> A) (l : list A) :
  existsb p l = false -> List.map (fun x => if p x then f x else x) l = l.
Proof.
  induction l as [|a l IH]; [done|]. cbn. rewrite orb_false_iff. intros [-> ?].
  by rewrite IH.
Qed.

Lemma set_items_same d : set_items d (items d) = d.
Proof. by destruct d. Qed.

Lemma with_db_same w : with_db w (db w) = w.
Proof. by destruct w. Qed.

Lemma update_item_qty_missing now i q d :
  Sqlite.int64 i = true -> has_item d i = false ->
  update_item_qty now i q d = (Ok tt, d).
Proof.
  intros H64 Hh. unfold update_item_qty. rewrite H64, Hh. cbn.
  by rewrite (map_untouched (fun it => it_id it =? i)), set_items_same.
Qed.

Lemma adjust_item_qty_missing now i delta d :
  Sqlite.int64 i = true -> has_item d i = false ->
  adjust_item_qty now i delta d = (Ok tt, d).
Proof.
  intros H64 Hh. unfold adjust_item_qty. rewrite H64. cbn [negb].
  assert (existsb (fun it => (it_id it =? i)
                             && negb (Sqlite.not_null (PrimFloat.add (it_qty it) delta)))
                  (items d) = false) as ->.
  { unfold has_item in Hh. rewrite existsb_false_Forall in Hh |- *.
    eapply Forall_impl; [exact Hh|]. cbn. by intros it ->. }
  by rewrite (map_untouched (fun it => it_id it =? i)), set_items_same.
Qed.

Lemma add_movement_missing now i delta note uid d :
  Sqlite.int64 i = true -> Sqlite.int64 uid = true -> has_item d i = false ->
  add_movement now i delta note uid d = (Raise IntegrityError, d).
Proof. intros H1 H2 Hh. unfold add_movement. by rewrite H1, H2, Hh. Qed.

Lemma find_by_id_unique (l : list item) i it0 :
  NoDup (it_id <$> l) -> List.find (fun it => it_id it =? i) l = Some it0 ->
  forall it, it ∈ l -> it_id it = i -> it = it0.
Proof.
  induction l as [|a l IH]; [done|]. cbn [fmap list_fmap List.find].
  intros [Ha Hl]%NoDup_cons Hf it Hit Hid.
  destruct (it_id a =? i) eqn:Ea.
  - injection Hf as <-. apply Z.eqb_eq in Ea.
    apply elem_of_cons in Hit as [->|Hit]; [done|].
    exfalso. apply Ha, list_elem_of_fmap. exists it. split; [congruence|done].
  - apply elem_of_cons in Hit as [->|Hit]; [|by apply IH].
    apply Z.eqb_neq in Ea. done.
Qed.

Lemma find_by_id_map (f : item -> item) (l : list item) i it0 :
  (forall it, it_id (f it) = it_id it) ->
  List.find (fun it => it_id it =? i) l = Some it0 ->
  List.find (fun it => it_id it =? i)
            (List.map (fun it => if it_id it =? i then f it else it) l) = Some (f it0).
Proof.
  intros Hf. induction l as [|a l IH]; [done|]. cbn [List.find List.map].
  destruct (it_id a =? i) eqn:Ea.
  - intros [= <-]. by rewrite Hf, Ea.
  - rewrite Ea. apply IH.
Qed.

Lemma find_by_id_has d i it0 :
  List.find (fun it => it_id it =? i) (items d) = Some it0 -> has_item d i = true.
Proof.
  intros H. unfold has_item. apply existsb_exists. exists it0.
  apply find_some in H. done.
Qed.

(** ** The AddItem dialogue, step by step *)

Lemma session_of_mk d m l c uid s :
  session_of {| db := d; storage := <[uid := s]> m; sent := l; clock := c |} uid = s.
Proof. unfold session_of. cbn [storage]. by rewrite lookup_insert_eq. Qed.

Ltac step_done :=
  eexists; split; [reflexivity|]; cbn [db clock]; split; [done|]; split; [done|];
  rewrite ?session_of_mk; cbn [state data]; rewrite ?session_of_mk; cbn [state data].

Lemma feed_callback config K me uid st d w h :
  is_admin (db w) uid = true ->
  state (session_of w uid) = st ->
  route (admin_callbacks config) st (Some d) = Some h ->
  feed_update K config me (callback_query (Some uid) (Some d)) w = h uid d w.
Proof.
  intros Ha Hs Hr. unfold feed_update, IsAdmin. coro. rewrite Ha, Hs, Hr. done.
Qed.

Lemma step_start K config me w uid :
  is_admin (db w) uid = true ->
  exists w', feed_update K config me (callback_query (Some uid) (Some "add_item")) w
             = (Ok tt, w')
    /\ db w' = db w /\ clock w' = clock w
    /\ session_of w' uid
       = {| state := Some AddItem_sku; data := data (session_of w uid) |}.
Proof.
  intros Ha.
  rewrite (feed_callback config K me uid _ "add_item" w (fun uid _ => add_item_start true uid) Ha eq_refl);
    [|reflexivity].
  unfold add_item_start. coro. step_done. done.
Qed.

Lemma step_sku K config me w uid t :
  is_admin (db w) uid = true -> is_trigger K me (Some t) = false ->
  state (session_of w uid) = Some AddItem_sku ->
  Py.strip t <> "" -> get_item_by_sku (db w) (Py.strip t) = None ->
  exists w', feed_update K config me (message (Some uid) (Some t)) w = (Ok tt, w')
    /\ db w' = db w /\ clock w' = clock w
    /\ session_of w' uid
       = {| state := Some AddItem_name;
            data := list_to_map [("sku", VStr (Py.strip t))] ∪ data (session_of w uid) |}.
Proof.
  intros Ha Ht Hs Hne Hfree.
  rewrite (feed_flow_step K config me uid _ (Some t) w Ha Hs Ht). cbn [flow_step].
  unfold add_item_sku. coro. destruct (Py.strip t) eqn:E; [done|]. rewrite Hfree. coro.
  step_done. done.
Qed.

Lemma step_name K config me w uid t :
  is_admin (db w) uid = true -> is_trigger K me (Some t) = false ->
  state (session_of w uid) = Some AddItem_name ->
  Py.strip t <> "" ->
  exists w', feed_update K config me (message (Some uid) (Some t)) w = (Ok tt, w')
    /\ db w' = db w /\ clock w' = clock w
    /\ session_of w' uid
       = {| state := Some AddItem_qty;
            data := list_to_map [("name", VStr (Py.strip t))] ∪ data (session_of w uid) |}.
Proof.
  intros Ha Ht Hs Hne.
  rewrite (feed_flow_step K config me uid _ (Some t) w Ha Hs Ht). cbn [flow_step].
  unfold add_item_name. coro. destruct (Py.strip t) eqn:E; [done|]. coro.
  destruct (build_prefill_kb _); coro; step_done; done.
Qed.

Lemma step_qty K config me w uid t q :
  is_admin (db w) uid = true -> is_trigger K me (Some t) = false ->
  state (session_of w uid) = Some AddItem_qty ->
  parse_number t = Some q ->
  exists w', feed_update K config me (message (Some uid) (Some t)) w = (Ok tt, w')
    /\ db w' = db w /\ clock w' = clock w
    /\ session_of w' uid
       = {| state := Some AddItem_unit;
            data := list_to_map [("qty", VFloat q)] ∪ data (session_of w uid) |}.
Proof.
  intros Ha Ht Hs Hq.
  rewrite (feed_flow_step K config me uid _ (Some t) w Ha Hs Ht). cbn [flow_step].
  unfold add_item_qty. coro. rewrite Hq. coro. step_done. done.
Qed.

Lemma step_unit K config me w uid t :
  is_admin (db w) uid = true -> is_trigger K me (Some t) = false ->
  state (session_of w uid) = Some AddItem_unit ->
  data (session_of w uid) !! "unit" = None ->
  exists w', feed_update K config me (message (Some uid) (Some t)) w = (Ok tt, w')
    /\ db w' = db w /\ clock w' = clock w
    /\ session_of w' uid
       = {| state := Some AddItem_location;
            data := list_to_map
                      [("unit", VStr (if String.eqb (Py.strip t) "-" || String.eqb (Py.strip t) ""
                                      then "шт" else Py.strip t))]
                    ∪ data (session_of w uid) |}.
Proof.
  intros Ha Ht Hs Hu.
  rewrite (feed_flow_step K config me uid _ (Some t) w Ha Hs Ht). cbn [flow_step].
  unfold add_item_unit. coro. rewrite Hu. cbn [truthy]. rewrite andb_false_r.
  destruct (_ || _); coro; step_done; done.
Qed.

Lemma step_location K config me w uid t :
  is_admin (db w) uid = true -> is_trigger K me (Some t) = false ->
  state (session_of w uid) = Some AddItem_location ->
  data (session_of w uid) !! "location" = None ->
  exists w', feed_update K config me (message (Some uid) (Some t)) w = (Ok tt, w')
    /\ db w' = db w /\ clock w' = clock w
    /\ session_of w' uid
       = {| state := Some AddItem_warehouse;
            data := list_to_map
                      [("location", if String.eqb (Py.strip t) "-" then VNone
                                    else VStr (Py.strip t))]
                    ∪ data (session_of w uid) |}.
Proof.
  intros Ha Ht Hs Hl.
  rewrite (feed_flow_step K config me uid _ (Some t) w Ha Hs Ht). cbn [flow_step].
  unfold add_item_location, build_warehouse_select. coro. rewrite Hl.
  cbn [is_not_none]. rewrite andb_false_r.
  destruct (truthy _); coro; step_done; done.
Qed.

Lemma step_no_warehouse K config me w uid :
  is_admin (db w) uid = true ->
  state (session_of w uid) = Some AddItem_warehouse ->
  data (session_of w uid) !! "warehouse" = None ->
  exists w', feed_update K config me (callback_query (Some uid) (Some "warehouse_select:0")) w
             = (Ok tt, w')
    /\ db w' = db w /\ clock w' = clock w
    /\ session_of w' uid
       = {| state := Some AddItem_min_qty;
            data := list_to_map [("warehouse", VNone)] ∪ data (session_of w uid) |}.
Proof.
  intros Ha Hs Hw.
  rewrite (feed_callback config K me uid _ "warehouse_select:0" w add_item_warehouse_select
             Ha Hs); [|reflexivity].
  unfold add_item_warehouse_select.
  change (or_else (Py.after_first ":" "warehouse_select:0") "") with "0".
  cbv zeta. change (String.eqb "0" "" || String.eqb "0" "0") with true. cbv iota.
  coro. unfold session_of in *. cbn [storage] in *. rewrite Hw. cbn [is_not_none]. coro.
  eexists. split; [reflexivity|]. cbn [db clock storage]. split; [done|]. split; [done|].
  rewrite !lookup_insert_eq. reflexivity.
Qed.

Lemma get_item_by_sku_free d s : get_item_by_sku d s = None -> sku_taken d s = false.
Proof.
  unfold get_item_by_sku, sku_taken. intros H. apply existsb_false_Forall, Forall_forall.
  intros it Hit. apply find_none with (x := it) in H; [|by apply list_elem_of_In].
  cbn in H. apply String.eqb_neq in H. apply String.eqb_neq. congruence.
Qed.

Lemma find_last_resort {A} (f : A -> bool) l x :
  f x = true -> exists y, List.find f (l ++ [x]) = Some y.
Proof.
  intros Hx. induction l as [|a l IH]; cbn; [rewrite Hx; eauto|].
  destruct (f a); eauto.
Qed.

Lemma step_min K config me w uid t s n q u loc m :
  is_admin (db w) uid = true -> is_trigger K me (Some t) = false ->
  state (session_of w uid) = Some AddItem_min_qty ->
  data (session_of w uid) !! "min_qty" = None ->
  data (session_of w uid) !! "sku" = Some (VStr s) ->
  data (session_of w uid) !! "name" = Some (VStr n) ->
  data (session_of w uid) !! "qty" = Some (VFloat q) ->
  data (session_of w uid) !! "unit" = Some (VStr u) ->
  data (session_of w uid) !! "location" = Some (opt_str_val loc) ->
  data (session_of w uid) !! "warehouse" = Some VNone ->
  parse_number t = Some m ->
  sku_taken (db w) s = false -> is_nan q = false -> is_nan m = false ->
  exists w', feed_update K config me (message (Some uid) (Some t)) w = (Ok tt, w')
    /\ items (db w')
       = items (db w) ++
         [{| it_id := seq_items (db w) + 1; it_sku := s; it_name := n; it_qty := q;
             it_unit := u; it_location := loc; it_warehouse := None; it_min_qty := m;
             it_updated_at := clock w |}]
    /\ movements (db w') = movements (db w)
    /\ session_of w' uid = no_session.
Proof.
  intros Ha Ht Hs Hmin Hsku Hname Hqty Hunit Hloc Hwh Hm Hfree Hq Hnm.
  rewrite (feed_flow_step K config me uid _ (Some t) w Ha Hs Ht). cbn [flow_step].
  unfold add_item_min. coro. rewrite Hmin. cbn [is_not_none]. rewrite andb_false_r.
  coro. rewrite Hm, Hsku, Hname, Hqty, Hunit, Hloc, Hwh.
  destruct loc as [l|]; cbn [opt_str_val]; coro; unfold add_item, Sqlite.not_null;
    rewrite Hfree, Hq, Hnm; cbn [negb orb]; coro.
  all: unfold get_item_by_sku; cbn [items].
  all: match goal with
       | |- context [List.find ?f (?l ++ [?x])] =>
           destruct (find_last_resort f l x) as [y ->]; [apply String.eqb_refl|]
       end.
  all: coro; eexists; (split; [reflexivity|]); cbn [db items movements];
    (split; [done|]); (split; [done|]); by rewrite session_of_mk.
Qed.


(** ** Session dictionaries *)

Lemma data_ok_empty : data_ok ∅.
Proof. intros k v H. by rewrite lookup_empty in H. Qed.

Lemma data_ok_update l d :
  Forall (fun kv => type_ok (fst kv) (snd kv) = true) l -> data_ok d ->
  data_ok (list_to_map l ∪ d).
Proof.
  intros Hl Hd k v [H|[_ H]]%lookup_union_Some_raw; [|by apply Hd].
  apply elem_of_list_to_map_2 in H. rewrite Forall_forall in Hl. by apply (Hl (k, v)).
Qed.

Lemma has_key_update (l : list (string * pyval)) (d : gmap string pyval) k :
  is_Some (list_to_map (M := gmap string pyval) l !! k) \/ is_Some (d !! k) ->
  is_Some ((list_to_map l ∪ d) !! k).
Proof.
  intros [[v H]|[v H]].
  - exists v. by apply lookup_union_Some_l.
  - destruct (list_to_map (M := gmap string pyval) l !! k) as [v'|] eqn:E.
    + exists v'. by apply lookup_union_Some_l.
    + exists v. rewrite lookup_union_r; done.
Qed.

Lemma session_of_sent w l uid : session_of (with_sent w l) uid = session_of w uid.
Proof. done. Qed.

Lemma session_of_db w d uid : session_of (with_db w d) uid = session_of w uid.
Proof. done. Qed.

Lemma session_of_same d w l c uid :
  session_of {| db := d; storage := storage w; sent := l; clock := c |} uid = session_of w uid.
Proof. done. Qed.

Lemma session_ok_none : session_ok no_session.
Proof. split; [apply data_ok_empty|done]. Qed.

(** A value read under a key has the type of the key. *)
Ltac typed :=
  repeat match goal with
         | Hd : data_ok ?d, H : ?d !! ?k = Some ?v |- _ =>
             lazymatch goal with
             | _ : type_ok k v = true |- _ => fail
             | _ => pose proof (Hd k v H)
             end
         end.

Ltac keys_of H :=
  repeat match type of H with
         | Forall _ (_ :: _) => 
             let Hk := fresh "Hk" in
             apply Forall_cons in H as [Hk H]; destruct Hk as [? Hk]
         end.

Ltac sess :=
  repeat first [ rewrite session_of_mk | rewrite session_of_same ];
  cbn [state data no_session].

Ltac by_types :=
  typed;
  repeat match goal with
         | H : type_ok _ _ = true |- _ => vm_compute in H; try discriminate H; clear H
         end.

(** The ways in which a branch cannot be taken: the key is there, the
    value has the type of its key, a guard was false, the item that was
    written is found. *)
Ltac leaf_false :=
  exfalso;
  unfold get_item_by_sku in *; cbn [items set_items] in *;
  repeat match goal with
         | H : _ || _ = false |- _ => apply orb_false_iff in H as [? ?]
         | H : negb _ = false |- _ => apply negb_false_iff in H
         end;
  first
    [ congruence
    | by_types; fail
    | match goal with
      | H : List.find _ ?l = None, H' : has_item ?d ?i = true |- _ =>
          apply has_item_find in H' as [? H']; cbn [items set_items] in H'; congruence
      | H : List.find ?f (?l ++ [?x]) = None |- _ =>
          destruct (find_last_resort f l x) as [? ?]; [apply String.eqb_refl|congruence]
      end
    | (repeat match goal with
              | H : _ !! _ = None |- _ => rewrite H in *
              end;
       cbn in *; rewrite ?andb_false_r in *; congruence) ].

Lemma session_ok_update s l :
  session_ok s -> Forall (fun kv => type_ok (fst kv) (snd kv) = true) l ->
  session_ok {| state := state s; data := list_to_map l ∪ data s |}.
Proof.
  intros [Hd Hk] Hl. split; cbn [state data]; [by apply data_ok_update|].
  destruct (state s) as [st|]; [|done].
  eapply Forall_impl; [exact Hk|]. intros k ?. apply has_key_update. by right.
Qed.

Ltac new_session :=
  sess;
  lazymatch goal with
  | |- session_ok no_session => apply session_ok_none
  | |- session_ok (session_of _ _) => first [assumption | by split]
  | |- session_ok {| state := state ?s; data := list_to_map _ ∪ data ?s |} =>
      apply session_ok_update;
      [ first [assumption | by split]
      | repeat (apply Forall_cons; split;
                [ cbn;
                  repeat match goal with
                         | |- context [opt_str_val ?o] => destruct o; cbn
                         end;
                  done
                | ]);
        apply Forall_nil_2 ]
  | |- session_ok _ =>
      split; cbn [state data required];
      [ repeat first [ assumption
                     | apply data_ok_empty
                     | apply data_ok_update;
                       [ repeat (apply Forall_cons; split;
                                 [ cbn;
                                   try match goal with
                                       | |- context [default _ (?d !! ?k)] =>
                                           destruct (d !! k) eqn:?; cbn [default]
                                       end;
                                   first [ done
                                         | typed;
                                           match goal with
                                           | H : type_ok _ _ = true |- _ => exact H
                                           end
                                         | idtac ]
                                 | ]);
                         try apply Forall_nil_2 | ] ]
      | try done;
        repeat (apply Forall_cons; split;
                [ repeat first [ by eexists
                               | apply has_key_update; first [ left; by eexists | right ] ]
                | ]);
        try apply Forall_nil_2 ]
  end.

Ltac leaf :=
  split;
  [ cbn [fst]; first [discriminate | intros _; leaf_false | idtac]
  | split;
    [ cbn [fst]; first [discriminate | done | intros _; leaf_false | idtac]
    | cbn [snd]; first [new_session | idtac] ] ].

Ltac open_handlers :=
  unfold cmd_menu, cmd_admin, show_main_menu, cmd_id, cmd_help, cmd_cancel,
    cancel_any_state, menu_warehouse, bulk_add_start, menu_reports, menu_admin,
    menu_settings, menu_warehouses, settings_menu_cb, warehouses_menu_cb, back_to_main,
    add_item_start, add_item_sku, add_item_name, add_item_prefill, add_item_qty,
    add_item_unit, add_item_location, add_item_warehouse_select, add_item_min,
    build_warehouse_select,
    adjust_qty_start, adjust_qty_key, adjust_qty_delta, adjust_qty_note,
    set_qty_start, set_qty_key, set_qty_value, set_qty_note,
    delete_item_start, delete_item_key, delete_item_confirm,
    search_menu, search_start_cb, search_run, list_items_message, list_items_callback,
    second_field, render_items_page, render_items_by_warehouse,
    low_stock, export_csv, history, update_item_start, set_min_start, update_item_key,
    update_item_field, update_item_field_cb, update_item_value, update_one_field,
    warehouses_list, warehouse_add_start, warehouse_add_name, warehouse_items_start,
    warehouse_filter, admins_list, admin_add_start, admin_add_tg_id, admin_add_name,
    admin_remove_start, admin_remove_tg_id, backup_db, admin_unknown.

Ltac open_store :=
  unfold get_item_by_key, get_item_by_id, get_warehouse_by_id, delete_item, add_admin,
    remove_admin, update_item_qty, adjust_item_qty, update_item_fields, add_movement,
    add_item, add_warehouse.

Ltac run_handler :=
  open_handlers; try open_handlers; coro; open_store;
  repeat (case_match; simplify_eq; coro).

Ltac enter_step Hf Hok :=
  try (unfold in_state in Hf; apply bool_decide_eq_true in Hf);
  let Hd := fresh "Hd" in
  let Hk := fresh "Hk" in
  pose proof Hok as [Hd Hk];
  try rewrite Hf; try (rewrite Hf in Hk; cbn [required] in Hk; keys_of Hk).

Lemma bulk_add_rows_total rows idx r w :
  exists r' w', bulk_add_rows idx rows r w = (Ok r', w').
Proof.
  revert idx r w. induction rows as [|row rows IH]; intros idx r w; [by eexists _, _|].
  cbn [bulk_add_rows]. unfold mbind, coro_bind.
  destruct (bulk_add_row_total idx row r w) as (r1 & w1 & -> & _).
  apply IH.
Qed.

Lemma bulk_add_process_ok uid text w :
  session_ok (session_of w uid) ->
  outcome_ok uid (Some BulkAdd_lines) (bulk_add_process uid text w).
Proof.
  intros Hok. unfold bulk_add_process. coro.
  destruct text as [t|]; [|leaf]. cbn [or_else].
  destruct (parse_bulk_lines t) as [|row rows] eqn:E; [coro; leaf|].
  coro.
  destruct (bulk_add_rows_total (row :: rows) 1 {| created := 0; skipped := 0; errors := [] |} w)
    as (r' & w' & ->).
  coro. leaf.
Qed.

Lemma admin_messages_ok K config me :
  Forall msg_entry_ok (admin_messages K config me).
Proof.
  unfold admin_messages.
  repeat (apply Forall_cons; split;
          [ intros uid text w Hf Hok; cbn [fst snd] in *; enter_step Hf Hok;
            first
              [ solve [run_handler; leaf]
              | solve [by apply bulk_add_process_ok]
              | solve [run_handler; leaf; typed;
                       match goal with
                       | H : type_ok "preset_field" ?p = true |- _ =>
                           destruct p; vm_compute in H; try discriminate H;
                           apply String.eqb_eq in H; subst; reflexivity
                       end] ]
          | ]).
  apply Forall_nil_2.
Qed.

Lemma admin_callbacks_ok config :
  Forall cb_entry_ok (admin_callbacks config).
Proof.
  unfold admin_callbacks.
  repeat (apply Forall_cons; split;
          [ intros uid data' w Hf Hok; cbn [fst snd] in *;
            try (apply andb_true_iff in Hf as [Hf _]);
            enter_step Hf Hok;
            solve [run_handler; leaf]
          | ]).
  apply Forall_nil_2.
Qed.

Lemma public_message_ok me from_user text uid w :
  session_ok (session_of w uid) ->
  outcome_ok uid (state (session_of w uid)) (public_message me from_user text w).
Proof.
  intros Hok. unfold public_message, cmd_start, public_fallback, show_main_menu.
  destruct from_user; coro; repeat (case_match; simplify_eq; coro); leaf.
Qed.

(** What serving an update leaves for its sender. *)
Lemma feed_update_ok K config me u uid w :
  sender u = Some uid ->
  session_ok (session_of w uid) ->
  outcome_ok uid (state (session_of w uid)) (feed_update K config me u w).
Proof.
  intros Hs Hok. destruct u as [from_user text|from_user data']; cbn in Hs; subst from_user;
    unfold feed_update, IsAdmin; coro.
  - destruct (is_admin (db w) uid); [|by apply public_message_ok].
    destruct (route _ _ text) as [h|] eqn:E; [|by apply public_message_ok].
    apply route_hit in E as (f & Hin & Hf).
    pose proof (admin_messages_ok K config me) as Hall. rewrite Forall_forall in Hall.
    apply (Hall (f, h)); [by apply list_elem_of_In|done|done].
  - destruct (is_admin (db w) uid).
    + destruct (route _ _ data') as [h|] eqn:E.
      * apply route_hit in E as (f & Hin & Hf).
        pose proof (admin_callbacks_ok config) as Hall. rewrite Forall_forall in Hall.
        apply (Hall (f, h)); [by apply list_elem_of_In|done|done].
      * unfold public_callback. coro. repeat (case_match; simplify_eq; coro); leaf.
    + unfold public_callback. coro. repeat (case_match; simplify_eq; coro); leaf.
Qed.

Lemma feed_update_sessions_ok K config me u w :
  sessions_ok w -> sessions_ok (snd (feed_update K config me u w)).
Proof.
  intros Hok other.
  destruct (sender u) as [uid|] eqn:Hs.
  - destruct (decide (other = uid)) as [->|Hne].
    + by apply (feed_update_ok K config me u uid w Hs (Hok uid)).
    + unfold session_of. rewrite (feed_update_sessions K config me u uid Hs w other Hne).
      apply Hok.
  - destruct u as [from_user text|from_user data']; cbn in Hs; subst from_user; apply Hok.
Qed.

Lemma run_sessions_ok K config me us w :
  sessions_ok w -> sessions_ok (run K config me w us).
Proof.
  revert w. induction us as [|u us IH]; intros w H; [done|].
  cbn [run fold_left]. apply IH. by apply feed_update_sessions_ok.
Qed.

(** ** SKUs that differ in case *)

Lemma find_app_found {A} (f : A -> bool) l k x :
  List.find f l = Some x -> List.find f (l ++ k) = Some x.
Proof.
  induction l as [|a l IH]; [done|]. cbn. destruct (f a); [done|]. apply IH.
Qed.

Lemma add_warehouse_items now nm d : items (snd (add_warehouse now nm d)) = items d.
Proof. unfold add_warehouse. by destruct (get_warehouse_by_name d nm). Qed.

Lemma add_warehouse_seq_items now nm d :
  seq_items (snd (add_warehouse now nm d)) = seq_items d.
Proof. unfold add_warehouse. by destruct (get_warehouse_by_name d nm). Qed.

Lemma add_item_shadowed now s n q u l wh m d old :
  get_item_by_sku d s = Some old -> sku_taken d s = false ->
  is_nan q = false -> is_nan m = false ->
  exists d',
    add_item now s n q u l wh m d = (true, d')
    /\ items d'
       = items d ++
         [{| it_id := seq_items d + 1; it_sku := s; it_name := n; it_qty := q; it_unit := u;
             it_location := l; it_warehouse := wh; it_min_qty := m; it_updated_at := now |}]
    /\ get_item_by_sku d' s = Some old.
Proof.
  intros Hold Hfree Hq Hm. unfold add_item, Sqlite.not_null. rewrite Hfree, Hq, Hm.
  cbn [negb orb]. eexists. split; [reflexivity|]. cbn [items]. split; [done|].
  unfold get_item_by_sku in *. cbn [items]. by apply find_app_found.
Qed.

Lemma sku_taken_same d d' s : items d' = items d -> sku_taken d' s = sku_taken d s.
Proof. unfold sku_taken. by intros ->. Qed.

Lemma get_item_by_sku_same d d' s :
  items d' = items d -> get_item_by_sku d' s = get_item_by_sku d s.
Proof. unfold get_item_by_sku. by intros ->. Qed.

(** ** A preset that outlives its flow *)

Lemma route_plain_callback config st d h :
  (forall st', route (admin_callbacks config) st' (Some d) = Some h) ->
  route (admin_callbacks config) st (Some d) = Some h.
Proof. intros H. apply H. Qed.

Lemma step_set_min K config me w uid :
  is_admin (db w) uid = true ->
  exists w', feed_update K config me (callback_query (Some uid) (Some "set_min")) w
             = (Ok tt, w')
    /\ db w' = db w
    /\ session_of w' uid
       = {| state := Some UpdateItem_key;
            data := list_to_map [("preset_field", VStr "min_qty")] ∪ ∅ |}.
Proof.
  intros Ha.
  rewrite (feed_callback config K me uid _ "set_min" w (fun uid _ => set_min_start uid)
             Ha eq_refl).
  2: { by destruct (state (session_of w uid)) as [[]|]. }
  unfold set_min_start. coro. eexists. split; [reflexivity|]. cbn [db]. split; [done|].
  repeat (progress (rewrite ?session_of_mk; cbn [state data no_session])). done.
Qed.

Lemma step_update_item K config me w uid :
  is_admin (db w) uid = true ->
  exists w', feed_update K config me (callback_query (Some uid) (Some "update_item")) w
             = (Ok tt, w')
    /\ db w' = db w
    /\ session_of w' uid
       = {| state := Some UpdateItem_key; data := data (session_of w uid) |}.
Proof.
  intros Ha.
  rewrite (feed_callback config K me uid _ "update_item" w (fun uid _ => update_item_start uid)
             Ha eq_refl).
  2: { by destruct (state (session_of w uid)) as [[]|]. }
  unfold update_item_start. coro. eexists. split; [reflexivity|]. cbn [db]. split; [done|].
  by rewrite !session_of_mk.
Qed.

Lemma step_update_key K config me w uid key it :
  is_admin (db w) uid = true -> is_trigger K me (Some key) = false ->
  state (session_of w uid) = Some UpdateItem_key ->
  get_item_by_key (db w) key = Ok (Some it) ->
  exists w', feed_update K config me (message (Some uid) (Some key)) w = (Ok tt, w')
    /\ db w' = db w
    /\ state (session_of w' uid)
       = Some (if truthy (data (session_of w uid) !! "preset_field")
               then UpdateItem_value else UpdateItem_field)
    /\ (truthy (data (session_of w uid) !! "preset_field") = true ->
        data (session_of w' uid) !! "field" = data (session_of w uid) !! "preset_field").
Proof.
  intros Ha Ht Hs Hkey.
  rewrite (feed_flow_step K config me uid _ (Some key) w Ha Hs Ht). cbn [flow_step].
  unfold update_item_key. coro. rewrite Hkey. coro.
  destruct (truthy (data (session_of w uid) !! "preset_field")) eqn:E; coro;
    (eexists; split; [reflexivity|]); cbn [db]; (split; [done|]);
    repeat (progress (rewrite ?session_of_mk; cbn [state data no_session]));
    (split; [done|]); [|done].
  intros _.
  destruct (data (session_of w uid) !! "preset_field") as [p|] eqn:Ep; [|done].
  cbn [default]. apply lookup_union_Some_l. by simplify_map_eq.
Qed.



(** ** The pages of a listing *)

Lemma length_insert_by {A} (le : A -> A -> bool) x l :
  length (Sqlite.insert_by le x l) = S (length l).
Proof. induction l as [|y l IH]; cbn; [done|]. destruct (le x y); cbn; by rewrite ?IH. Qed.

Lemma length_order_by {A} (le : A -> A -> bool) l :
  length (Sqlite.order_by le l) = length l.
Proof.
  unfold Sqlite.order_by. induction l as [|x l IH]; cbn; [done|].
  by rewrite length_insert_by, IH.
Qed.

(** Consecutive chunks of [n] rows make the list again. *)
Lemma chunks_concat {A} (l : list A) (n : Z) (first pages : Z) :
  0 < n -> 0 <= pages -> 0 <= first -> Z.of_nat (length l) <= n * (first + pages) ->
  List.concat (List.map (fun p => Sqlite.limit_offset n (p * n) l) (seqZ first pages))
  = skipn (Z.to_nat (first * n)) l.
Proof.
  intros Hn Hp. revert first.
  induction (Z.to_nat pages) as [|k IH] eqn:Ek in pages, Hp |- *; intros first Hf Hlen.
  - assert (pages = 0) as -> by lia. rewrite seqZ_nil by lia. cbn.
    rewrite skipn_all2; [done|]. nia.
  - rewrite seqZ_cons by lia. cbn [List.map List.concat].
    rewrite (IH (Z.pred pages)); [|lia|lia|lia|nia].
    unfold Sqlite.limit_offset.
    replace (Z.to_nat (Z.succ first * n)) with (Z.to_nat n + Z.to_nat (first * n))%nat by nia.
    rewrite <- skipn_skipn. apply firstn_skipn.
Qed.

(** ** Rows that are refused *)

Lemma add_warehouse_found now nm d :
  get_warehouse_by_name (snd (add_warehouse now nm d)) nm <> None.
Proof.
  unfold add_warehouse. destruct (get_warehouse_by_name d nm) eqn:E; cbn [snd].
  - by rewrite E.
  - unfold get_warehouse_by_name. cbn [warehouses].
    destruct (find_last_resort (fun w => String.eqb (wh_name w) nm) (warehouses d)
                {| wh_id := seq_warehouses d + 1; wh_name := nm; wh_created_at := now |})
      as [y ->]; [apply String.eqb_refl|done].
Qed.

(** ** Numbers in callback data *)

Lemma digit_char_code d : 0 <= d <= 9 -> Py.code (digit_char d) = 48 + d.
Proof.
  intros H. unfold Py.code, digit_char. rewrite nat_ascii_embedding; lia.
Qed.

Lemma digit_char_digit d : 0 <= d <= 9 -> Py.is_digit (digit_char d) = true.
Proof.
  intros H. unfold Py.is_digit. rewrite digit_char_code by done.
  apply andb_true_iff. split; apply Z.leb_le; lia.
Qed.

Lemma digits_go_all fuel n acc :
  0 <= n -> Py.all Py.is_digit acc = true -> Py.all Py.is_digit (digits_go fuel n acc) = true.
Proof.
  revert n acc. induction fuel as [|fuel IH]; intros n acc Hn Hacc; [done|].
  cbn [digits_go].
  assert (Py.all Py.is_digit (String (digit_char (n mod 10)) acc) = true) as H.
  { cbn [Py.all]. rewrite digit_char_digit, Hacc; [done|].
    pose proof (Z.mod_pos_bound n 10). lia. }
  destruct (n <? 10); [done|]. apply IH; [|done]. apply Z.div_pos; lia.
Qed.

Lemma digits_go_nonempty fuel n acc : digits_go (S fuel) n acc <> "".
Proof.
  revert n acc. induction fuel as [|fuel IH]; intros n acc; cbn [digits_go].
  - by destruct (n <? 10).
  - destruct (n <? 10); [done|]. apply IH.
Qed.

Lemma digits_go_value fuel n acc :
  0 <= n < 2 ^ Z.of_nat fuel ->
  Py.int_acc 0 (digits_go fuel n acc) = Py.int_acc n acc.
Proof.
  revert n acc. induction fuel as [|fuel IH]; intros n acc Hn.
  - cbn in Hn. assert (n = 0) as -> by lia. done.
  - cbn [digits_go]. destruct (Z.ltb_spec n 10) as [Hlt|Hge].
    + cbn [Py.int_acc]. rewrite Z.mod_small by lia. rewrite digit_char_code by lia.
      f_equal. lia.
    + rewrite IH.
      * cbn [Py.int_acc]. rewrite digit_char_code by (pose proof (Z.mod_pos_bound n 10); lia).
        f_equal. pose proof (Z.div_mod n 10). lia.
      * rewrite Nat2Z.inj_succ, Z.pow_succ_r in Hn by lia.
        split; [apply Z.div_pos; lia|].
        apply Z.div_lt_upper_bound; lia.
Qed.

Lemma digits_value n : 0 <= n -> Py.int (digits n) = n.
Proof.
  intros Hn. unfold Py.int, digits. rewrite digits_go_value; [done|].
  split; [done|]. rewrite Nat2Z.inj_succ, Z2Nat.id by apply Z.log2_nonneg.
  destruct (Z.eq_dec n 0) as [->|]; [done|].
  apply Z.log2_spec. lia.
Qed.

Lemma digits_all n : 0 <= n -> Py.all Py.is_digit (digits n) = true.
Proof. intros. by apply digits_go_all. Qed.

Lemma digits_nonempty n : digits n <> "".
Proof. apply digits_go_nonempty. Qed.

Lemma int_digits_all b s :
  Py.all Py.is_digit s = true -> Py.int_digits b s = b || negb (String.eqb s "").
Proof.
  revert b. induction s as [|c s IH]; intros b; cbn [Py.all Py.int_digits].
  - intros _. by rewrite orb_false_r.
  - rewrite andb_true_iff. intros [Hc Hs]. rewrite Hc, IH by done. cbn.
    by rewrite orb_true_r.
Qed.

Lemma is_digit_code c : Py.is_digit c = true -> 48 <= Py.code c <= 57.
Proof. unfold Py.is_digit. rewrite andb_true_iff, !Z.leb_le. lia. Qed.

Lemma code_eqb c (a : ascii) : Py.code c <> Py.code a -> Ascii.eqb c a = false.
Proof. intros H. apply Ascii.eqb_neq. by intros ->. Qed.

Lemma format_int_chars z :
  Py.all (fun c => Py.is_digit c || (Py.code c =? 45)) (format_int z) = true.
Proof.
  unfold format_int. destruct (Z.ltb_spec z 0).
  - cbn [Py.all]. change (Py.code "-" =? 45) with true. rewrite orb_true_r. cbn [andb].
    eapply all_impl; [|apply digits_all; lia]. by intros c ->.
  - eapply all_impl; [|by apply digits_all]. by intros c ->.
Qed.

(** Reading back what was written. *)
Lemma parse_int_format_int z : Py.parse_int (format_int z) = Some z.
Proof.
  unfold Py.parse_int.
  rewrite strip_nonspace.
  2: { eapply all_impl; [|apply format_int_chars]. intros c Hc.
       apply negb_true_iff. unfold Py.isspace.
       apply orb_true_iff in Hc as [Hc%is_digit_code|Hc%Z.eqb_eq];
         apply orb_false_iff; split; apply andb_false_iff; right; apply Z.leb_gt; lia. }
  assert (forall n, 0 <= n ->
            Py.int_digits false (digits n) = true
            /\ Py.int (Py.remove (ascii_of_nat 95) (digits n)) = n) as Hbody.
  { intros n Hn. rewrite (int_digits_all false) by by apply digits_all.
    assert (String.eqb (digits n) "" = false) as -> by apply String.eqb_neq, digits_nonempty.
    split; [done|]. rewrite remove_absent; [by apply digits_value|].
    eapply all_impl; [|by apply digits_all]. intros c Hc%is_digit_code.
    apply negb_true_iff, code_eqb. unfold Py.code in *.
    rewrite nat_ascii_embedding by lia. lia. }
  unfold format_int. destruct (Z.ltb_spec z 0) as [Hneg|Hpos].
  - change (Py.code "-" =? 45) with true. cbv iota.
    destruct (Hbody (- z) ltac:(lia)) as [-> ->]. f_equal. lia.
  - pose proof (digits_all z Hpos) as Hall. pose proof (digits_nonempty z) as Hne.
    destruct (Hbody z Hpos) as [H1 H2].
    destruct (digits z) as [|c s] eqn:E; [done|].
    assert (Py.is_digit c = true) as Hc.
    { cbn in Hall. by apply andb_true_iff in Hall as [? _]. }
    apply is_digit_code in Hc.
    destruct (Z.eqb_spec (Py.code c) 45); [lia|]. destruct (Z.eqb_spec (Py.code c) 43); [lia|].
    by rewrite H1, H2.
Qed.

Lemma format_int_no_colon z : no_colon (format_int z) = true.
Proof.
  unfold no_colon. eapply all_impl; [|apply format_int_chars]. intros c Hc.
  apply negb_true_iff, code_eqb. change (Py.code ":") with 58.
  apply orb_true_iff in Hc as [Hc%is_digit_code|Hc%Z.eqb_eq]; lia.
Qed.

(** ** Texts with a known beginning *)

Lemma rev_app_append a b acc :
  String.rev_app (a +:+ b) acc = String.rev_app b (String.rev_app a acc).
Proof.
  revert acc. induction a as [|c a IH]; intros acc; [done|].
  rewrite append_cons. cbn [String.rev_app]. apply IH.
Qed.

Lemma rev_app_head (p : ascii -> bool) s acc :
  Py.all p s = true -> s <> "" ->
  exists c r, String.rev_app s acc = String c r /\ p c = true.
Proof.
  revert acc. induction s as [|a s IH]; intros acc Hall Hne; [done|].
  cbn [Py.all] in Hall. apply andb_true_iff in Hall as [Ha Hs].
  cbn [String.rev_app]. destruct s as [|b s]; [by eexists _, _|].
  by apply IH.
Qed.

Lemma format_int_nonempty z : format_int z <> "".
Proof.
  unfold format_int. destruct (z <? 0); [done|apply digits_nonempty].
Qed.

(** A number does not end with [:skip]. *)
Lemma endswith_skip_number pre z : Py.endswith ":skip" (pre +:+ format_int z) = false.
Proof.
  unfold Py.endswith. change (String.rev ":skip") with "piks:".
  unfold String.rev. rewrite rev_app_append.
  destruct (rev_app_head _ (format_int z) (String.rev_app pre "")
              (format_int_chars z) (format_int_nonempty z)) as (c & r & -> & Hc).
  cbn [Py.startswith]. apply andb_false_iff. left. apply code_eqb.
  change (Py.code "p") with 112.
  apply orb_true_iff in Hc as [Hc%is_digit_code|Hc%Z.eqb_eq]; lia.
Qed.

Lemma split_go_plain s cur rest :
  no_colon s = true ->
  Py.split_go ":" cur (s +:+ rest) = Py.split_go ":" (String.rev_app s cur) rest.
Proof.
  revert cur. induction s as [|c s IH]; intros cur; [done|].
  rewrite append_cons. cbn [no_colon Py.all Py.split_go String.rev_app].
  rewrite andb_true_iff. intros [Hc Hs]. apply negb_true_iff in Hc. rewrite Hc.
  by apply IH.
Qed.

Lemma split_part a rest :
  no_colon a = true -> Py.split ":" (a +:+ ":" +:+ rest) = a :: Py.split ":" rest.
Proof.
  intros Ha. unfold Py.split. rewrite split_go_plain by done.
  rewrite append_cons, append_nil. cbn [Py.split_go]. rewrite Ascii.eqb_refl.
  by rewrite rev_rev_app.
Qed.

Lemma split_last a : no_colon a = true -> Py.split ":" a = [a].
Proof.
  intros Ha. unfold Py.split. rewrite <- (append_empty a) at 1.
  rewrite split_go_plain by done. cbn [Py.split_go]. by rewrite rev_rev_app.
Qed.

(** ** The handlers of the buttons *)

Ltac no_value_error :=
  repeat (case_match; simplify_eq; coro); cbn [fst]; discriminate.

Lemma list_items_callback_reads p w :
  fst (list_items_callback ("list_items:" +:+ format_int p) w) <> Raise ValueError.
Proof.
  unfold list_items_callback, second_field.
  change ("list_items:" +:+ format_int p) with ("list_items" +:+ ":" +:+ format_int p).
  rewrite split_part, split_last, parse_int_format_int by (done || apply format_int_no_colon).
  unfold render_items_page. coro. no_value_error.
Qed.

Lemma add_item_prefill_reads uid z w :
  fst (add_item_prefill uid ("prefill_item:" +:+ format_int z) w) <> Raise ValueError.
Proof.
  unfold add_item_prefill. rewrite endswith_skip_number.
  change (Py.after_first ":" ("prefill_item:" +:+ format_int z)) with (Some (format_int z)).
  cbn [or_else]. rewrite parse_int_format_int. coro.
  unfold get_item_by_id. no_value_error.
Qed.

Lemma add_item_prefill_skip uid w :
  fst (add_item_prefill uid "prefill_item:skip" w) <> Raise ValueError.
Proof. vm_compute. discriminate. Qed.

Lemma add_item_warehouse_select_reads uid z w :
  fst (add_item_warehouse_select uid ("warehouse_select:" +:+ format_int z) w)
  <> Raise ValueError.
Proof.
  unfold add_item_warehouse_select.
  change (Py.after_first ":" ("warehouse_select:" +:+ format_int z)) with (Some (format_int z)).
  cbn [or_else]. cbv zeta. rewrite parse_int_format_int. coro.
  unfold get_warehouse_by_id. no_value_error.
Qed.

Lemma add_item_warehouse_select_skip uid w :
  fst (add_item_warehouse_select uid "warehouse_select:0" w) <> Raise ValueError.
Proof.
  change "warehouse_select:0" with ("warehouse_select:" +:+ format_int 0).
  apply add_item_warehouse_select_reads.
Qed.

Lemma warehouse_filter_reads z sort p w :
  no_colon sort = true ->
  fst (warehouse_filter
         ("warehouse_filter:" +:+ format_int z +:+ ":" +:+ sort +:+ ":" +:+ format_int p) w)
  <> Raise ValueError.
Proof.
  intros Hsort. unfold warehouse_filter.
  change ("warehouse_filter:" +:+ format_int z +:+ ":" +:+ sort +:+ ":" +:+ format_int p)
    with ("warehouse_filter" +:+ ":" +:+ format_int z +:+ ":" +:+ sort +:+ ":" +:+ format_int p).
  rewrite !split_part, split_last by (done || apply format_int_no_colon).
  unfold int_of. rewrite !parse_int_format_int.
  unfold render_items_by_warehouse, get_warehouse_by_id. coro. no_value_error.
Qed.

Lemma update_item_field_cb_reads uid f w :
  no_colon f = true ->
  fst (update_item_field_cb uid ("update_field:" +:+ f) w) <> Raise ValueError.
Proof.
  intros Hf. unfold update_item_field_cb.
  change ("update_field:" +:+ f) with ("update_field" +:+ ":" +:+ f).
  rewrite split_part, split_last by done. coro. no_value_error.
Qed.

(** A button whose data does not begin like those of the two buttons that
    belong to a step is routed alike in every state. *)
Lemma route_any_state config st d :
  Py.startswith "warehouse_select:" d = false ->
  Py.startswith "update_field:" d = false ->
  route (admin_callbacks config) st (Some d) = route (admin_callbacks config) None (Some d).
Proof.
  intros H1 H2. unfold route, admin_callbacks. cbn [List.find fst data_startswith].
  by rewrite H1, H2, !andb_false_r.
Qed.

Ltac static_handler :=
  open_handlers; try open_handlers; coro; open_store; no_value_error.

Ltac static_button st :=
  eexists; split;
  [ first [ (rewrite route_any_state by reflexivity; reflexivity)
          | reflexivity ]
  | intros; cbn beta ].

Lemma startswith_prefix p d : Py.startswith p d = true -> exists s, d = p +:+ s.
Proof.
  revert d. induction p as [|a p IH]; intros d; [by exists d|].
  destruct d as [|b d]; [done|]. cbn [Py.startswith].
  rewrite andb_true_iff. intros [Hab Hp]. apply Ascii.eqb_eq in Hab as ->.
  destruct (IH d Hp) as [s ->]. by exists s.
Qed.

(** ** Search *)

Lemma like_any pat s :
  Sqlite.like pat s = true -> Sqlite.like (String "%" pat) s = true.
Proof.
  intros H. cbn [Sqlite.like]. change (Py.code "%" =? 37) with true. cbv iota.
  destruct s; by rewrite H.
Qed.

Lemma like_any_skip pat c s :
  Sqlite.like (String "%" pat) s = true -> Sqlite.like (String "%" pat) (String c s) = true.
Proof.
  cbn [Sqlite.like]. change (Py.code "%" =? 37) with true. cbv iota.
  intros H. apply orb_true_iff. right. exact H.
Qed.

Lemma like_self s : Sqlite.like (s +:+ "%") s = true.
Proof.
  induction s as [|c s IH]; [done|]. rewrite append_cons.
  destruct (Py.code c =? 37) eqn:E37.
  - apply Z.eqb_eq in E37.
    assert (c = "%"%char) as ->.
    { apply (f_equal Z.to_nat) in E37. unfold Py.code in E37. rewrite Nat2Z.id in E37.
      rewrite <- (ascii_nat_embedding c), E37. done. }
    apply like_any_skip. by apply like_any.
  - cbn [Sqlite.like]. rewrite E37.
    destruct (Py.code c =? 95) eqn:E95.
    + apply Z.eqb_eq in E95. destruct (Z.leb_spec 192 (Py.code c)); [lia|]. exact IH.
    + by rewrite Ascii.eqb_refl, IH.
Qed.

Lemma like_contains s : Sqlite.like ("%" +:+ s +:+ "%") s = true.
Proof. apply like_any, like_self. Qed.

Lemma In_insert_by {A} (le : A -> A -> bool) x y l :
  In y (Sqlite.insert_by le x l) <-> y = x \/ In y l.
Proof.
  induction l as [|z l IH]; cbn; [intuition congruence|].
  destruct (le x z); cbn; [intuition congruence|]. rewrite IH. intuition congruence.
Qed.

Lemma In_order_by {A} (le : A -> A -> bool) y l :
  In y (Sqlite.order_by le l) <-> In y l.
Proof.
  unfold Sqlite.order_by. induction l as [|x l IH]; cbn; [done|].
  rewrite In_insert_by, IH. intuition congruence.
Qed.

(** ** Keys *)

Lemma find_by_id_elem (l : list item) it :
  NoDup (it_id <$> l) -> In it l -> List.find (fun x => it_id x =? it_id it) l = Some it.
Proof.
  induction l as [|a l IH]; [done|]. cbn [fmap list_fmap List.find].
  intros [Ha Hl]%NoDup_cons [->|Hin].
  - by rewrite Z.eqb_refl.
  - destruct (Z.eqb_spec (it_id a) (it_id it)) as [E|_]; [|by apply IH].
    exfalso. apply Ha. rewrite E. apply list_elem_of_fmap. exists it.
    split; [done|]. by apply list_elem_of_In.
Qed.


(** * The claims *)



(** C8.  [delete_item] removes the item and every movement that refers to
    it, and nothing else; deleting a warehouse row leaves every item as it
    was, its warehouse name included, so that the reference dangles. *)
Theorem delete_item_cascades_warehouse_does_not (d : Database) (item_id warehouse_id : Z) :
  Sqlite.int64 item_id = true ->
  (exists d', delete_item item_id d = (Ok (has_item d item_id), d')
     /\ has_item d' item_id = false
     /\ (forall m, m ∈ movements d' -> mv_item_id m <> item_id)
     /\ (forall m, m ∈ movements d -> mv_item_id m <> item_id -> m ∈ movements d')
     /\ (forall it, it ∈ items d -> it_id it <> item_id -> it ∈ items d')
     /\ (forall it, it ∈ items d' -> it ∈ items d)
     /\ (forall m, m ∈ movements d' -> m ∈ movements d))
  /\ (let d'' := snd (delete_warehouse warehouse_id d) in
      items d'' = items d
      /\ (forall w, w ∈ warehouses d'' -> wh_id w <> warehouse_id)
      /\ (forall n it, it ∈ items d -> it_warehouse it = Some n ->
            it ∈ items d'' /\ it_warehouse it = Some n)).
Proof.
  intros H64. split.
  - destruct (delete_item_spec d item_id H64) as (d' & E & Hi & Hm & _).
    exists d'. split; [exact E|]. rewrite Hm, Hi. split.
    { unfold has_item. rewrite Hi. apply existsb_filter_out.
      intros it Hit. by apply Z.eqb_neq. }
    split. { intros m Hin. by apply list_elem_of_filter in Hin as [? _]. }
    split. { intros m Hin Hne. by apply list_elem_of_filter. }
    split. { intros it Hin Hne. by apply list_elem_of_filter. }
    split. { intros it Hin. by apply list_elem_of_filter in Hin as [_ ?]. }
    intros m Hin. by apply list_elem_of_filter in Hin as [_ ?].
  - simpl. split; [done|]. split.
    + intros w Hin. by apply list_elem_of_filter in Hin as [? _].
    + done.
Qed.

Lemma delete_item_cascades_witness :
  Sqlite.int64 1 = true
  /\ has_item (snd (delete_item 1 (db stocked))) 1 = false
  /\ items (snd (delete_warehouse 1 (db stocked))) = items (db stocked).
Proof.
  split; [reflexivity|].
  destruct (delete_item_cascades_warehouse_does_not (db stocked) 1 1 eq_refl)
    as [(d' & E & H & _) (Hi & _)].
  split; [|exact Hi]. rewrite E. exact H.
Defined.

(** On the sample inventory: the one movement goes with its item, and the
    item keeps the name of the warehouse that was deleted. *)
Example delete_item_on_sample :
  List.map mv_item_id (movements (db stocked)) = [1]
  /\ movements (snd (delete_item 1 (db stocked))) = []
  /\ List.map it_warehouse (items (snd (delete_warehouse 1 (db stocked)))) = [Some "Main"]
  /\ warehouses (snd (delete_warehouse 1 (db stocked))) = [].
Proof. vm_compute. repeat split. Qed.

(** C10.  Removing an identity that is in the admins table deletes its row
    and returns true, and [is_admin] is false for it afterwards.  The
    RemoveAdmin step asks one thing of the caller, to be a super-admin, and
    nothing of the identity removed: it may be a super-admin, it may be the
    caller.  A configured super-admin is back in the table after [main]
    has run [ensure_admins] at the next start. *)
Theorem remove_admin_has_no_guard (config : Config) (w : world) (uid tg_id : Z)
    (text : string) :
  is_super_admin config uid = true ->
  Py.isdigit (Py.strip text) = true ->
  Py.int (Py.strip text) = tg_id ->
  Sqlite.int64 tg_id = true ->
  is_admin (db w) tg_id = true ->
  exists w',
    admin_remove_tg_id config uid (Some text) w = (Ok tt, w')
    /\ remove_admin tg_id (db w) = (Ok true, db w')
    /\ is_admin (db w') tg_id = false
    /\ session_of w' uid = no_session
    /\ sent w' = sent w ++ [answer_msg [Str "Админ удален."] (Some main_menu_kb)]
    /\ (tg_id ∈ super_admins config ->
        (forall s, s ∈ super_admins config -> Sqlite.int64 s = true) ->
        exists w'', startup config w' = (Ok tt, w'') /\ is_admin (db w'') tg_id = true).
Proof.
  intros Hs Hd Hi H64 Ha. unfold admin_remove_tg_id. rewrite Hs. coro.
  rewrite Hd, Hi. coro.
  destruct (remove_admin_spec (db w) tg_id H64) as (d' & E & Hgone & _).
  rewrite E, Ha. coro. eexists. split; [reflexivity|]. cbn [db storage sent].
  split; [done|]. split; [done|]. split.
  { unfold session_of. cbn [storage]. by rewrite lookup_insert_eq. }
  split; [done|].
  intros Hin H64s. unfold startup. coro.
  destruct (ensure_admins_spec (clock w) (elements (super_admins config)) d')
    as (d'' & -> & Hall & _).
  { apply Forall_forall. intros s Hs'. apply H64s. by apply elem_of_elements. }
  eexists. split; [reflexivity|]. cbn [db]. apply Hall. by apply elem_of_elements.
Qed.

(** The one super-admin removes their own identity. *)
Lemma remove_admin_has_no_guard_witness :
  is_super_admin sample_config 1 = true
  /\ is_admin (db started) 1 = true
  /\ exists w', admin_remove_tg_id sample_config 1 (Some "1") started = (Ok tt, w')
               /\ is_admin (db w') 1 = false.
Proof.
  split; [reflexivity|]. split; [reflexivity|].
  destruct (remove_admin_has_no_guard sample_config started 1 1 "1"
              eq_refl eq_refl eq_refl eq_refl eq_refl) as (w' & E & _ & H & _).
  exists w'. by split.
Defined.




(** C7.  An identity that is not in the admins table gets the fixed denial,
    as a message for a message and as an alert for a button, whatever it
    sent; no handler of the admin router runs, and neither the sessions nor
    the store change. *)
Theorem non_admin_is_denied (K : Constants) (config : Config) (me : option string)
    (w : world) (uid : Z) (payload : option string) :
  is_admin (db w) uid = false ->
  feed_update K config me (message (Some uid) payload) w
  = (Ok tt, with_sent w (sent w ++ [answer_msg denied_text None]))
  /\ feed_update K config me (callback_query (Some uid) payload) w
     = (Ok tt, with_sent w (sent w ++ [callback_answer (Some "⛔ Доступ закрыт") true])).
Proof.
  intros Hna. split.
  - unfold feed_update, IsAdmin. coro. rewrite Hna. coro.
    unfold public_message. coro.
    destruct (is_command me "start" payload);
      unfold cmd_start, public_fallback; coro; rewrite Hna; reflexivity.
  - unfold feed_update, IsAdmin. coro. rewrite Hna. coro.
    unfold public_callback. coro. rewrite Hna. reflexivity.
Qed.

(** An identity nobody added, in the middle of the admin's dialogue. *)
Lemma non_admin_is_denied_witness :
  is_admin (db stocked) 7 = false
  /\ feed_update sample_captions sample_config None (message (Some 7) (Some "/cancel")) stocked
     = (Ok tt, with_sent stocked (sent stocked ++ [answer_msg denied_text None])).
Proof.
  split; [reflexivity|].
  apply (non_admin_is_denied sample_captions sample_config None stocked 7 (Some "/cancel")).
  reflexivity.
Defined.



(** C2 (as amended).  In the AddAdmin and RemoveAdmin flows the
    super-admin check is made again at every step: whatever an admin who is
    not a super-admin sends in one of their states, the store is not
    changed, and a text that reaches the step (it is no command, cancel
    word or menu caption) is answered by the denial and clears the
    session.  (The AddWarehouse flow has no such check.) *)
Theorem super_admin_checked_at_every_admin_step (K : Constants) (config : Config)
    (me : option string) (w : world) (uid : Z) (st : State) (text : option string) :
  is_admin (db w) uid = true ->
  is_super_admin config uid = false ->
  state (session_of w uid) = Some st ->
  admin_flow_step st = true ->
  exists w',
    feed_update K config me (message (Some uid) text) w = (Ok tt, w')
    /\ db w' = db w
    /\ (is_trigger K me text = false ->
        w' = cleared_with w uid (answer_msg no_rights_text None)).
Proof.
  intros Ha Hs Hst Hflow.
  unfold feed_update, IsAdmin. coro. rewrite Ha. coro. rewrite Hst.
  destruct (is_trigger K me text) eqn:Ht.
  - match goal with
    | |- exists w', ?X = _ /\ _ /\ _ =>
        cut (exists w', X = (Ok tt, w') /\ db w' = db w);
        [ intros (w' & ? & ?); exists w'; split; [done|split; [done|congruence]] | ]
    end.
    unfold route, admin_messages, msg_filter, msg_handler.
    destruct st; try discriminate Hflow;
      repeat route_head by_trigger_handler;
      cbn [snd]; unfold admin_add_tg_id, admin_add_name, admin_remove_tg_id;
      rewrite Hs; coro; (eexists; split; reflexivity).
  - rewrite (route_flow_step K config me st text Ht).
    destruct st; try discriminate Hflow; cbn [flow_step];
      unfold admin_add_tg_id, admin_add_name, admin_remove_tg_id; rewrite Hs; coro;
      (eexists; split; [reflexivity|split; [reflexivity|intros _; reflexivity]]).
Qed.

(** The privilege is gone in the middle of the AddAdmin dialogue. *)
Lemma super_admin_checked_witness :
  is_super_admin config_without_super_admins 1 = false
  /\ state (session_of adding_admin 1) = Some AddAdmin_tg_id
  /\ exists w',
       feed_update sample_captions config_without_super_admins None
         (message (Some 1) (Some "2")) adding_admin = (Ok tt, w')
       /\ db w' = db adding_admin
       /\ w' = cleared_with adding_admin 1 (answer_msg no_rights_text None).
Proof.
  split; [reflexivity|]. split; [reflexivity|].
  destruct (super_admin_checked_at_every_admin_step sample_captions
              config_without_super_admins None adding_admin 1 AddAdmin_tg_id (Some "2")
              eq_refl eq_refl eq_refl eq_refl) as (w' & E & Hd & Hw).
  exists w'. split; [exact E|]. split; [exact Hd|]. apply Hw. reflexivity.
Defined.

(** The claim as it was written fails for AddWarehouse: an admin who is no
    super-admin goes through the flow and the warehouse is added. *)
Lemma any_admin_adds_a_warehouse :
  is_super_admin sample_config 2 = false
  /\ is_admin (db second_admin_naming_warehouse) 2 = true
  /\ state (session_of second_admin_naming_warehouse 2) = Some AddWarehouse_name
  /\ warehouses (db second_admin_naming_warehouse) = []
  /\ let w' := step sample_captions sample_config None second_admin_naming_warehouse
                  (message (Some 2) (Some "Main")) in
     List.map wh_name (warehouses (db w')) = ["Main"]
     /\ last (sent w') = Some (answer_msg [Str "Склад добавлен."] (Some main_menu_kb)).
Proof. vm_compute. repeat split. Qed.



(** * Further properties *)

(** X1.  An update touches the session of its sender only: the record of
    every other user is as it was. *)
Theorem sessions_are_independent K config me (w : world) (u : Update) (other : Z) :
  sender u <> Some other ->
  session_of (step K config me w u) other = session_of w other.
Proof.
  intros Hne. unfold step, session_of.
  destruct (sender u) as [uid|] eqn:Hs.
  - rewrite (feed_update_sessions K config me u uid Hs w other); [done|congruence].
  - destruct u as [from_user text|from_user data']; cbn in Hs; subst from_user; reflexivity.
Qed.

Lemma sessions_are_independent_witness :
  sender (message (Some 2) (Some "/cancel")) <> Some 1
  /\ session_of (step sample_captions sample_config None naming_warehouse
                   (message (Some 2) (Some "/cancel"))) 1
     = session_of naming_warehouse 1.
Proof.
  split; [discriminate|].
  apply (sessions_are_independent sample_captions sample_config None naming_warehouse
           (message (Some 2) (Some "/cancel")) 1).
  discriminate.
Defined.

(** X2.  No button changes the store: whatever callback arrives, from
    whomever, in whatever state, the four tables are as they were. *)
Theorem buttons_never_change_the_store K config me (w : world)
    (from_user : option Z) (data' : option string) :
  db (step K config me w (callback_query from_user data')) = db w.
Proof.
  unfold step. revert w. change (keeps same_store (feed_update K config me (callback_query from_user data'))).
  unfold feed_update.
  apply (keeps_bind _); [keeps_all store_side|]. intros [|]; [|keeps_all store_side].
  apply (keeps_bind _); [keeps_all store_side|]. intros uid.
  apply (keeps_bind _); [keeps_all store_side|]. intros st.
  destruct (route _ st data') as [h|] eqn:E; [|keeps_all store_side].
  apply route_in in E as [f Hin].
  pose proof (admin_callbacks_store config) as Hall.
  rewrite Forall_forall in Hall. apply (Hall (f, h)). by apply list_elem_of_In.
Qed.

(** X3.  A message changes the store only when its sender is at the last
    step of a flow: with no session, or at any other step, the four tables
    are as they were, whatever the text. *)
Theorem store_changes_only_at_a_commit_step K config me (w : world)
    (from_user : option Z) (text : option string) :
  (forall uid st, from_user = Some uid -> state (session_of w uid) = Some st ->
                  commit_step st = false) ->
  db (step K config me w (message from_user text)) = db w.
Proof.
  intros Hst. unfold step, feed_update, IsAdmin.
  destruct from_user as [uid|]; [|reflexivity].
  unfold mbind at 1, coro_bind. cbn [query snd fst].
  destruct (is_admin (db w) uid); [|by apply (ltac:(keeps_all store_side) :
                                          keeps same_store (public_message me (Some uid) text))].
  cbn [id_of]. unfold mbind at 1, coro_bind. cbn [mret coro_ret].
  unfold mbind at 1, coro_bind. cbn [get_state].
  destruct (route _ _ text) as [h|] eqn:E.
  2: by apply (ltac:(keeps_all store_side) :
                 keeps same_store (public_message me (Some uid) text)).
  apply route_hit in E as (f & Hin & Hf).
  pose proof (admin_messages_store K config me) as Hall.
  rewrite Forall_forall in Hall.
  destruct (Hall (f, h) ltac:(by apply list_elem_of_In)) as [Hk|(st & Hc & Hcur)].
  - apply Hk.
  - cbn [fst] in Hcur. apply Hcur in Hf. rewrite (Hst uid st eq_refl Hf) in Hc. done.
Qed.

Lemma store_changes_only_at_a_commit_step_witness :
  (forall uid st, Some 1 = Some uid ->
                  state (session_of adding_admin uid) = Some st -> commit_step st = false)
  /\ db (step sample_captions sample_config None adding_admin (message (Some 1) (Some "2")))
     = db adding_admin.
Proof.
  assert (forall uid st, Some 1 = Some uid ->
            state (session_of adding_admin uid) = Some st -> commit_step st = false) as H.
  { intros uid st [= <-]. vm_compute. by intros [= <-]. }
  split; [exact H|].
  exact (store_changes_only_at_a_commit_step sample_captions sample_config None adding_admin
           (Some 1) (Some "2") H).
Defined.

(** X4.  The admins table changes only by an update of a super-admin:
    after any update of anybody else it is as it was. *)
Theorem admins_change_only_by_a_super_admin K config me (w : world) (u : Update) :
  (forall uid, sender u = Some uid -> is_super_admin config uid = false) ->
  admins (db (step K config me w u)) = admins (db w).
Proof.
  intros Hs. destruct u as [from_user text|from_user data'].
  - unfold step. revert w.
    change (keeps same_admins (feed_update K config me (message from_user text))).
    unfold feed_update.
    apply (keeps_bind _); [keeps_all admins_side|]. intros [|]; [|keeps_all admins_side].
    destruct from_user as [uid|]; [|by intros w'].
    cbn [id_of]. apply keeps_bind_ret.
    apply (keeps_bind _); [keeps_all admins_side|]. intros st.
    destruct (route _ st text) as [h|] eqn:E; [|keeps_all admins_side].
    apply route_in in E as [f Hin].
    pose proof (admin_messages_admins K config me) as Hall.
    rewrite Forall_forall in Hall.
    apply (Hall (f, h) ltac:(by apply list_elem_of_In)). by apply Hs.
  - by rewrite buttons_never_change_the_store.
Qed.

Lemma admins_change_only_by_a_super_admin_witness :
  (forall uid, sender (message (Some 2) (Some "1")) = Some uid ->
               is_super_admin sample_config uid = false)
  /\ admins (db (step sample_captions sample_config None with_second_admin
                   (message (Some 2) (Some "1"))))
     = admins (db with_second_admin).
Proof.
  assert (forall uid, sender (message (Some 2) (Some "1")) = Some uid ->
                      is_super_admin sample_config uid = false) as H.
  { by intros uid [= <-]. }
  split; [exact H|].
  exact (admins_change_only_by_a_super_admin sample_captions sample_config None
           with_second_admin (message (Some 2) (Some "1")) H).
Defined.


(** X6.  Rows of plain fields that are written one per line, with commas
    between the fields, are read back by [parse_bulk_lines] as they were. *)
Theorem parse_bulk_lines_reads_plain_rows (rows : list (list string)) :
  Forall (fun row => plain_row row = true) rows ->
  parse_bulk_lines (String.concat LF (List.map (String.concat ",") rows)) = rows.
Proof.
  intros H. unfold parse_bulk_lines.
  rewrite splitlines_lines.
  2: { apply Forall_map. eapply Forall_impl; [exact H|]. intros row Hrow. cbn.
       unfold plain_row in Hrow. apply andb_true_iff in Hrow as [Hf Hne].
       split; [by apply plain_row_chars|].
       intros E. rewrite E in Hne. done. }
  induction H as [|row rows Hrow _ IH]; [done|].
  cbn [List.map flat_map]. rewrite IH.
  unfold plain_row in Hrow. apply andb_true_iff in Hrow as [Hf Hne].
  rewrite (strip_plain_row row Hf).
  destruct (String.concat "," row) as [|c s] eqn:E; [done|].
  unfold Csv.reader. rewrite <- E, run_plain_fields; [done| |done].
  intros ->. done.
Qed.

Lemma parse_bulk_lines_reads_plain_rows_witness :
  parse_bulk_lines
    (String.concat LF (List.map (String.concat ",")
       [["A-1"; "Болт М8"; "10.5"]; ["B-2"; "Гайка"; "3"; "шт"; ""; "Основной"; "1"]]))
  = [["A-1"; "Болт М8"; "10.5"]; ["B-2"; "Гайка"; "3"; "шт"; ""; "Основной"; "1"]].
Proof.
  apply parse_bulk_lines_reads_plain_rows.
  repeat constructor.
Defined.

(** X7.  A number may be written with a comma or a dot and with blanks
    anywhere: [parse_number] reads the same value. *)
Theorem parse_number_ignores_spelling (s : string) :
  parse_number (Py.replace "," "." s) = parse_number s
  /\ parse_number (Py.remove " " s) = parse_number s
  /\ parse_number (Py.strip s) = parse_number s.
Proof.
  repeat split.
  - unfold parse_number, Py.strip.
    rewrite (lstrip_replace "," "." s), (rstrip_replace "," "."),
      (remove_replace " " "," "."), replace_replace; done.
  - unfold parse_number, Py.strip. change (ascii_of_nat 32) with " "%char.
    by rewrite (lstrip_remove " "), (rstrip_remove " "), remove_remove.
  - unfold parse_number. by rewrite strip_strip.
Qed.

(** X8.  The constraints of the schema hold all along the bot's life:
    whatever updates arrive after the start, from whomever, no id, SKU,
    admin identity or warehouse name is stored twice, no key is above its
    counter, no quantity is a NaN and every movement refers to an item
    that exists. *)
Theorem schema_constraints_always_hold K config me (w : world) (us : list Update) :
  store_ok (db w) ->
  store_ok (db (run K config me (snd (startup config w)) us)).
Proof.
  intros H.
  assert (store_ok (db (snd (startup config w)))) as H0.
  { unfold startup, exec_r.
    pose proof (ensure_admins_ok (clock w) (elements (super_admins config)) (db w) H) as H'.
    by destruct (ensure_admins _ _ _). }
  revert H0. generalize (snd (startup config w)). clear.
  induction us as [|u us IH]; intros w H; [done|].
  cbn [run fold_left]. apply IH. by apply feed_update_constraints.
Qed.

Lemma schema_constraints_always_hold_witness :
  store_ok (db (run sample_captions sample_config (Some "warehouse_bot")
                    (snd (startup sample_config new_world))
                    [message (Some 1) (Some "📥 Массовая заливка");
                     message (Some 1) (Some "A-1,Widget,10,,,Main")])).
Proof.
  apply schema_constraints_always_hold. vm_compute. repeat split; constructor.
Defined.

(** X9.  The last step of SetQty or of Adjust on an item that was deleted
    in the meantime: the UPDATE matches no row, the movement breaks the
    foreign key, and the handler ends with IntegrityError.  Nothing is
    stored, nothing is answered and the admin stays in the step. *)
Theorem commit_on_a_deleted_item_fails K config me (w : world) (uid i : Z)
    (st : State) (text : string) :
  is_admin (db w) uid = true ->
  is_trigger K me (Some text) = false ->
  state (session_of w uid) = Some st ->
  data (session_of w uid) !! "item_id" = Some (VInt i) ->
  (st = SetQty_note
   /\ (exists q c, data (session_of w uid) !! "qty" = Some (VFloat q)
                   /\ data (session_of w uid) !! "current_qty" = Some (VFloat c)))
  \/ (st = AdjustItem_note
      /\ exists delta, data (session_of w uid) !! "delta" = Some (VFloat delta)) ->
  Sqlite.int64 i = true -> Sqlite.int64 uid = true ->
  has_item (db w) i = false ->
  feed_update K config me (message (Some uid) (Some text)) w = (Raise IntegrityError, w).
Proof.
  intros Ha Ht Hs Hi Hflow H64 Hu Hh.
  rewrite (feed_flow_step K config me uid st (Some text) w Ha Hs Ht).
  destruct Hflow as [(-> & q & c & Hq & Hc)|(-> & delta & Hd)]; cbn [flow_step].
  - unfold set_qty_note. coro. rewrite Hq, Hc, Hi. coro.
    rewrite (update_item_qty_missing _ _ _ _ H64 Hh). coro.
    rewrite (add_movement_missing _ _ _ _ _ _ H64 Hu Hh). coro.
    by destruct w.
  - unfold adjust_qty_note. coro. rewrite Hi, Hd. coro.
    rewrite (adjust_item_qty_missing _ _ _ _ H64 Hh). coro.
    rewrite (add_movement_missing _ _ _ _ _ _ H64 Hu Hh). coro.
    by destruct w.
Qed.

Lemma commit_on_a_deleted_item_fails_witness :
  feed_update sample_captions sample_config (Some "warehouse_bot")
    (message (Some 1) (Some "recount")) widget_deleted_meanwhile
  = (Raise IntegrityError, widget_deleted_meanwhile).
Proof.
  apply (commit_on_a_deleted_item_fails sample_captions sample_config (Some "warehouse_bot")
           widget_deleted_meanwhile 1 1 AdjustItem_note "recount");
    try (vm_compute; reflexivity).
  right. split; [reflexivity|]. exists 5%float. vm_compute. reflexivity.
Defined.

(** X10.  The last step of the Adjust flow adds the delta to the quantity
    that is stored at that moment, not to the one shown at the key step,
    records the movement and ends the flow. *)
Theorem adjust_adds_delta_to_the_stored_quantity K config me (w : world) (uid i : Z)
    (delta : float) (it0 : item) (text : string) :
  is_admin (db w) uid = true ->
  is_trigger K me (Some text) = false ->
  state (session_of w uid) = Some AdjustItem_note ->
  data (session_of w uid) !! "item_id" = Some (VInt i) ->
  data (session_of w uid) !! "delta" = Some (VFloat delta) ->
  NoDup (it_id <$> items (db w)) ->
  get_item_by_id (db w) i = Ok (Some it0) ->
  Sqlite.int64 uid = true ->
  is_nan delta = false -> is_nan (PrimFloat.add (it_qty it0) delta) = false ->
  exists w',
    feed_update K config me (message (Some uid) (Some text)) w = (Ok tt, w')
    /\ get_item_by_id (db w') i
       = Ok (Some (with_qty (clock w) (PrimFloat.add (it_qty it0) delta) it0))
    /\ movements (db w')
       = movements (db w) ++
         [{| mv_id := seq_movements (db w) + 1; mv_item_id := i; mv_delta := delta;
             mv_note := note_of text; mv_admin_tg_id := uid; mv_created_at := clock w |}]
    /\ session_of w' uid = no_session
    /\ sent w' = sent w ++
         [answer_msg [Str "Остаток обновлен."; NL;
                      Card (with_qty (clock w) (PrimFloat.add (it_qty it0) delta) it0)]
                     (Some main_menu_kb)].
Proof.
  intros Ha Ht Hs Hi Hd Hnd Hget Hu Hnan Hsum.
  rewrite (feed_flow_step K config me uid _ (Some text) w Ha Hs Ht). cbn [flow_step].
  unfold get_item_by_id in Hget. destruct (Sqlite.int64 i) eqn:H64; [|done].
  injection Hget as Hfind.
  pose proof (find_by_id_has _ _ _ Hfind) as Hhas.
  set (f := fun it => with_qty (clock w) (PrimFloat.add (it_qty it) delta) it).
  assert (adjust_item_qty (clock w) i delta (db w)
          = (Ok tt, set_items (db w)
                      (List.map (fun it => if it_id it =? i then f it else it)
                                (items (db w))))) as Eadj.
  { unfold adjust_item_qty. rewrite H64. cbn [negb].
    assert (existsb (fun it => (it_id it =? i)
                               && negb (Sqlite.not_null (PrimFloat.add (it_qty it) delta)))
                    (items (db w)) = false) as ->; [|done].
    apply existsb_false_Forall, Forall_forall. intros it Hit.
    destruct (it_id it =? i) eqn:Ei; [|done]. apply Z.eqb_eq in Ei.
    rewrite (find_by_id_unique _ _ _ Hnd Hfind it Hit Ei).
    unfold Sqlite.not_null. by rewrite Hsum. }
  pose proof (find_by_id_map f (items (db w)) i it0 (fun _ => eq_refl) Hfind) as Hfind'.
  unfold adjust_qty_note. coro. rewrite Hi, Hd. coro. rewrite Eadj. coro.
  rewrite add_movement_spec; [|done|done| |done].
  2: { rewrite has_item_map; [done|]. intros it. unfold f. by destruct (it_id it =? i). }
  coro. unfold get_item_by_id. cbn [items set_items]. rewrite H64, Hfind'. coro.
  eexists. split; [reflexivity|]. cbn [db items movements set_items storage sent].
  rewrite Hfind'. split; [done|]. split; [done|].
  split; [unfold session_of; cbn [storage]; by rewrite lookup_insert_eq|done].
Qed.

Lemma adjust_adds_delta_witness :
  exists w' it',
    feed_update sample_captions sample_config (Some "warehouse_bot")
      (message (Some 1) (Some "recount")) adjusting_widget = (Ok tt, w')
    /\ get_item_by_id (db w') 1 = Ok (Some it') /\ it_qty it' = 12%float
    /\ List.map mv_delta (movements (db w')) = [(-3)%float; 5%float].
Proof.
  destruct (adjust_adds_delta_to_the_stored_quantity sample_captions sample_config
              (Some "warehouse_bot") adjusting_widget 1 1 5%float widget "recount")
    as (w' & E & Hget & Hmv & _); try (vm_compute; reflexivity).
  { vm_compute. apply NoDup_singleton. }
  exists w'. eexists. split; [exact E|]. split; [exact Hget|].
  split; [vm_compute; reflexivity|]. rewrite Hmv. vm_compute. reflexivity.
Defined.

(** X11.  In the Update flow a dash for the location or the warehouse
    does not empty the field: the update is sent without it, succeeds, and
    the item keeps its location and warehouse; only [updated_at] moves. *)
Theorem dash_does_not_clear_the_location K config me (w : world) (uid i : Z)
    (field : string) (it0 : item) (text : string) :
  is_admin (db w) uid = true ->
  is_trigger K me (Some text) = false ->
  state (session_of w uid) = Some UpdateItem_value ->
  data (session_of w uid) !! "field" = Some (VStr field) ->
  data (session_of w uid) !! "item_id" = Some (VInt i) ->
  field = "location" \/ field = "warehouse" ->
  Py.strip text = "-" ->
  get_item_by_id (db w) i = Ok (Some it0) ->
  exists w' it',
    feed_update K config me (message (Some uid) (Some text)) w = (Ok tt, w')
    /\ get_item_by_id (db w') i = Ok (Some it')
    /\ it' = with_qty (clock w) (it_qty it0) it0
    /\ session_of w' uid = no_session
    /\ sent w' = sent w ++ [answer_msg [Str "Данные обновлены."; NL; Card it']
                                       (Some main_menu_kb)].
Proof.
  intros Ha Ht Hs Hf Hi Hfield Hdash Hget.
  rewrite (feed_flow_step K config me uid _ (Some text) w Ha Hs Ht). cbn [flow_step].
  unfold get_item_by_id in Hget. destruct (Sqlite.int64 i) eqn:H64; [|done].
  injection Hget as Hfind.
  pose proof (find_by_id_has _ _ _ Hfind) as Hhas.
  pose proof (find_by_id_map (with_fields (clock w) None None None None None None)
                (items (db w)) i it0 (fun _ => eq_refl) Hfind) as Hfind'.
  unfold update_item_value. coro. rewrite Hf. coro. rewrite Hdash.
  assert (update_item_fields (clock w) i None None None None None None (db w)
          = (Ok true, set_items (db w)
               (List.map (fun it => if it_id it =? i
                                    then with_fields (clock w) None None None None None None it
                                    else it) (items (db w))))) as Eupd.
  { unfold update_item_fields. by rewrite H64, Hhas. }
  destruct Hfield as [-> | ->]; cbn; coro; rewrite Hi; coro;
    unfold update_one_field; cbn; coro; rewrite Eupd; coro;
    unfold get_item_by_id; cbn [items set_items]; rewrite H64, Hfind'; coro;
    (eexists; eexists; split; [reflexivity|]);
    cbn [db items set_items storage sent]; rewrite Hfind';
    (split; [done|]); (split; [by destruct it0|]);
    (split; [unfold session_of; cbn [storage]; by rewrite lookup_insert_eq|done]).
Qed.

Lemma dash_does_not_clear_the_location_witness :
  exists w' it',
    feed_update sample_captions sample_config (Some "warehouse_bot")
      (message (Some 1) (Some " - ")) relocating_widget
    = (Ok tt, w')
    /\ get_item_by_id (db w') 1 = Ok (Some it')
    /\ it_warehouse it' = Some "Main".
Proof.
  destruct (dash_does_not_clear_the_location sample_captions sample_config
              (Some "warehouse_bot") relocating_widget
              1 1 "location" widget " - ")
    as (w' & it' & E & Hget & Hit & _); try (vm_compute; reflexivity).
  { by left. }
  exists w', it'. split; [exact E|]. split; [exact Hget|]. by rewrite Hit.
Defined.



(** X13.  The AddItem dialogue stores what was typed.  An idle admin who
    opens the dialogue, answers its questions and skips the warehouse ends
    with one new item: SKU and name stripped, the quantities as
    [parse_number] reads them, the default unit for a dash or an empty
    unit, no location for a dash.  No movement is recorded for the initial
    quantity, and the session is idle again. *)
Theorem add_item_dialogue_stores_what_was_typed K config me (w : world) (uid : Z)
    (sku name qty unit location min_qty : string) (q m : float) :
  is_admin (db w) uid = true ->
  session_of w uid = no_session ->
  Forall (fun t => is_trigger K me (Some t) = false)
         [sku; name; qty; unit; location; min_qty] ->
  Py.strip sku <> "" -> Py.strip name <> "" ->
  get_item_by_sku (db w) (Py.strip sku) = None ->
  parse_number qty = Some q -> is_nan q = false ->
  parse_number min_qty = Some m -> is_nan m = false ->
  let w' := run K config me w
              [callback_query (Some uid) (Some "add_item");
               message (Some uid) (Some sku);
               message (Some uid) (Some name);
               message (Some uid) (Some qty);
               message (Some uid) (Some unit);
               message (Some uid) (Some location);
               callback_query (Some uid) (Some "warehouse_select:0");
               message (Some uid) (Some min_qty)] in
  items (db w')
  = items (db w) ++
    [{| it_id := seq_items (db w) + 1; it_sku := Py.strip sku; it_name := Py.strip name;
        it_qty := q; it_unit := typed_unit unit; it_location := typed_location location;
        it_warehouse := None; it_min_qty := m; it_updated_at := clock w |}]
  /\ movements (db w') = movements (db w)
  /\ session_of w' uid = no_session.
Proof.
  intros Ha Hidle Htr Hsku Hname Hfree Hq Hqn Hm Hmn.
  repeat match goal with
         | H : Forall _ (_ :: _) |- _ => apply Forall_cons in H as [? H]
         end.
  cbv zeta. unfold run. cbn [fold_left]. unfold step.
  destruct (step_start K config me w uid Ha) as (w1 & -> & Hd1 & Hc1 & Hs1).
  cbn [snd]. rewrite Hidle in Hs1. cbn [data no_session] in Hs1.
  destruct (step_sku K config me w1 uid sku) as (w2 & -> & Hd2 & Hc2 & Hs2);
    try done; try (by rewrite ?Hd1); try (by rewrite Hs1).
  cbn [snd]. rewrite Hs1 in Hs2. cbn [data] in Hs2.
  destruct (step_name K config me w2 uid name) as (w3 & -> & Hd3 & Hc3 & Hs3);
    try done; try (by rewrite ?Hd2, ?Hd1); try (by rewrite Hs2).
  cbn [snd]. rewrite Hs2 in Hs3. cbn [data] in Hs3.
  destruct (step_qty K config me w3 uid qty q) as (w4 & -> & Hd4 & Hc4 & Hs4);
    try done; try (by rewrite ?Hd3, ?Hd2, ?Hd1); try (by rewrite Hs3).
  cbn [snd]. rewrite Hs3 in Hs4. cbn [data] in Hs4.
  destruct (step_unit K config me w4 uid unit) as (w5 & -> & Hd5 & Hc5 & Hs5);
    try done; try (by rewrite ?Hd4, ?Hd3, ?Hd2, ?Hd1); try (by rewrite Hs4).
  cbn [snd]. rewrite Hs4 in Hs5. cbn [data] in Hs5.
  destruct (step_location K config me w5 uid location) as (w6 & -> & Hd6 & Hc6 & Hs6);
    try done; try (by rewrite ?Hd5, ?Hd4, ?Hd3, ?Hd2, ?Hd1); try (by rewrite Hs5).
  cbn [snd]. rewrite Hs5 in Hs6. cbn [data] in Hs6.
  destruct (step_no_warehouse K config me w6 uid) as (w7 & -> & Hd7 & Hc7 & Hs7);
    try done; try (by rewrite ?Hd6, ?Hd5, ?Hd4, ?Hd3, ?Hd2, ?Hd1); try (by rewrite Hs6).
  cbn [snd]. rewrite Hs6 in Hs7. cbn [data] in Hs7.
  destruct (step_min K config me w7 uid min_qty (Py.strip sku) (Py.strip name) q
              (typed_unit unit) (typed_location location) m)
    as (w8 & -> & Hi8 & Hm8 & Hs8);
    try done; try (by rewrite ?Hd7, ?Hd6, ?Hd5, ?Hd4, ?Hd3, ?Hd2, ?Hd1);
    try (by rewrite Hs7);
    try (rewrite Hs7; cbn [data]; unfold typed_location;
         by destruct (String.eqb (Py.strip location) "-")).
  { rewrite Hd7, Hd6, Hd5, Hd4, Hd3, Hd2, Hd1. by apply get_item_by_sku_free. }
  cbn [snd]. rewrite Hi8, Hm8, Hs8, Hd7, Hd6, Hd5, Hd4, Hd3, Hd2, Hd1, Hc7, Hc6, Hc5, Hc4,
    Hc3, Hc2, Hc1.
  done.
Qed.

Lemma add_item_dialogue_witness :
  let w' := sample_run started
              [callback_query (Some 1) (Some "add_item");
               message (Some 1) (Some " B-7 ");
               message (Some 1) (Some "Гайка М8");
               message (Some 1) (Some "12,5");
               message (Some 1) (Some "-");
               message (Some 1) (Some "-");
               callback_query (Some 1) (Some "warehouse_select:0");
               message (Some 1) (Some "2")] in
  List.map it_sku (items (db w')) = ["B-7"]
  /\ List.map it_unit (items (db w')) = ["шт"]
  /\ movements (db w') = [].
Proof.
  destruct (add_item_dialogue_stores_what_was_typed sample_captions sample_config
              (Some "warehouse_bot") started 1 " B-7 " "Гайка М8" "12,5" "-" "-" "2"
              12.5%float 2%float) as (Hi & Hm & _);
    try (vm_compute; reflexivity).
  { repeat constructor. }
  { vm_compute. discriminate. }
  { vm_compute. discriminate. }
  cbv zeta. unfold sample_run. rewrite Hi, Hm. vm_compute. repeat split.
Defined.

(** X14.  No handler ever misses a key of the session dictionary.  In a
    world whose sessions hold what their steps need (as they do when the
    bot starts), whatever updates arrive, no update is ever answered with
    a KeyError, and a TypeError can only come from the last step of the
    Update flow. *)
Theorem no_step_misses_its_session_data K config me (w : world) (us : list Update)
    (u : Update) :
  sessions_ok w ->
  let w' := run K config me w us in
  fst (feed_update K config me u w') <> Raise KeyError
  /\ (fst (feed_update K config me u w') = Raise TypeError ->
      exists uid, sender u = Some uid
                  /\ state (session_of w' uid) = Some UpdateItem_value).
Proof.
  intros Hok w'. pose proof (run_sessions_ok K config me us w Hok) as Hok'.
  fold w' in Hok'.
  destruct (sender u) as [uid|] eqn:Hs.
  - destruct (feed_update_ok K config me u uid w' Hs (Hok' uid)) as (H1 & H2 & _).
    split; [done|]. intros H. exists uid. split; [done|]. by apply H2.
  - destruct u as [from_user text|from_user data']; cbn in Hs; subst from_user;
      split; try discriminate.
Qed.

Lemma no_step_misses_its_session_data_witness :
  fst (feed_update sample_captions sample_config (Some "warehouse_bot")
         (message (Some 1) (Some "-"))
         (sample_run started [message (Some 1) (Some "➖ Изменить остаток")]))
  <> Raise KeyError.
Proof.
  apply (no_step_misses_its_session_data sample_captions sample_config (Some "warehouse_bot")
           started [message (Some 1) (Some "➖ Изменить остаток")]
           (message (Some 1) (Some "-"))).
  intros uid. apply session_ok_none.
Defined.

(** X15.  SKUs are kept apart byte by byte but looked up without regard to
    case.  When the store has an item whose SKU differs from a new one in
    the case of its letters only, the AddItem dialogue refuses the new
    SKU at its first step, while a row of the bulk import with that SKU
    is stored as a new item; from then on every lookup by that SKU still
    finds the old item. *)
Theorem bulk_import_accepts_a_case_variant (uid : Z) (w : world) (idx : Z)
    (row : list string) (r : bulk_report) (old : item) (q m : float) (text : string) :
  get_item_by_sku (db w) (field row 0 "") = Some old ->
  sku_taken (db w) (field row 0 "") = false ->
  field row 0 "" <> "" -> field row 1 "" <> "" ->
  parse_number (field row 2 "") = Some q -> is_nan q = false ->
  parse_number (field row 6 "0") = Some m -> is_nan m = false ->
  Py.strip text = field row 0 "" ->
  add_item_sku uid (Some text) w
  = (Ok tt, with_sent w (sent w ++ [answer_msg [Str "Такой SKU уже есть. Введите другой SKU:"]
                                              None]))
  /\ exists w' new,
       bulk_add_row idx row r w
       = (Ok {| created := created r + 1; skipped := skipped r; errors := errors r |}, w')
       /\ items (db w') = items (db w) ++ [new]
       /\ it_sku new = field row 0 "" /\ it_name new = field row 1 ""
       /\ get_item_by_sku (db w') (field row 0 "") = Some old.
Proof.
  intros Hold Hfree Hsku Hname Hq Hqn Hm Hmn Htext. split.
  - unfold add_item_sku. coro. rewrite Htext.
    destruct (field row 0 "") eqn:E; [done|]. by rewrite Hold.
  - unfold bulk_add_row.
    apply String.eqb_neq in Hsku, Hname. rewrite Hsku, Hname.
    assert (field row 2 "" <> "") as Hqty.
    { intros E. rewrite E in Hq. done. }
    apply String.eqb_neq in Hqty. rewrite Hqty. cbn [orb]. rewrite Hq, Hm.
    assert (forall d0 : Database,
              items d0 = items (db w) ->
              exists d' new,
                add_item (clock w) (field row 0 "") (field row 1 "") q
                  match field row 3 "" with "" => "шт" | u => u end
                  (nonempty (field row 4 "")) (nonempty (field row 5 "")) m d0 = (true, d')
                /\ items d' = items (db w) ++ [new]
                /\ it_sku new = field row 0 "" /\ it_name new = field row 1 ""
                /\ get_item_by_sku d' (field row 0 "") = Some old) as Hadd.
    { intros d0 Hi.
      destruct (add_item_shadowed (clock w) (field row 0 "") (field row 1 "") q
                  match field row 3 "" with "" => "шт" | u => u end
                  (nonempty (field row 4 "")) (nonempty (field row 5 "")) m d0 old)
        as (d' & E & Hi' & Hget); try done.
      - by rewrite (get_item_by_sku_same (db w) d0).
      - by rewrite (sku_taken_same (db w) d0).
      - exists d'. eexists. split; [exact E|]. rewrite Hi', Hi. by repeat split. }
    destruct (nonempty (field row 5 "")) as [wh|]; coro.
    + destruct (get_warehouse_by_name (db w) wh); coro.
      * destruct (Hadd (db w) eq_refl) as (d' & new & -> & ? & ? & ? & ?). coro.
        by eexists _, new.
      * pose proof (add_warehouse_items (clock w) wh (db w)) as Hi.
        destruct (add_warehouse (clock w) wh (db w)) as [okw dw]. cbn [snd] in Hi. coro.
        destruct (Hadd dw Hi) as (d' & new & -> & ? & ? & ? & ?). coro.
        by eexists _, new.
    + destruct (Hadd (db w) eq_refl) as (d' & new & -> & ? & ? & ? & ?). coro.
      by eexists _, new.
Qed.

Lemma bulk_import_accepts_a_case_variant_witness :
  exists w' new,
    bulk_add_row 1 ["a-1"; "Lower"; "1"] {| created := 0; skipped := 0; errors := [] |} stocked
    = (Ok {| created := 1; skipped := 0; errors := [] |}, w')
    /\ items (db w') = items (db stocked) ++ [new]
    /\ it_sku new = "a-1"
    /\ get_item_by_sku (db w') "a-1" = Some widget.
Proof.
  pose proof (bulk_import_accepts_a_case_variant 1 stocked 1 ["a-1"; "Lower"; "1"]
                {| created := 0; skipped := 0; errors := [] |} widget 1%float 0%float " a-1 ")
    as H.
  destruct H as (_ & w' & new & E & Hi & Hs & _ & Hg).
  - vm_compute; reflexivity.
  - vm_compute; reflexivity.
  - vm_compute; discriminate.
  - vm_compute; discriminate.
  - vm_compute; reflexivity.
  - vm_compute; reflexivity.
  - vm_compute; reflexivity.
  - vm_compute; reflexivity.
  - vm_compute; reflexivity.
  - exists w', new. split; [exact E|]. split; [exact Hi|]. split; [exact Hs|exact Hg].
Defined.

(** X16.  The last step of the Update flow on an item that was deleted in
    the meantime: the UPDATE matches no row and reports success, the
    session is cleared, and the card of the item that is not there ends
    the handler with TypeError.  Nothing is stored and nothing is
    answered. *)
Theorem update_of_a_deleted_item_fails K config me (w : world) (uid i : Z)
    (field text : string) :
  is_admin (db w) uid = true ->
  is_trigger K me (Some text) = false ->
  state (session_of w uid) = Some UpdateItem_value ->
  data (session_of w uid) !! "field" = Some (VStr field) ->
  data (session_of w uid) !! "item_id" = Some (VInt i) ->
  field = "name" \/ field = "sku" \/ field = "unit" ->
  Py.strip text <> "" ->
  Sqlite.int64 i = true ->
  has_item (db w) i = false ->
  feed_update K config me (message (Some uid) (Some text)) w
  = (Raise TypeError, with_storage w (<[uid := no_session]> (storage w))).
Proof.
  intros Ha Ht Hs Hf Hi Hfield Hne H64 Hh.
  rewrite (feed_flow_step K config me uid _ (Some text) w Ha Hs Ht). cbn [flow_step].
  assert (List.find (fun it => it_id it =? i) (items (db w)) = None) as Hfind.
  { unfold has_item in Hh. induction (items (db w)) as [|a l IH]; [done|].
    cbn in *. apply orb_false_iff in Hh as [-> ?]. by apply IH. }
  unfold update_item_value. coro. rewrite Hf. coro.
  destruct (Py.strip text) as [|c v] eqn:E; [done|].
  destruct Hfield as [-> | [-> | ->]]; cbn; coro; rewrite Hi; coro;
    unfold update_one_field; cbn; coro;
    unfold update_item_fields; rewrite H64, Hh; cbn [negb]; coro;
    unfold get_item_by_id; rewrite H64, Hfind; coro; by destruct w.
Qed.

Lemma update_of_a_deleted_item_fails_witness :
  feed_update sample_captions sample_config (Some "warehouse_bot")
    (message (Some 1) (Some "Gadget")) renaming_a_deleted_widget
  = (Raise TypeError,
     with_storage renaming_a_deleted_widget
       (<[1 := no_session]> (storage renaming_a_deleted_widget))).
Proof.
  apply (update_of_a_deleted_item_fails sample_captions sample_config (Some "warehouse_bot")
           renaming_a_deleted_widget 1 1 "name" "Gadget");
    try (vm_compute; reflexivity).
  - by left.
  - vm_compute. discriminate.
Defined.

(** X17.  The preset of the set-minimum button outlives its flow.  An admin
    who presses that button, then opens the Update dialogue instead and
    names an item, is not asked which field to change: the dialogue is at
    its last step, with the minimum as the field, because opening a
    dialogue does not empty the session.  From an empty session the same
    dialogue asks for the field. *)
Theorem set_min_preset_outlives_its_flow K config me (w : world) (uid : Z)
    (key : string) (it : item) :
  is_admin (db w) uid = true ->
  is_trigger K me (Some key) = false ->
  get_item_by_key (db w) key = Ok (Some it) ->
  let abandoned := run K config me w
                     [callback_query (Some uid) (Some "set_min");
                      callback_query (Some uid) (Some "update_item");
                      message (Some uid) (Some key)] in
  state (session_of abandoned uid) = Some UpdateItem_value
  /\ data (session_of abandoned uid) !! "field" = Some (VStr "min_qty")
  /\ (data (session_of w uid) = ∅ ->
      state (session_of (run K config me w
                           [callback_query (Some uid) (Some "update_item");
                            message (Some uid) (Some key)]) uid)
      = Some UpdateItem_field).
Proof.
  intros Ha Ht Hkey. cbv zeta. unfold run. cbn [fold_left]. unfold step.
  split; [|split].
  - destruct (step_set_min K config me w uid Ha) as (w1 & -> & Hd1 & Hs1). cbn [snd].
    destruct (step_update_item K config me w1 uid) as (w2 & -> & Hd2 & Hs2);
      [by rewrite Hd1|]. cbn [snd]. rewrite Hs1 in Hs2. cbn [data] in Hs2.
    destruct (step_update_key K config me w2 uid key it) as (w3 & -> & _ & Hs3 & _);
      [by rewrite Hd2, Hd1|done|by rewrite Hs2|by rewrite Hd2, Hd1|].
    cbn [snd]. rewrite Hs3, Hs2. done.
  - destruct (step_set_min K config me w uid Ha) as (w1 & -> & Hd1 & Hs1). cbn [snd].
    destruct (step_update_item K config me w1 uid) as (w2 & -> & Hd2 & Hs2);
      [by rewrite Hd1|]. cbn [snd]. rewrite Hs1 in Hs2. cbn [data] in Hs2.
    destruct (step_update_key K config me w2 uid key it) as (w3 & -> & _ & _ & Hf3);
      [by rewrite Hd2, Hd1|done|by rewrite Hs2|by rewrite Hd2, Hd1|].
    cbn [snd]. rewrite Hf3; rewrite Hs2; done.
  - intros Hempty.
    destruct (step_update_item K config me w uid Ha) as (w2 & -> & Hd2 & Hs2). cbn [snd].
    destruct (step_update_key K config me w2 uid key it) as (w3 & -> & _ & Hs3 & _);
      [by rewrite Hd2|done|by rewrite Hs2|by rewrite Hd2|].
    cbn [snd]. rewrite Hs3, Hs2. cbn [data]. by rewrite Hempty.
Qed.

Lemma set_min_preset_outlives_its_flow_witness :
  state (session_of (sample_run stocked
                       [callback_query (Some 1) (Some "set_min");
                        callback_query (Some 1) (Some "update_item");
                        message (Some 1) (Some "A-1")]) 1)
  = Some UpdateItem_value.
Proof.
  apply (set_min_preset_outlives_its_flow sample_captions sample_config
           (Some "warehouse_bot") stocked 1 "A-1" widget);
    vm_compute; reflexivity.
Defined.

(** X18.  The AddAdmin dialogue makes an admin.  A super-admin who opens
    the dialogue and gives a numeric identity and a name ends with that
    identity in the admins table (once: an identity that was an admin is
    left as it was), so that the update of that user is served by the
    admin router from then on; the session is idle again. *)
Theorem add_admin_dialogue_makes_an_admin K config me (w : world) (uid : Z)
    (tg_id name : string) :
  is_admin (db w) uid = true ->
  is_super_admin config uid = true ->
  is_trigger K me (Some tg_id) = false ->
  is_trigger K me (Some name) = false ->
  Py.isdigit (Py.strip tg_id) = true ->
  Sqlite.int64 (Py.int (Py.strip tg_id)) = true ->
  let w' := run K config me w
              [callback_query (Some uid) (Some "admin_add");
               message (Some uid) (Some tg_id);
               message (Some uid) (Some name)] in
  is_admin (db w') (Py.int (Py.strip tg_id)) = true
  /\ (is_admin (db w) (Py.int (Py.strip tg_id)) = true -> admins (db w') = admins (db w))
  /\ (is_admin (db w) (Py.int (Py.strip tg_id)) = false ->
      admins (db w')
      = admins (db w) ++ [{| adm_tg_id := Py.int (Py.strip tg_id);
                             adm_name := note_of name; adm_added_at := clock w |}])
  /\ items (db w') = items (db w)
  /\ session_of w' uid = no_session.
Proof.
  intros Ha Hsuper Ht1 Ht2 Hdigit H64. cbv zeta. unfold run. cbn [fold_left]. unfold step.
  rewrite (feed_callback config K me uid _ "admin_add" w
             (fun uid _ => admin_add_start config uid) Ha eq_refl).
  2: { by destruct (state (session_of w uid)) as [[]|]. }
  unfold admin_add_start. rewrite Hsuper. coro.
  match goal with
  | |- context [feed_update K config me (message (Some uid) (Some tg_id)) ?w1] =>
      rewrite (feed_flow_step K config me uid AddAdmin_tg_id (Some tg_id) w1);
      [|done|by rewrite session_of_mk|done]
  end.
  cbn [flow_step]. unfold admin_add_tg_id. rewrite Hsuper. coro. rewrite Hdigit. coro.
  match goal with
  | |- context [feed_update K config me (message (Some uid) (Some name)) ?w2] =>
      rewrite (feed_flow_step K config me uid AddAdmin_name (Some name) w2);
      [|done|by rewrite session_of_mk|done]
  end.
  cbn [flow_step]. unfold admin_add_name. rewrite Hsuper. coro.
  repeat (progress (rewrite ?session_of_mk, ?session_of_same; cbn [state data no_session])).
  assert ((list_to_map [("tg_id", VInt (Py.int (Py.strip tg_id)))]
           ∪ data (session_of w uid) : gmap string pyval) !! "tg_id"
          = Some (VInt (Py.int (Py.strip tg_id)))) as ->.
  { apply lookup_union_Some_l. by simplify_map_eq. }
  coro. unfold add_admin. rewrite H64. cbn [negb].
  destruct (is_admin (db w) (Py.int (Py.strip tg_id))) eqn:E; coro; cbn [db admins set_admins items].
  - repeat split; try done. all: try by rewrite session_of_mk.
  - repeat split; try done. all: try by rewrite session_of_mk.
    unfold is_admin. cbn [admins set_admins]. rewrite existsb_app. cbn.
    by rewrite Z.eqb_refl, orb_true_r.
Qed.

Lemma add_admin_dialogue_makes_an_admin_witness :
  is_admin (db (sample_run started
                  [callback_query (Some 1) (Some "admin_add");
                   message (Some 1) (Some " 42 ");
                   message (Some 1) (Some "Keeper")])) 42 = true.
Proof.
  apply (add_admin_dialogue_makes_an_admin sample_captions sample_config
           (Some "warehouse_bot") started 1 " 42 " "Keeper");
    vm_compute; reflexivity.
Defined.

(** X19.  Paging through the list shows every item once: the pages 1 to
    [total_pages], as [render_items_page] counts and cuts them, joined in
    order, are the whole list in the order of the export; no page has
    more than [PAGE_SIZE] rows, and none is empty unless the store is. *)
Theorem pages_show_every_item_once (d : Database) :
  let total_pages := Z.max 1 (ceil_div (count_items d) PAGE_SIZE) in
  let page p := list_items d PAGE_SIZE ((p - 1) * PAGE_SIZE) in
  List.concat (List.map page (seqZ 1 total_pages)) = export_items d
  /\ (forall p, Z.of_nat (length (page p)) <= PAGE_SIZE)
  /\ (forall p, 1 <= p <= total_pages -> items d <> [] -> page p <> []).
Proof.
  cbv zeta. unfold list_items, export_items, count_items.
  pose proof (ceil_div_bounds (Z.of_nat (length (items d))) PAGE_SIZE ltac:(done)) as Hc.
  set (c := ceil_div (Z.of_nat (length (items d))) PAGE_SIZE) in *.
  set (l := Sqlite.order_by by_name (items d)).
  assert (length l = length (items d)) as Hl by apply length_order_by.
  unfold PAGE_SIZE in *. split; [|split].
  - rewrite <- (fmap_add_seqZ 1 0).
    change (Z.add 1 <$> seqZ 0 (1 `max` c)) with (List.map (Z.add 1) (seqZ 0 (1 `max` c))).
    rewrite List.map_map.
    rewrite (List.map_ext _ (fun p => Sqlite.limit_offset 10 (p * 10) l));
      [|intros p; f_equal; lia].
    rewrite (chunks_concat l 10 0 (1 `max` c)); [done|lia|lia|lia|lia].
  - intros p. unfold Sqlite.limit_offset. rewrite length_firstn. lia.
  - intros p Hp Hne. unfold Sqlite.limit_offset.
    assert (0 < length (items d))%nat as Hpos by (destruct (items d); [done|cbn; lia]).
    intros E. apply (f_equal length) in E. rewrite length_firstn, length_skipn in E.
    cbn [length] in E. lia.
Qed.



(** X21.  A row of the bulk import whose quantity or minimum reads as a NaN
    (the text [nan]) is refused by the store, which has no place for it,
    and the row is reported as a SKU that exists, whether or not the SKU
    is taken.  No item is stored, but the warehouse that the row names is
    created all the same. *)
Theorem nan_quantity_is_reported_as_a_taken_sku (w : world) (idx : Z)
    (row : list string) (r : bulk_report) (q m : float) :
  field row 0 "" <> "" -> field row 1 "" <> "" ->
  parse_number (field row 2 "") = Some q ->
  parse_number (field row 6 "0") = Some m ->
  is_nan q = true \/ is_nan m = true ->
  exists w',
    bulk_add_row idx row r w
    = (Ok {| created := created r; skipped := skipped r + 1;
             errors := errors r ++ [(idx, sku_exists)] |}, w')
    /\ items (db w') = items (db w)
    /\ forall wh, nonempty (field row 5 "") = Some wh ->
                  get_warehouse_by_name (db w') wh <> None.
Proof.
  intros Hsku Hname Hq Hm Hnan. unfold bulk_add_row.
  apply String.eqb_neq in Hsku, Hname. rewrite Hsku, Hname.
  assert (field row 2 "" <> "") as Hqty.
  { intros E. rewrite E in Hq. done. }
  apply String.eqb_neq in Hqty. rewrite Hqty. cbn [orb]. rewrite Hq, Hm.
  assert (forall d0 s n u l wh,
            add_item (clock w) s n q u l wh m d0 = (false, d0)) as Hadd.
  { intros. unfold add_item, Sqlite.not_null.
    destruct Hnan as [-> | ->]; cbn [negb]; by rewrite ?orb_true_r. }
  destruct (nonempty (field row 5 "")) as [wh|]; coro.
  - destruct (get_warehouse_by_name (db w) wh) eqn:Ewh; coro.
    + rewrite Hadd. coro. eexists. split; [reflexivity|]. cbn [db]. split; [done|].
      intros wh' [= <-]. by rewrite Ewh.
    + pose proof (add_warehouse_items (clock w) wh (db w)) as Hi.
      pose proof (add_warehouse_found (clock w) wh (db w)) as Hf.
      destruct (add_warehouse (clock w) wh (db w)) as [okw dw]. cbn [snd] in Hi, Hf. coro.
      rewrite Hadd. coro. eexists. split; [reflexivity|]. cbn [db]. split; [done|].
      by intros wh' [= <-].
  - rewrite Hadd. coro. eexists. split; [reflexivity|]. cbn [db]. split; [done|]. done.
Qed.

Lemma nan_quantity_is_reported_witness :
  exists w',
    bulk_add_row 3 ["N-1"; "Nut"; "nan"; ""; ""; "Yard"]
      {| created := 0; skipped := 0; errors := [] |} started
    = (Ok {| created := 0; skipped := 1; errors := [(3, sku_exists)] |}, w')
    /\ items (db w') = []
    /\ get_warehouse_by_name (db w') "Yard" <> None.
Proof.
  destruct (nan_quantity_is_reported_as_a_taken_sku started 3
              ["N-1"; "Nut"; "nan"; ""; ""; "Yard"]
              {| created := 0; skipped := 0; errors := [] |} nan 0%float)
    as (w' & E & Hi & Hw); try (vm_compute; reflexivity); try (vm_compute; discriminate).
  { by left. }
  exists w'. split; [exact E|]. split; [exact Hi|]. by apply Hw.
Defined.

(** X22.  Every button the bot shows is understood by the bot.  The data of
    each inline button of each keyboard of keyboards.py finds a handler
    among the callbacks (the buttons for the warehouse of a new item and
    for the field to update in the step they belong to), and that handler
    reads the numbers in the data back: it never ends with ValueError. *)
Theorem every_button_is_understood config (kb : markup) (d : string)
    (st : option State) :
  In d (callback_data kb) ->
  served_in d st ->
  match kb with warehouse_sort_kb _ sort _ _ => no_colon sort = true | _ => True end ->
  exists h,
    route (admin_callbacks config) st (Some d) = Some h
    /\ forall uid w, fst (h uid d w) <> Raise ValueError.
Proof.
  intros Hin [Hsel Hupd] Hsort.
  destruct kb as [| | | | | | | |page total_pages|l|l|warehouse_id sort page total_pages|l];
    cbn [callback_data] in Hin.
  - done.
  - repeat (destruct Hin as [<-|Hin]; [static_button st; try static_handler|]); try done.
    change "list_items:1" with ("list_items:" +:+ format_int 1).
    apply list_items_callback_reads.
  - repeat (destruct Hin as [<-|Hin]; [static_button st; try static_handler|]); done.
  - repeat (destruct Hin as [<-|Hin]; [static_button st; try static_handler|]); done.
  - repeat (destruct Hin as [<-|Hin]; [static_button st; try static_handler|]); done.
  - repeat (destruct Hin as [<-|Hin]; [static_button st; try static_handler|]); done.
  - repeat (destruct Hin as [<-|Hin]; [static_button st; try static_handler|]); done.
  - repeat (destruct Hin as [<-|Hin];
            [ try (rewrite (Hupd eq_refl)); static_button st;
              first [ static_handler
                    | match goal with
                      | |- context [update_item_field_cb _ (String _ ?s)] => idtac
                      end;
                      by apply (update_item_field_cb_reads _ _ _ eq_refl) ]
            | ]); done.
  - apply in_app_or in Hin as [Hin|Hin]; [|apply in_app_or in Hin as [Hin|Hin]].
    + destruct (1 <? page); [|done]. destruct Hin as [<-|[]].
      static_button st. apply list_items_callback_reads.
    + destruct (page <? total_pages); [|done]. destruct Hin as [<-|[]].
      static_button st. apply list_items_callback_reads.
    + destruct Hin as [<-|[]]. static_button st. static_handler.
  - apply in_app_or in Hin as [Hin|Hin].
    + apply in_map_iff in Hin as (row & <- & _). rewrite (Hsel eq_refl).
      static_button st. apply add_item_warehouse_select_reads.
    + destruct Hin as [<-|[]]. rewrite (Hsel eq_refl).
      static_button st. apply add_item_warehouse_select_skip.
  - apply in_app_or in Hin as [Hin|Hin].
    + apply in_map_iff in Hin as (row & <- & _).
      static_button st.
      change ("warehouse_filter:" +:+ format_int (wh_id row) +:+ ":name:1")
        with ("warehouse_filter:" +:+ format_int (wh_id row) +:+ ":" +:+ "name" +:+ ":"
              +:+ format_int 1).
      by apply warehouse_filter_reads.
    + destruct Hin as [<-|[<-|[]]]; static_button st; [|static_handler].
      change "warehouse_filter:0:name:1"
        with ("warehouse_filter:" +:+ format_int 0 +:+ ":" +:+ "name" +:+ ":" +:+ format_int 1).
      by apply warehouse_filter_reads.
  - cbv zeta in Hin. cbn [app In] in Hin.
    do 3 (destruct Hin as [<-|Hin];
          [static_button st; by apply warehouse_filter_reads|]).
    apply in_app_or in Hin as [Hin|Hin]; [|apply in_app_or in Hin as [Hin|Hin]].
    + destruct (1 <? page); [|done]. destruct Hin as [<-|[]].
      static_button st. by apply warehouse_filter_reads.
    + destruct (page <? total_pages); [|done]. destruct Hin as [<-|[]].
      static_button st. by apply warehouse_filter_reads.
    + destruct Hin as [<-|[]]. static_button st. static_handler.
  - apply in_app_or in Hin as [Hin|Hin].
    + apply in_map_iff in Hin as (it & <- & _).
      static_button st. apply add_item_prefill_reads.
    + destruct Hin as [<-|[]]. static_button st. apply add_item_prefill_skip.
Qed.

Lemma every_button_is_understood_witness :
  exists h,
    route (admin_callbacks sample_config) None (Some "list_items:3") = Some h
    /\ forall uid w, fst (h uid "list_items:3" w) <> Raise ValueError.
Proof.
  apply (every_button_is_understood sample_config (pagination_kb 2 3) "list_items:3" None).
  - vm_compute. right. left. reflexivity.
  - split; intros H; vm_compute in H; discriminate H.
  - exact I.
Defined.

(** X23.  A button that belongs to a step is ignored outside that step.
    When an admin presses a button for the warehouse of a new item, or
    for the field to update, and is not (or no longer) at that step, no
    handler takes the callback: it is not acknowledged, nothing is
    answered and nothing changes. *)
Theorem a_button_outside_its_step_is_ignored K config me (w : world) (uid : Z)
    (d : string) :
  is_admin (db w) uid = true ->
  (Py.startswith "warehouse_select:" d = true
   /\ state (session_of w uid) <> Some AddItem_warehouse)
  \/ (Py.startswith "update_field:" d = true
      /\ state (session_of w uid) <> Some UpdateItem_field) ->
  feed_update K config me (callback_query (Some uid) (Some d)) w = (Ok tt, w).
Proof.
  intros Ha Hd. unfold feed_update, IsAdmin. coro. rewrite Ha.
  assert (route (admin_callbacks config) (state (session_of w uid)) (Some d) = None) as ->.
  { destruct Hd as [[[s ->]%startswith_prefix Hst]|[[s ->]%startswith_prefix Hst]];
      unfold route, admin_callbacks; cbn [List.find fst];
      unfold in_state; repeat case_bool_decide; first [done | reflexivity]. }
  unfold public_callback. coro. by rewrite Ha.
Qed.

Lemma a_button_outside_its_step_is_ignored_witness :
  feed_update sample_captions sample_config (Some "warehouse_bot")
    (callback_query (Some 1) (Some "warehouse_select:3")) started
  = (Ok tt, started).
Proof.
  apply a_button_outside_its_step_is_ignored.
  - vm_compute. reflexivity.
  - left. split; [vm_compute; reflexivity|]. vm_compute. discriminate.
Defined.

(** X24.  A search for the SKU or for the name of an item finds the item,
    in a store of at most fifty items (the search shows fifty rows at
    most), whatever the letters of the text: the wildcards of LIKE in it
    match themselves. *)
Theorem search_finds_an_item_by_its_sku_or_name (d : Database) (it : item) (q : string) :
  In it (items d) ->
  Py.strip q = it_sku it \/ Py.strip q = it_name it ->
  (length (items d) <= 50)%nat ->
  In it (search_items d q).
Proof.
  intros Hin Hq Hlen. unfold search_items, Sqlite.limit_offset.
  change (Z.to_nat 0) with 0%nat. rewrite drop_0, firstn_all2.
  2: { rewrite length_order_by. change (Z.to_nat 50) with 50%nat.
       etransitivity; [apply length_filter|done]. }
  apply In_order_by, list_elem_of_In, list_elem_of_filter. split; [|by apply list_elem_of_In].
  apply orb_true_iff. destruct Hq as [-> | ->]; [left|right]; apply like_contains.
Qed.

Lemma search_finds_an_item_witness : In widget (search_items (db stocked) " A-1 ").
Proof.
  apply search_finds_an_item_by_its_sku_or_name.
  - vm_compute. left. reflexivity.
  - left. vm_compute. reflexivity.
  - vm_compute. lia.
Defined.

(** X25.  The id that a card shows selects the item.  In a store whose ids
    are distinct (they are a primary key), the decimal text of the id of
    an item, with blanks around it or not, is a key that finds that item,
    even when the same digits are the SKU of another item. *)
Theorem the_id_of_an_item_is_a_key_for_it (d : Database) (it : item) (key : string) :
  NoDup (it_id <$> items d) ->
  In it (items d) ->
  0 <= it_id it < 2 ^ 63 ->
  Py.strip key = format_int (it_id it) ->
  get_item_by_key d key = Ok (Some it).
Proof.
  intros Hnd Hin Hid Hkey. unfold get_item_by_key. rewrite Hkey.
  unfold format_int. destruct (Z.ltb_spec (it_id it) 0); [lia|].
  assert (Py.isdigit (digits (it_id it)) = true) as ->.
  { unfold Py.isdigit. pose proof (digits_nonempty (it_id it)).
    destruct (digits (it_id it)) eqn:E; [done|]. rewrite <- E. apply digits_all. lia. }
  rewrite digits_value by lia. unfold get_item_by_id, Sqlite.int64.
  assert ((- 2 ^ 63 <=? it_id it) && (it_id it <? 2 ^ 63) = true) as ->.
  { apply andb_true_iff. split; [apply Z.leb_le|apply Z.ltb_lt]; lia. }
  by rewrite find_by_id_elem.
Qed.

Lemma the_id_of_an_item_is_a_key_witness : get_item_by_key (db stocked) " 1 " = Ok (Some widget).
Proof.
  apply the_id_of_an_item_is_a_key_for_it.
  - vm_compute. apply NoDup_singleton.
  - vm_compute. left. reflexivity.
  - vm_compute. split; [discriminate|reflexivity].
  - vm_compute. reflexivity.
Defined.
